(* ===== verification/_CoqProject ===== *)
-Q . S2P
Prelude.v
Ising.v
Annealer.v
Abi.v
NumberFormat.v
Wallet.v
Chart.v
WalletUI.v
WalletPage.v
Polling.v
Http.v
Unlock.v
UnlockPage.v
Gateway.v
GatewayUI.v
GatewayPage.v
