(* ===== verification/Prelude.v ===== *)
(** * A verification library for the Qubit Chain Hong Kong front ends

    The repository holds three browser programs:

    - The virtual annealer.  [src/virtual-annealer/annealer/anneal.js]
      (class [VirtualAnnealer]) minimises the Ising energy
      [E(s) = - sum_{i<j} J_ij s_i s_j - sum_i h_i s_i] over spins in
      {+1,-1} by simulated annealing.  [src/virtual-annealer/app.js] is
      the page that sells one annealing job per LOT-token payment made
      through MetaMask, and calls [annealAsync].
    - The Lightning pay-to-unlock store.  [src/lightning-unlock/js/app.js]
      uses the LNbits wrapper [lnbits.js] to invoice a product of
      [config.js], polls for the payment and then reveals the download.
    - The Qubitchain gateway.  [src/app.js] keeps API keys in
      [localStorage] and sells each API call for a Lightning invoice,
      polling LNbits with its own [waitForPayment].

    Files of the development, in dependency order, one Module each:

    - [Prelude] (this file): the scope [anneal_scope], the boolean
      comparison [Qltb] on rationals, the [Math.random] interface
      [MathLib] with its contract [MathLibLaws], the JS array reads
      [spin_at], [vec_get], [mat_get], the sums [sumQ] with their
      algebra, the lemmas that turn a [for] loop of [x -= ...] or
      [x += ...] into a sum, the [spinner] markup the pages' busy
      buttons show, [rtc_iter] and [iter_idempotent] for a listener
      registered several times, and the hint databases.
    - [Ising]: the problem ([N], [J], [h]), [calculateEnergy],
      [calculateEnergyChange] and the flip [spins[index] *= -1].
      Theorem: the O(N) delta is the energy difference of the flip.
    - [Annealer]: the object as a record, the constructor, one Metropolis
      step, the synchronous [anneal] and the frame-chunked [annealAsync].
      Theorems: both runs give the same result and generator state; the
      tracked energies are the Hamiltonian of the tracked spins; the best
      energy never rises; index, history and progress facts; a
      Park-Miller [MathLib] instance runs the witnesses.
    - [Abi]: the call data of [encodeFunctionCall], BigInt
      [toString(16)] and [parseInt(s, 16)] (exact on [N]; JS rounds a
      result above 2^53 to a double).  Theorem: the layout of the
      transfer call.
    - [NumberFormat]: the two number formats the pages print with,
      [new Intl.NumberFormat('en-US').format] (the gateway's
      [formatSats]) and [Number.prototype.toFixed] (the annealer page's
      energies and balances), as models of the built-ins on exact
      rationals ([toFixed] below [1e21]); no theorem of its own.
    - [Wallet]: the LOT page: [appState] with the [sessionStorage] flag,
      every handler split at its [await]s, an [Inductive] step relation
      and an executable event interpreter proved equal to it.  Theorems:
      every completed job is paid for (invariant by rule induction); the
      shipped config never pays; a second payment made during a job is
      lost; the [runAnnealing] gate; the "steps completed" figure.
    - [Chart]: [displayEnergyChart].  Theorem: no [RangeError], 40 cells
      per bar, the sampled indices, at most 99 rows.
    - [WalletUI]: the rest of the LOT page: its whole [CONFIG] and
      [CHAIN_CONFIG] with the console warnings, [checkChainId] as the
      wallet requests it makes, [updateWalletUI], [showAlert], the texts
      of [updateProgress] and [displayResults] and the spin grid.
    - [WalletPage]: the LOT page as a user drives it: [Wallet.page]
      beside the DOM its handlers write (alerts, the wallet view, the
      balance text, the pay and run buttons, the annealing, progress and
      result panels), [connectWallet] as a flow through its four
      [await]s (several may overlap), the [accountsChanged] and
      [chainChanged] listeners registered once per completed connection,
      [payWithLOT] through every receipt poll, [runAnnealing] with its
      [finally], as a step relation.  Theorems: every page step is a
      path of [Wallet.step]s (refinement, so the [Wallet] theorems hold
      of the page); the buttons are disabled, with their spinners,
      exactly while their handler runs; complete connection and payment
      flows; an empty account list leaves the page connected with no
      account; [k] registrations of the listener act as one call but
      alert [k] times.
    - [Polling]: LNbits polling.  A [poller] record and its contract
      [poller_correct] (the first paid answer within a budget) are the
      interface between the pollers and their clients; [pollPayment] and
      the gateway's [waitForPayment] are proved to implement it
      (refinement).  [pollPayment]'s [poll] closure is [poll_call]; its
      [setTimeout] edges form a well-founded relation (termination with
      no outside bound).
    - [Http]: the LNbits transport of both Lightning pages: the
      [LNbitsAPI] class ([createInvoice], [checkPayment],
      [generateQRCodeUrl]) and the gateway's [lnbitsRequest],
      [createInvoice], [checkInvoiceStatus]; requests as records, what
      [fetch] returns as a network failure or a response, thrown errors
      as [Err] with their message; [encodeURIComponent].  Theorem: the
      QR-code URL reads back as exactly the payment request.
    - [Unlock]: the pay-to-unlock page over any correct poller, its
      configuration and its alerts.  Theorems: the download is revealed
      only for an invoice LNbits answered paid; a payment seen after
      the last check is never honoured; the URL's product parameter and
      LNbits's error text reach the alert's [innerHTML] unescaped.
      [CONFIG.PRODUCTS[productId]] is a JS property read, which also
      finds the members of [Object.prototype]; pages start from a URL
      whose product parameter is not one of them.
    - [UnlockPage]: the pay-to-unlock page with the DOM its handlers
      write (alerts, the button text, the three sections, the invoice,
      the payment status line and its progress), [handleDownload] and
      [handleCopyInvoice], and the listeners of [setupEventListeners]
      as a step relation.  Theorems: every step is an [Unlock] step or
      leaves the page state alone; the unlock section and
      the confirmation line are shown exactly when the page is paid,
      with the download link set.
    - [Gateway]: [generateApiKey], [generateUUID] (with [ToInt32] and the
      bit operations of the variant digit), the key store, [trim] and
      [handleTestAPI], and [callHelloAPI] over any correct poller.
      Theorems: identifier formats; every counted use was paid for and
      charged the cost; [deleteApiKey]; a paid call whose key is deleted
      is charged to no key.
    - [GatewayUI]: src/config.js with its [process.env] overrides,
      [formatSats], [renderApiKeys], [updateStats], [displayInvoice] and
      [showAlert].  Theorems: the key store is well typed on every
      reachable state (type invariant), so the rendered [onclick]
      handlers are quote-safe; a stored key pasted with white space
      around it starts the call.
    - [GatewayPage]: the gateway as a whole page: the DOM its handlers
      write (alerts, the Test API and Refresh Balance buttons, the
      result box, the invoice, the rendered keys) beside [appState],
      every handler split at its [await]s ([handleTestAPI] around
      [callHelloAPI], [handleRefreshBalance], the key and copy handlers,
      [initializeApp]) and a step relation interleaving them, with the
      pending balance requests as a list.  Theorems: every page step is
      a [Gateway] step or leaves [appState] alone (refinement, so the
      [Gateway] theorems hold of the page); the Test API button is
      disabled exactly while its one call is pending.

    Numbers.  JS numbers are exact rationals [Q]; the theorems state
    what the code's floating point approximates.  A form field or a
    parse that can give NaN is an [option] ([None] for NaN, every
    comparison false).  Integers that the code treats as 32-bit ([| 0])
    wrap at 2^32; counts are [nat], token amounts [N].

    Randomness.  [Math.random] is a generator threaded through the
    model; the theorems hold for every generator, and those that need
    draws in [0,1) assume [MathLibLaws].

    Concurrency.  Each page is a step relation whose steps are the
    synchronous pieces of its handlers between [await]s; the
    environment (MetaMask, LNbits, form values, page reloads) chooses
    any value a step accepts.  Ghost counters or lists in the page
    states (payments observed, hashes answered paid, calls paid)
    are read only by the theorems.

    Loops and fuel.  [for] loops over ranges are [fold_left] over [seq]
    or structural recursion on the count.  Four loops are bounded by
    fuel with a theorem that the fuel is enough: the
    [requestAnimationFrame] loop ([max 1 ceil(steps/10)] frames), the
    chart loop ([length] iterations), [pollPayment]
    ([max 1 maxAttempts] calls) and [waitForPayment] ([maxAttempts + 1]
    rounds).  For [pollPayment] the bound is also derived from the
    code: its rescheduling relation is well-founded with the measure
    [maxAttempts - attempts].  [waitForTransaction], which has no
    bound, is one step of [WalletPage] per receipt poll.

    Strings.  Text the code computes on is [list ascii] (code points
    below 256); [encodeURIComponent] writes the UTF-8 bytes of those.
    JSON bodies are values of [Http.json] ([JSON.stringify] and
    [JSON.parse] are the library's); DOM output is modelled by the text
    the handlers write (an alert's [innerHTML] or text, button labels
    and [disabled] flags, hidden sections, status lines, the
    interpolated parts of a rendered row), not by the static markup
    around it; what the markup holds before a handler writes is [None],
    except the gateway's button labels, taken to be those the handlers
    restore, and the annealer page's button labels, which are
    parameters of [WalletPage].

    Not modelled: the static HTML of the pages, [fetch] beyond its
    outcome, MetaMask's RPC beyond its answers, the [addEventListener]
    calls themselves (each listener is a constructor of its page's
    step relation), the clipboard and [confirm] dialogs themselves
    (their outcome is an input), the date of
    [toISOString]/[toLocaleString], timers beyond the order they impose,
    the rounding of doubles (so [parseInt] above 2^53 and [toFixed]
    from [1e21] up), and an unlock page loaded with a product parameter
    that names a member of [Object.prototype]. *)

From Stdlib Require Import QArith Qround Qpower Lqa.
From Stdlib Require Ascii String.
From stdpp Require Import base list relations.

Declare Scope anneal_scope.
Delimit Scope anneal_scope with anneal.

(** ** Characters of the pages' HTML templates *)

(** The double quote the templates put around attribute values. *)
Definition dq : String.string := String.String (Ascii.ascii_of_nat 34) String.EmptyString.

(** A line feed. *)
Definition nl : String.string := String.String (Ascii.ascii_of_nat 10) String.EmptyString.

(** A button's [innerHTML] while its handler runs: the spinner, then
    [text]. *)
Import String.StringSyntax.
Local Open Scope string_scope.

Definition spinner (text : String.string) : String.string :=
  String.append "<span class=" (String.append dq (String.append "spinner"
    (String.append dq (String.append "></span> " text)))).

Local Close Scope string_scope.

(** ** Boolean comparison on rationals, as the code's [<] *)

Definition Qltb (x y : Q) : bool := negb (Qle_bool y x).

Notation "x <q? y" := (Qltb x y) (at level 70, no associativity) : anneal_scope.

Lemma Qltb_true x y : Qltb x y = true <-> (x < y)%Q.
Proof.
  unfold Qltb. rewrite negb_true_iff.
  split; intros H.
  - apply Qnot_le_lt. intros Hle. apply Qle_bool_iff in Hle. congruence.
  - destruct (Qle_bool y x) eqn:E; [|reflexivity].
    apply Qle_bool_iff in E. exfalso. apply (Qlt_not_le x y); assumption.
Qed.

Lemma Qltb_false x y : Qltb x y = false <-> (y <= x)%Q.
Proof.
  unfold Qltb. rewrite negb_false_iff. apply Qle_bool_iff.
Qed.

Lemma Qltb_spec x y : BoolSpec (x < y)%Q (y <= x)%Q (Qltb x y).
Proof.
  destruct (Qltb x y) eqn:E; constructor.
  - by apply Qltb_true.
  - by apply Qltb_false.
Qed.

(** Case analysis on every [Qltb] test of the goal. *)
Ltac case_Qltb :=
  repeat match goal with
  | |- context [Qltb ?x ?y] => destruct (Qltb_spec x y)
  end.

(** ** Math.random

    The programs draw from [Math.random]; the model threads a generator
    state [G] through every draw.  [Math.exp] is any function on the
    model's numbers. *)

Class MathLib (G : Type) := {
  math_random : G -> Q * G;
  math_exp : Q -> Q
}.

(** The contract of [Math.random]: every draw lies in [0, 1). *)
Class MathLibLaws (G : Type) `{MathLib G} := {
  random_range : forall g, (0 <= fst (math_random g) < 1)%Q
}.

(** [Math.floor(Math.random() * n)] lies in [[0, n)]: the index the
    programs pick from a draw. *)
Lemma floor_scaled_draw (u : Q) (n : Z) :
  (0 <= u < 1)%Q -> (0 < n)%Z -> (0 <= Qfloor (u * inject_Z n) < n)%Z.
Proof.
  intros [Hu0 Hu1] Hn.
  assert (Hn' : (0 < inject_Z n)%Q) by (change 0%Q with (inject_Z 0); rewrite <- Zlt_Qlt; lia).
  set (x := (u * inject_Z n)%Q).
  assert (Hx0 : (0 <= x)%Q) by (apply Qmult_le_0_compat; lra).
  assert (Hx1 : (x < inject_Z n)%Q).
  { apply Qlt_le_trans with (1 * inject_Z n)%Q; [apply Qmult_lt_compat_r; assumption | lra]. }
  pose proof (Qfloor_le x) as Hf1. pose proof (Qlt_floor x) as Hf2.
  split.
  - assert (Hp : (0 < inject_Z (Qfloor x + 1))%Q) by lra.
    change 0%Q with (inject_Z 0) in Hp. rewrite <- Zlt_Qlt in Hp. lia.
  - assert (Hp : (inject_Z (Qfloor x) < inject_Z n)%Q) by lra.
    rewrite <- Zlt_Qlt in Hp. exact Hp.
Qed.

(** ** JS array reads

    [spins[i]], [h[i]] and [J[i][j]] on arrays the code always indexes
    in range.  Out of range JS yields [undefined] (NaN in arithmetic);
    the model reads 0 there, and every theorem that reaches such a read
    carries the hypothesis that rules it out. *)

Definition spin_at (s : list Z) (i : nat) : Q := inject_Z (default 0%Z (s !! i)).
Definition vec_get (v : list Q) (i : nat) : Q := default 0%Q (v !! i).
Definition mat_get (m : list (list Q)) (i j : nat) : Q :=
  default 0%Q (m !! i ≫= fun row => row !! j).

Notation "v @[ i ]" := (vec_get v i) (at level 1, format "v @[ i ]") : anneal_scope.
Notation "m @[ i , j ]" := (mat_get m i j) (at level 1, format "m @[ i ,  j ]") : anneal_scope.

Open Scope anneal_scope.

(** ** Finite sums over index lists *)

Fixpoint sumQ (l : list nat) (f : nat -> Q) : Q :=
  match l with
  | [] => 0
  | i :: l' => f i + sumQ l' f
  end.

#[export] Instance sumQ_proper :
  Proper (eq ==> pointwise_relation nat Qeq ==> Qeq) sumQ.
Proof.
  intros l ? <- f g Hfg. induction l as [|i l IH]; simpl; [reflexivity|].
  by rewrite (Hfg i), IH.
Qed.

Section Sums.
Open Scope Q_scope.

Lemma sumQ_ext (l : list nat) (f g : nat -> Q) :
  (forall i, In i l -> f i == g i) -> sumQ l f == sumQ l g.
Proof.
  induction l as [|i l IH]; intros H; simpl; [reflexivity|].
  rewrite (H i (or_introl eq_refl)), IH; [reflexivity|].
  intros j Hj. apply H. by right.
Qed.

Lemma sumQ_zero (l : list nat) (f : nat -> Q) :
  (forall i, In i l -> f i == 0) -> sumQ l f == 0.
Proof.
  intros H. transitivity (sumQ l (fun _ => 0)).
  - by apply sumQ_ext.
  - induction l; simpl; [reflexivity|]. rewrite IHl; [reflexivity|].
    intros; apply H; by right.
Qed.

Lemma sumQ_app (l1 l2 : list nat) f :
  sumQ (l1 ++ l2) f == sumQ l1 f + sumQ l2 f.
Proof. induction l1; simpl; [ring|]. rewrite IHl1. ring. Qed.

Lemma sumQ_plus (l : list nat) f g :
  sumQ l (fun i => f i + g i) == sumQ l f + sumQ l g.
Proof. induction l; simpl; [ring|]. rewrite IHl. ring. Qed.

Lemma sumQ_minus (l : list nat) f g :
  sumQ l (fun i => f i - g i) == sumQ l f - sumQ l g.
Proof. induction l; simpl; [ring|]. rewrite IHl. ring. Qed.

Lemma sumQ_scale (l : list nat) c f :
  sumQ l (fun i => c * f i) == c * sumQ l f.
Proof. induction l; simpl; [ring|]. rewrite IHl. ring. Qed.

(** Splitting [seq a n] at an index [k] inside it. *)
Lemma seq_split_at a n k :
  (a <= k < a + n)%nat ->
  seq a n = seq a (k - a) ++ k :: seq (S k) (a + n - S k).
Proof.
  intros Hk.
  replace n with ((k - a) + S (a + n - S k))%nat at 1 by lia.
  rewrite seq_app. f_equal. replace (a + (k - a))%nat with k by lia.
  reflexivity.
Qed.

Lemma sumQ_seq_split a n k f :
  (a <= k < a + n)%nat ->
  sumQ (seq a n) f ==
    sumQ (seq a (k - a)) f + f k + sumQ (seq (S k) (a + n - S k)) f.
Proof.
  intros Hk. rewrite (seq_split_at a n k Hk), sumQ_app. simpl. ring.
Qed.

(** A point mass at [k] sums to its weight when [k] is in the range,
    to 0 otherwise. *)
Lemma sumQ_point a n k c :
  sumQ (seq a n) (fun j => if decide (j = k) then c else 0) ==
    if decide (a <= k < a + n)%nat then c else 0.
Proof.
  case_decide as Hk.
  - rewrite (sumQ_seq_split a n k _ Hk).
    rewrite !sumQ_zero; [rewrite decide_True by reflexivity; ring| |];
      intros j Hj%in_seq; rewrite decide_False by lia; reflexivity.
  - apply sumQ_zero. intros j Hj%in_seq. rewrite decide_False by lia.
    reflexivity.
Qed.

(** Summing a function truncated to the indices below [k]. *)
Lemma sumQ_seq_prefix n k f :
  (k <= n)%nat ->
  sumQ (seq 0 n) (fun i => if decide (i < k)%nat then f i else 0) ==
    sumQ (seq 0 k) f.
Proof.
  intros Hk. replace n with (k + (n - k))%nat at 1 by lia.
  rewrite seq_app, sumQ_app. simpl.
  rewrite (sumQ_zero (seq k _)), (sumQ_ext (seq 0 k) _ f).
  - ring.
  - intros i Hi%in_seq. rewrite decide_True by lia. reflexivity.
  - intros i Hi%in_seq. rewrite decide_False by lia. reflexivity.
Qed.

(** A [for] loop that subtracts [f i] from an accumulator computes the
    accumulator minus the sum; the loop body may be any expression
    equal to that subtraction (it may itself be a nested loop). *)
Lemma fold_left_sub (F : Q -> nat -> Q) (f : nat -> Q) :
  (forall e i, F e i == e - f i) ->
  forall l e0, fold_left F l e0 == e0 - sumQ l f.
Proof.
  intros HF l. induction l as [|i l IH]; intros e0; simpl; [ring|].
  rewrite IH, HF. ring.
Qed.

Lemma fold_left_add (F : Q -> nat -> Q) (f : nat -> Q) :
  (forall e i, F e i == e + f i) ->
  forall l e0, fold_left F l e0 == e0 + sumQ l f.
Proof.
  intros HF l. induction l as [|i l IH]; intros e0; simpl; [ring|].
  rewrite IH, HF. ring.
Qed.
End Sums.

(** ** Loops that read the same values compute the same result *)

Lemma fold_left_ext_in {A B} (f g : A -> B -> A) (l : list B) (a : A) :
  (forall acc x, In x l -> f acc x = g acc x) ->
  fold_left f l a = fold_left g l a.
Proof.
  revert a. induction l as [|x l IH]; intros a H; simpl; [reflexivity|].
  rewrite H by (left; reflexivity). apply IH. intros; apply H; by right.
Qed.

(** An invariant of a [for] loop's accumulator. *)
Lemma fold_left_invariant {A B} (P : A -> Prop) (f : A -> B -> A) (l : list B) (a : A) :
  P a -> (forall acc x, In x l -> P acc -> P (f acc x)) -> P (fold_left f l a).
Proof.
  revert a. induction l as [|x l IH]; intros a Ha Hf; simpl; [exact Ha|].
  apply IH; [apply Hf; [left; reflexivity|exact Ha]|].
  intros; apply Hf; [right|]; assumption.
Qed.

(** ** Repeated multiplication and powers *)

Lemma Qpower_succ_nat (q : Q) (k : nat) :
  (q ^ Z.of_nat (S k) == q ^ Z.of_nat k * q)%Q.
Proof.
  rewrite Nat2Z.inj_succ, <- Z.add_1_r, Qpower_plus' by lia.
  rewrite Qpower_1_r. reflexivity.
Qed.

(** [t *= q] repeated [k] times. *)
Lemma iter_mult_power (q t : Q) (k : nat) :
  (Nat.iter k (fun x => x * q) t == t * q ^ Z.of_nat k)%Q.
Proof.
  induction k as [|k IH]; simpl Nat.iter.
  - simpl. ring.
  - rewrite IH, Qpower_succ_nat. ring.
Qed.

Lemma Forall2_map_Qeq {A} (f g : A -> Q) (l : list A) :
  (forall x, In x l -> (f x == g x)%Q) -> Forall2 Qeq (map f l) (map g l).
Proof.
  induction l as [|x l IH]; intros H; simpl; constructor.
  - apply H. left; reflexivity.
  - apply IH. intros; apply H; right; assumption.
Qed.

(** The indices [k < n] with [k mod 10 = 0]: [ceil(n/10)] of them. *)
Lemma count_multiples_of_10 n :
  length (List.filter (fun k => Nat.eqb (k mod 10) 0) (seq 0 n)) = ((n + 9) / 10)%nat.
Proof.
  induction n as [|n IH]; [reflexivity|].
  rewrite seq_S, Nat.add_0_l, List.filter_app, length_app, IH. cbn [List.filter].
  destruct (Nat.eqb_spec (n mod 10) 0) as [E|E]; cbn [length].
  - pose proof (Nat.div_mod_eq n 10) as D. rewrite E in D.
    replace (S n + 9)%nat with ((n + 9) + 1)%nat by lia.
    assert (Hq : ((n + 9) / 10 = n / 10)%nat).
    { rewrite D at 1. replace (10 * (n / 10) + 0 + 9)%nat with (9 + (n / 10) * 10)%nat by lia.
      rewrite Nat.div_add by lia. reflexivity. }
    assert (Hq' : ((n + 9 + 1) / 10 = S (n / 10))%nat).
    { rewrite D at 1. replace (10 * (n / 10) + 0 + 9 + 1)%nat with (0 + S (n / 10) * 10)%nat by lia.
      rewrite Nat.div_add by lia. reflexivity. }
    lia.
  - pose proof (Nat.div_mod_eq n 10) as D. pose proof (Nat.mod_upper_bound n 10) as U.
    set (q := (n / 10)%nat) in *. set (r := (n mod 10)%nat) in *.
    assert (Hq : ((n + 9) / 10 = S q)%nat).
    { replace (n + 9)%nat with ((r - 1) + S q * 10)%nat by lia.
      rewrite Nat.div_add, Nat.div_small by lia. reflexivity. }
    assert (Hq' : ((S n + 9) / 10 = S q)%nat).
    { replace (S n + 9)%nat with (r + S q * 10)%nat by lia.
      rewrite Nat.div_add, Nat.div_small by lia. reflexivity. }
    lia.
Qed.

(** A handler registered [n] times runs [n] times: when each run is a
    step of [R], the [n] runs are a path of [R]. *)
Lemma rtc_iter {A} (R : relation A) (f : A -> A) (n : nat) (a : A) :
  (forall x, R x (f x)) -> rtc R a (Nat.iter n f a).
Proof.
  intros Hf. induction n as [|n IH]; [apply rtc_refl|].
  eapply rtc_r; [exact IH | apply Hf].
Qed.

(** Running an idempotent function [S n] times is running it once. *)
Lemma iter_idempotent {A} (f : A -> A) (n : nat) (a : A) :
  (forall x, f (f x) = f x) -> Nat.iter (S n) f a = f a.
Proof.
  intros Hf. induction n as [|n IH]; [reflexivity|].
  change (Nat.iter (S (S n)) f a) with (f (Nat.iter (S n) f a)). rewrite IH. apply Hf.
Qed.

Create HintDb anneal discriminated.
Create Rewrite HintDb anneal_sums.
#[export] Hint Rewrite sumQ_app sumQ_plus sumQ_minus sumQ_scale : anneal_sums.
