(* ===== verification/Ising.v ===== *)
(** * The Ising energy of [anneal.js] and its O(N) flip delta

    [calculateEnergy] and [calculateEnergyChange] of class
    [VirtualAnnealer] (src/virtual-annealer/annealer/anneal.js), written
    as the nested [for] loops of the code, and the in-place flip
    [this.spins[index] *= -1] of the annealing step.  The main theorem,
    [energy_delta_correct], says that the delta the code computes in
    O(N) is the exact energy difference of the flip when [J] is
    symmetric; [energy_ignores_diagonal] says that [J[i][i]] is never
    read. *)

From Stdlib Require Import QArith Qround Lqa.
From stdpp Require Import base list.
From S2P Require Import Prelude.

Module Ising.

(** The fields [this.N], [this.J], [this.h] of a [VirtualAnnealer]. *)
Record instance := mkInstance {
  N : nat;
  J : list (list Q);
  h : list Q
}.

Section Energy.
Open Scope Q_scope.
Variable p : instance.

(** [calculateEnergy(spins)], lines 82-98: the interaction loop over
    pairs [i < j], then the field loop. *)
Definition calculateEnergy (spins : list Z) : Q :=
  let energy :=
    fold_left (fun energy i =>
      fold_left (fun energy j =>
        energy - p.(J) @[i, j] * spin_at spins i * spin_at spins j)
        (seq (S i) (p.(N) - S i)) energy)
      (seq 0 p.(N)) 0 in
  fold_left (fun energy i => energy - p.(h) @[i] * spin_at spins i)
    (seq 0 p.(N)) energy.

(** [calculateEnergyChange(spins, index)], lines 107-122. *)
Definition calculateEnergyChange (spins : list Z) (index : nat) : Q :=
  let delta :=
    fold_left (fun delta j =>
      if decide (j = index) then delta
      else delta + p.(J) @[index, j] * spin_at spins j)
      (seq 0 p.(N)) 0 in
  let delta := delta + p.(h) @[index] in
  2 * spin_at spins index * delta.
End Energy.

(** [this.spins[index] *= -1] (line 156). *)
Definition flip (spins : list Z) (index : nat) : list Z :=
  <[index := (default 0 (spins !! index) * -1)%Z]> spins.

(** The coupling matrix is symmetric on the spin indices. *)
Definition symmetric (p : instance) : Prop :=
  forall i j, (i < p.(N))%nat -> (j < p.(N))%nat ->
    (p.(J) @[i, j] == p.(J) @[j, i])%Q.

Definition symmetricb (p : instance) : bool :=
  forallb (fun i => forallb (fun j => Qeq_bool (p.(J) @[i, j]) (p.(J) @[j, i]))
                      (seq 0 p.(N))) (seq 0 p.(N)).

Lemma symmetricb_spec p : symmetricb p = true <-> symmetric p.
Proof.
  unfold symmetricb, symmetric. rewrite forallb_forall. split.
  - intros H i j Hi Hj.
    specialize (H i (proj2 (in_seq _ _ _) (conj (Nat.le_0_l _) Hi))).
    rewrite forallb_forall in H.
    apply Qeq_bool_iff, H, in_seq. lia.
  - intros H i Hi%in_seq. apply forallb_forall. intros j Hj%in_seq.
    apply Qeq_bool_iff, H; lia.
Qed.

(** ** Closed forms of the two loops *)

Section ClosedForms.
Open Scope Q_scope.
Variable p : instance.

(** The pair sum [sum_{i<j<N} J_ij s_i s_j] and the field sum. *)
Definition pair_sum (s : list Z) : Q :=
  sumQ (seq 0 p.(N)) (fun i =>
    sumQ (seq (S i) (p.(N) - S i)) (fun j =>
      p.(J) @[i, j] * spin_at s i * spin_at s j)).

Definition field_sum (s : list Z) : Q :=
  sumQ (seq 0 p.(N)) (fun i => p.(h) @[i] * spin_at s i).

Lemma calculateEnergy_closed s :
  calculateEnergy p s == - pair_sum s - field_sum s.
Proof.
  unfold calculateEnergy, pair_sum, field_sum.
  rewrite (fold_left_sub _ (fun i => p.(h) @[i] * spin_at s i)) by (intros; reflexivity).
  rewrite (fold_left_sub _ (fun i => sumQ (seq (S i) (p.(N) - S i)) (fun j =>
             p.(J) @[i, j] * spin_at s i * spin_at s j))).
  - ring.
  - intros e i. apply fold_left_sub. intros; reflexivity.
Qed.

(** The neighbourhood sum [sum_{j<>k} J_kj s_j]. *)
Definition local_field (s : list Z) (k : nat) : Q :=
  sumQ (seq 0 p.(N)) (fun j =>
    if decide (j = k) then 0 else p.(J) @[k, j] * spin_at s j).

(** The neighbourhood of [k] is the indices below [k] and above [k]. *)
Lemma local_field_split s k :
  (k < p.(N))%nat ->
  local_field s k ==
    sumQ (seq 0 k) (fun j => p.(J) @[k, j] * spin_at s j)
    + sumQ (seq (S k) (p.(N) - S k)) (fun j => p.(J) @[k, j] * spin_at s j).
Proof.
  intros Hk. unfold local_field.
  rewrite (sumQ_seq_split 0 p.(N) k) by lia. cbv beta.
  rewrite decide_True by reflexivity.
  replace (k - 0)%nat with k by lia.
  replace (0 + p.(N) - S k)%nat with (p.(N) - S k)%nat by lia.
  rewrite !(sumQ_ext _ (fun j => if decide (j = k) then 0 else _)
                       (fun j => p.(J) @[k, j] * spin_at s j)).
  - ring.
  - intros j Hj%in_seq. rewrite decide_False by lia. reflexivity.
  - intros j Hj%in_seq. rewrite decide_False by lia. reflexivity.
Qed.

Lemma calculateEnergyChange_closed s k :
  calculateEnergyChange p s k ==
    2 * spin_at s k * (local_field s k + p.(h) @[k]).
Proof.
  unfold calculateEnergyChange, local_field.
  rewrite (fold_left_add _ (fun j =>
             if decide (j = k) then 0 else p.(J) @[k, j] * spin_at s j)).
  - ring.
  - intros e j. case_decide; ring.
Qed.
End ClosedForms.

(** ** Reading a flipped configuration *)

Lemma spin_at_flip s k i :
  (k < length s)%nat ->
  (spin_at (flip s k) i == if decide (i = k) then - spin_at s k else spin_at s i)%Q.
Proof.
  intros Hk. unfold spin_at, flip.
  destruct (lookup_lt_is_Some_2 s k Hk) as [z Hz].
  case_decide as Hik.
  - subst i. rewrite list_lookup_insert_eq by done. rewrite Hz. simpl.
    rewrite inject_Z_mult. simpl. unfold inject_Z at 2. ring.
  - rewrite list_lookup_insert_ne by congruence. reflexivity.
Qed.

Lemma length_flip s k : length (flip s k) = length s.
Proof. apply length_insert. Qed.

(** ** The flip delta *)

Section FlipDelta.
Open Scope Q_scope.
Variable p : instance.
Variable s : list Z.
Variable k : nat.
Hypothesis Hsym : symmetric p.
Hypothesis Hlen : length s = p.(N).
Hypothesis Hk : (k < p.(N))%nat.

Let sk := spin_at s k.

(** One pair term before and after the flip: only pairs through [k]
    change, each by [-2 s_k J_ij s_other]. *)
Lemma pair_term_flip i j :
  i <> j ->
  p.(J) @[i, j] * spin_at (flip s k) i * spin_at (flip s k) j ==
    p.(J) @[i, j] * spin_at s i * spin_at s j
    + ((if decide (i = k) then -2 * sk * (p.(J) @[i, j] * spin_at s j) else 0)
       + (if decide (j = k) then -2 * sk * (p.(J) @[i, k] * spin_at s i) else 0)).
Proof.
  intros Hij. rewrite !spin_at_flip by lia. unfold sk.
  repeat case_decide; subst; try congruence; ring.
Qed.

Lemma pair_sum_flip :
  pair_sum p (flip s k) == pair_sum p s - 2 * sk * local_field p s k.
Proof.
  unfold pair_sum.
  rewrite (sumQ_ext _ _ (fun i => sumQ (seq (S i) (p.(N) - S i)) (fun j =>
             p.(J) @[i, j] * spin_at s i * spin_at s j)
           + ((if decide (i = k) then -2 * sk *
                 sumQ (seq (S k) (p.(N) - S k)) (fun j => p.(J) @[k, j] * spin_at s j)
               else 0)
              + (if decide (i < k)%nat then -2 * sk * (p.(J) @[k, i] * spin_at s i)
                 else 0)))).
  - rewrite !sumQ_plus, sumQ_point, sumQ_seq_prefix by lia.
    rewrite decide_True by lia.
    rewrite local_field_split, sumQ_scale by lia. ring.
  - intros i Hi%in_seq.
    erewrite sumQ_ext; [| intros j Hj%in_seq; apply pair_term_flip; lia].
    rewrite !sumQ_plus. apply Qplus_comp; [reflexivity|].
    rewrite (sumQ_point (S i) (p.(N) - S i) k). apply Qplus_comp.
    + case_decide as Hik.
      * subst i. rewrite sumQ_scale. reflexivity.
      * apply sumQ_zero. intros j _. reflexivity.
    + do 2 case_decide; try lia; [|reflexivity].
      rewrite (Hsym k i) by lia. reflexivity.
Qed.

Lemma field_sum_flip :
  field_sum p (flip s k) == field_sum p s - 2 * sk * p.(h) @[k].
Proof.
  unfold field_sum.
  rewrite (sumQ_ext _ _ (fun i => p.(h) @[i] * spin_at s i
             + (if decide (i = k) then -2 * sk * p.(h) @[k] else 0))).
  - rewrite sumQ_plus, sumQ_point, decide_True by lia. ring.
  - intros i _. rewrite spin_at_flip by lia. unfold sk.
    case_decide; subst; ring.
Qed.
End FlipDelta.

(** (C1) For a symmetric coupling matrix, a configuration of [N] spins
    and an index below [N], the O(N) value [calculateEnergyChange s k]
    is exactly the energy of the configuration with spin [k] flipped
    minus the energy of [s]. *)
Theorem energy_delta_correct p s k :
  symmetric p -> length s = p.(N) -> (k < p.(N))%nat ->
  (calculateEnergy p (flip s k) - calculateEnergy p s == calculateEnergyChange p s k)%Q.
Proof.
  intros Hsym Hlen Hk.
  rewrite !calculateEnergy_closed, calculateEnergyChange_closed,
    pair_sum_flip, field_sum_flip by assumption.
  ring.
Qed.

(** A three-spin instance used by the witnesses. *)
Definition p3 : instance :=
  mkInstance 3 [[0; 1#2; -1]; [1#2; 0; 1#4]; [-1; 1#4; 0]]%Q [1#3; -1#2; 0]%Q.
Definition s3 : list Z := [1; -1; 1]%Z.

Lemma energy_delta_correct_witness :
  symmetric p3 /\ length s3 = p3.(N) /\ (1 < p3.(N))%nat /\
  (calculateEnergy p3 (flip s3 1) - calculateEnergy p3 s3
     == calculateEnergyChange p3 s3 1)%Q.
Proof.
  assert (Hs : symmetric p3) by (apply symmetricb_spec; vm_compute; reflexivity).
  split; [exact Hs|]. split; [reflexivity|]. split; [simpl; lia|].
  apply energy_delta_correct; [exact Hs|reflexivity|simpl; lia].
Defined.

(** The diagonal [J[i][i]] is never read: two instances that agree
    on [N], on [h] and on every off-diagonal coupling give the same
    energy and the same flip delta. *)
Theorem diagonal_unused p q s k :
  p.(N) = q.(N) -> p.(h) = q.(h) ->
  (forall i j, i <> j -> p.(J) @[i, j] = q.(J) @[i, j]) ->
  calculateEnergy p s = calculateEnergy q s /\
  calculateEnergyChange p s k = calculateEnergyChange q s k.
Proof.
  intros HN Hh HJ. unfold calculateEnergy, calculateEnergyChange.
  rewrite <- HN, <- Hh. split.
  - f_equal. apply fold_left_ext_in. intros e i _.
    apply fold_left_ext_in. intros e' j Hj%in_seq. rewrite HJ by lia. reflexivity.
  - cbv zeta. erewrite fold_left_ext_in; [reflexivity|]. intros e j _.
    cbv beta. destruct (decide (j = k)); [reflexivity|]. rewrite HJ by congruence. reflexivity.
Qed.

Lemma diagonal_unused_witness :
  let q := mkInstance 3 [[5; 1#2; -1]; [1#2; -7; 1#4]; [-1; 1#4; 9]]%Q [1#3; -1#2; 0]%Q in
  p3.(N) = q.(N) /\ p3.(h) = q.(h) /\
  (forall i j, i <> j -> p3.(J) @[i, j] = q.(J) @[i, j]) /\
  calculateEnergy p3 s3 = calculateEnergy q s3 /\
  calculateEnergyChange p3 s3 0 = calculateEnergyChange q s3 0.
Proof.
  intros q.
  assert (HJ : forall i j, i <> j -> p3.(J) @[i, j] = q.(J) @[i, j]).
  { intros i j Hij. unfold mat_get.
    destruct i as [|[|[|i]]]; destruct j as [|[|[|j]]];
      try reflexivity; congruence. }
  split; [reflexivity|]. split; [reflexivity|]. split; [exact HJ|].
  apply diagonal_unused; [reflexivity|reflexivity|exact HJ].
Defined.

(** ** Spins stay in {+1, -1} *)

Definition spins_pm1 (s : list Z) : Prop := Forall (fun z => z = 1%Z \/ z = (-1)%Z) s.

Lemma flip_pm1 s k : spins_pm1 s -> spins_pm1 (flip s k).
Proof.
  intros Hs. unfold flip. destruct (s !! k) as [z|] eqn:Hz.
  - apply Forall_insert; [exact Hs|]. cbn.
    pose proof (proj1 (Forall_lookup _ _) Hs k z Hz) as Hpm; cbv beta in Hpm. lia.
  - rewrite list_insert_ge; [exact Hs|]. by apply lookup_ge_None.
Qed.

End Ising.
