(* ===== verification/Annealer.v ===== *)
(** * The [VirtualAnnealer] object: construction, Metropolis step, runs

    Class [VirtualAnnealer] of src/virtual-annealer/annealer/anneal.js as
    a record of its fields, with [Math.random] and [Math.exp] supplied by
    the type class [MathLib] of the prelude (a generator state threaded
    through every draw).  The synchronous loop [anneal] and the frame-chunked loop
    [annealAsync] are two definitions, as in the code, and the theorems
    relate them: same result, same generator state, with [annealAsync]
    terminating within [max 1 (ceil(steps/10))] frames. *)

From Stdlib Require Import QArith Qround Qpower Lqa ZArith.
From stdpp Require Import base list.
From S2P Require Import Prelude Ising.

Module Annealer.
Import Ising.

(** The fields of a [VirtualAnnealer] (constructor, lines 17-39). *)
Record annealer := mkAnnealer {
  N : nat;
  T0 : Q;
  coolingRate : Q;
  steps : Z;
  J : list (list Q);
  h : list Q;
  spins : list Z;
  bestSpins : list Z;
  bestEnergy : Q;
  energyHistory : list Q;
  temperatureHistory : list Q
}.

Definition problem (a : annealer) : Ising.instance :=
  Ising.mkInstance a.(N) a.(J) a.(h).

Definition with_spins (s : list Z) (a : annealer) : annealer :=
  mkAnnealer a.(N) a.(T0) a.(coolingRate) a.(steps) a.(J) a.(h)
    s a.(bestSpins) a.(bestEnergy) a.(energyHistory) a.(temperatureHistory).

Definition with_best (s : list Z) (e : Q) (a : annealer) : annealer :=
  mkAnnealer a.(N) a.(T0) a.(coolingRate) a.(steps) a.(J) a.(h)
    a.(spins) s e a.(energyHistory) a.(temperatureHistory).

Definition with_history (eh th : list Q) (a : annealer) : annealer :=
  mkAnnealer a.(N) a.(T0) a.(coolingRate) a.(steps) a.(J) a.(h)
    a.(spins) a.(bestSpins) a.(bestEnergy) eh th.

(** The object handed to the caller at the end of a run (lines 188-197). *)
Record result := mkResult {
  r_bestSpins : list Z;
  r_bestEnergy : Q;
  r_finalSpins : list Z;
  r_finalEnergy : Q;
  r_energyHistory : list Q;
  r_temperatureHistory : list Q;
  r_interactionMatrix : list (list Q);
  r_externalField : list Q
}.

(** The object passed to [progressCallback] (lines 177-184). *)
Record progress := mkProgress {
  p_step : nat;
  p_totalSteps : Z;
  p_currentEnergy : Q;
  p_bestEnergy : Q;
  p_temperature : Q;
  p_progress : option Q    (** [None]: NaN or Infinity (division by 0) *)
}.

(** [(step / this.steps) * 100]: JS yields NaN or Infinity when
    [this.steps] is 0. *)
Definition progress_percent (step : nat) (total : Z) : option Q :=
  if Z.eqb total 0 then None
  else Some (inject_Z (Z.of_nat step) / inject_Z total * 100)%Q.

Section Machine.
Context {G : Type} `{MathLib G}.
Open Scope Q_scope.

(** ** Construction *)

(** [Array(n).fill(0).map(() => f(Math.random()))]: one draw per
    element, in index order. *)
Fixpoint draw_list {A} (n : nat) (f : Q -> A) (g : G) : list A * G :=
  match n with
  | O => ([], g)
  | S n' =>
      let '(u, g1) := math_random g in
      let '(rest, g2) := draw_list n' f g1 in
      (f u :: rest, g2)
  end.

(** [J[i][j] = value] on an array of rows. *)
Definition mat_set (m : list (list Q)) (i j : nat) (v : Q) : list (list Q) :=
  alter (fun row => <[j := v]> row) i m.

(** [generateRandomJ()], lines 45-58. *)
Definition generateRandomJ (n : nat) (g : G) : list (list Q) * G :=
  fold_left (fun '(m, g) i =>
    fold_left (fun '(m, g) j =>
      let '(u, g') := math_random g in
      let value := (u - (1#2)) * 2 in
      (mat_set (mat_set m i j value) j i value, g'))
      (seq (S i) (n - S i)) (m, g))
    (seq 0 n) (replicate n (replicate n 0), g).

(** [generateRandomH()], lines 64-66. *)
Definition generateRandomH (n : nat) (g : G) : list Q * G :=
  draw_list n (fun u => (u - (1#2)) * 2) g.

(** [initializeSpins()], lines 72-74. *)
Definition initializeSpins (n : nat) (g : G) : list Z * G :=
  draw_list n (fun u => if u <q? (1#2) then 1%Z else (-1)%Z) g.

(** [new VirtualAnnealer(spinCount, initialTemp, coolingRate, steps)],
    lines 17-39: J, then h, then the spins draw from the generator. *)
Definition new (spinCount : nat) (initialTemp rate : Q) (nsteps : Z) (g : G)
    : annealer * G :=
  let '(J0, g1) := generateRandomJ spinCount g in
  let '(h0, g2) := generateRandomH spinCount g1 in
  let '(s0, g3) := initializeSpins spinCount g2 in
  let p := Ising.mkInstance spinCount J0 h0 in
  (mkAnnealer spinCount initialTemp rate nsteps J0 h0
     s0 s0 (calculateEnergy p s0) [] [], g3).

(** ** One step of the annealing loop *)

(** The live variables of a run: the object, [currentEnergy],
    [temperature] and the generator. *)
Record run := mkRun {
  ann : annealer;
  currentEnergy : Q;
  temperature : Q;
  rng : G
}.

(** [Math.floor(Math.random() * this.N)], line 138. *)
Definition pick_index (n : nat) (g : G) : Z * G :=
  let '(u, g') := math_random g in
  (Qfloor (u * inject_Z (Z.of_nat n)), g').

(** The Metropolis criterion, lines 144-152.  An improving move takes
    no draw.  Otherwise one draw is compared with
    [Math.exp(-deltaE / temperature)]; at temperature 0 that quotient
    is -Infinity or NaN in JS, and the comparison is false. *)
Definition metropolis (deltaE temp : Q) (g : G) : bool * G :=
  if deltaE <q? 0 then (true, g)
  else
    let '(u, g') := math_random g in
    (if Qeq_bool temp 0 then false
     else u <q? math_exp (- deltaE / temp), g').

(** Lines 155-164: flip in place, add the delta, and take a copy of the
    spins as the best when the energy strictly improves on it. *)
Definition apply_move (a : annealer) (ce : Q) (index : nat) (deltaE : Q)
    : annealer * Q :=
  let s' := flip a.(spins) index in
  let ce' := ce + deltaE in
  let a' := with_spins s' a in
  if ce' <q? a'.(bestEnergy) then (with_best s' ce' a', ce') else (a', ce').

(** Lines 170-173: every 10th step, push the energy and the (already
    cooled) temperature. *)
Definition record_history (step : nat) (ce temp : Q) (a : annealer) : annealer :=
  if Nat.eqb (step mod 10) 0
  then with_history (a.(energyHistory) ++ [ce]) (a.(temperatureHistory) ++ [temp]) a
  else a.

(** The body of the [for] loop of [anneal()], lines 137-173. *)
Definition anneal_body (step : nat) (r : run) : run :=
  let a := r.(ann) in
  let '(index, g1) := pick_index a.(N) r.(rng) in
  let deltaE := calculateEnergyChange (problem a) a.(spins) (Z.to_nat index) in
  let '(accept, g2) := metropolis deltaE r.(temperature) g1 in
  let '(a1, ce) := if accept then apply_move a r.(currentEnergy) (Z.to_nat index) deltaE
                   else (a, r.(currentEnergy)) in
  let temp := r.(temperature) * a1.(coolingRate) in
  mkRun (record_history step ce temp a1) ce temp g2.

(** The body of the inner [for] loop of [annealAsync()], lines 219-253:
    the same statements as [anneal_body]. *)
Definition annealAsync_body (step : nat) (r : run) : run :=
  let a := r.(ann) in
  let '(index, g1) := pick_index a.(N) r.(rng) in
  let deltaE := calculateEnergyChange (problem a) a.(spins) (Z.to_nat index) in
  let '(accept, g2) := metropolis deltaE r.(temperature) g1 in
  let '(a1, ce) := if accept then apply_move a r.(currentEnergy) (Z.to_nat index) deltaE
                   else (a, r.(currentEnergy)) in
  let temp := r.(temperature) * a1.(coolingRate) in
  mkRun (record_history step ce temp a1) ce temp g2.

Definition progress_of (step : nat) (r : run) : progress :=
  mkProgress step r.(ann).(steps) r.(currentEnergy) r.(ann).(bestEnergy)
    r.(temperature) (progress_percent step r.(ann).(steps)).

(** ** The synchronous run, [anneal(progressCallback)], lines 129-198 *)

(** The [for (step = 0; step < this.steps; step++)] loop with its
    progress callback every 100th step (lines 176-185); [cb] says
    whether a callback was passed, and the reports are collected. *)
Fixpoint anneal_loop (cb : bool) (n step : nat) (r : run) (reports : list progress)
    : run * list progress :=
  match n with
  | O => (r, reports)
  | S n' =>
      let r' := anneal_body step r in
      let reports' := if cb && Nat.eqb (step mod 100) 0
                      then reports ++ [progress_of step r'] else reports in
      anneal_loop cb n' (S step) r' reports'
  end.

Definition start_run (a : annealer) (g : G) : run :=
  let ce := calculateEnergy (problem a) a.(spins) in
  mkRun (with_history [ce] [a.(T0)] a) ce a.(T0) g.

Definition result_of (r : run) : result :=
  let a := r.(ann) in
  mkResult a.(bestSpins) a.(bestEnergy) a.(spins) r.(currentEnergy)
    a.(energyHistory) a.(temperatureHistory) a.(J) a.(h).

(** [anneal(progressCallback)]: the result, the object after the run
    (a run mutates [this]), the generator, and the progress reports. *)
Definition anneal (cb : bool) (a : annealer) (g : G)
    : result * annealer * G * list progress :=
  let '(r, reports) := anneal_loop cb (Z.to_nat a.(steps)) 0 (start_run a g) [] in
  (result_of r, r.(ann), r.(rng), reports).

(** ** The cooperative run, [annealAsync(progressCallback)], lines 205-287 *)

(** [for (i = 0; i < stepsPerFrame && step < this.steps; i++, step++)]. *)
Fixpoint async_chunk (i step : nat) (r : run) : nat * run :=
  match i with
  | O => (step, r)
  | S i' =>
      if Z.ltb (Z.of_nat step) r.(ann).(steps)
      then async_chunk i' (S step) (annealAsync_body step r)
      else (step, r)
  end.

Definition stepsPerFrame : nat := 10.

(** One call of [iterate] (lines 214-283) per animation frame: a chunk,
    one progress report when a callback was passed, then either a new
    [requestAnimationFrame(iterate)] or [resolve(result)].  [frames]
    bounds the number of frames; [None] means the bound was reached. *)
Fixpoint annealAsync_frames (cb : bool) (frames step : nat) (r : run)
    (reports : list progress) : option (run * list progress) :=
  match frames with
  | O => None
  | S frames' =>
      let '(step', r') := async_chunk stepsPerFrame step r in
      let reports' := if cb then reports ++ [progress_of step' r'] else reports in
      if Z.ltb (Z.of_nat step') r'.(ann).(steps)
      then annealAsync_frames cb frames' step' r' reports'
      else Some (r', reports')
  end.

Definition annealAsync (cb : bool) (frames : nat) (a : annealer) (g : G)
    : option (result * annealer * G * list progress) :=
  match annealAsync_frames cb frames 0 (start_run a g) [] with
  | Some (r, reports) => Some (result_of r, r.(ann), r.(rng), reports)
  | None => None
  end.

(** The number of frames a run of [n] steps takes. *)
Definition frames_needed (n : Z) : nat :=
  Nat.max 1 (Nat.div (Z.to_nat n + 9) 10).
End Machine.

(** ** Structure of a run *)

Section RunFacts.
Context {G : Type} `{MathLib G}.
Open Scope Q_scope.

(** The run's live state after [n] loop iterations starting at [step],
    without the progress reports. *)
Fixpoint run_steps (n step : nat) (r : run) : run :=
  match n with
  | O => r
  | S n' => run_steps n' (S step) (anneal_body step r)
  end.

(** The fields that no statement of the loop assigns. *)
Definition config (a : annealer) : nat * Q * Q * Z * list (list Q) * list Q :=
  (a.(N), a.(T0), a.(coolingRate), a.(steps), a.(J), a.(h)).

(** The fields the loop assigns, except the histories. *)
Definition search_state (a : annealer) : list Z * list Z * Q :=
  (a.(spins), a.(bestSpins), a.(bestEnergy)).

Lemma record_history_config step ce t a :
  config (record_history step ce t a) = config a /\
  search_state (record_history step ce t a) = search_state a.
Proof. unfold record_history. by destruct (Nat.eqb _ _). Qed.

Lemma record_history_bestEnergy step ce t a :
  (record_history step ce t a).(bestEnergy) = a.(bestEnergy).
Proof. unfold record_history. by destruct (Nat.eqb _ _). Qed.

Lemma apply_move_config a ce i d : config (apply_move a ce i d).1 = config a.
Proof. unfold apply_move. case_Qltb; reflexivity. Qed.

Lemma anneal_body_config step r :
  config (anneal_body step r).(ann) = config r.(ann).
Proof.
  unfold anneal_body.
  destruct (pick_index _ _) as [i g1]. destruct (metropolis _ _ _) as [[] g2];
    [destruct (apply_move _ _ _ _) as [a1 ce] eqn:E|]; simpl;
    rewrite (proj1 (record_history_config _ _ _ _)); [|reflexivity].
  by rewrite <- (apply_move_config r.(ann) r.(currentEnergy) (Z.to_nat i)
                   (calculateEnergyChange (problem r.(ann)) r.(ann).(spins) (Z.to_nat i))), E.
Qed.

Lemma run_steps_config n step r :
  config (run_steps n step r).(ann) = config r.(ann).
Proof.
  revert step r. induction n; intros step r; simpl; [reflexivity|].
  by rewrite IHn, anneal_body_config.
Qed.

Lemma run_steps_add n m step r :
  run_steps (n + m) step r = run_steps m (step + n) (run_steps n step r).
Proof.
  revert step r. induction n; intros step r; simpl.
  - by rewrite Nat.add_0_r.
  - rewrite IHn. f_equal. lia.
Qed.

Lemma anneal_loop_run cb n step r reports :
  (anneal_loop cb n step r reports).1 = run_steps n step r.
Proof.
  revert step r reports. induction n; intros; simpl; [reflexivity|].
  apply IHn.
Qed.

Lemma annealAsync_body_eq : @annealAsync_body G _ = anneal_body.
Proof. reflexivity. Qed.

(** The cooling statement [temperature *= this.coolingRate]. *)
Lemma anneal_body_temperature step r :
  (anneal_body step r).(temperature) = r.(temperature) * r.(ann).(coolingRate).
Proof.
  unfold anneal_body.
  destruct (pick_index _ _) as [i g1]. destruct (metropolis _ _ _) as [[] g2];
    [|reflexivity].
  pose proof (apply_move_config r.(ann) r.(currentEnergy) (Z.to_nat i)
      (calculateEnergyChange (problem r.(ann)) r.(ann).(spins) (Z.to_nat i))) as Hc.
  destruct (apply_move _ _ _ _) as [a1 ce]. unfold config in Hc. simpl in *.
  congruence.
Qed.
End RunFacts.

(** ** The chunked run computes the synchronous run *)

Section ModeEquivalence.
Context {G : Type} `{MathLib G}.

Lemma run_steps_steps n step (r : run) :
  (run_steps n step r).(ann).(steps) = r.(ann).(steps).
Proof. pose proof (run_steps_config n step r) as E. unfold config in E. congruence. Qed.

Lemma step_ltb_iff (step : nat) (n : Z) :
  Z.ltb (Z.of_nat step) n = Nat.ltb step (Z.to_nat n).
Proof.
  destruct (Z.ltb_spec (Z.of_nat step) n), (Nat.ltb_spec step (Z.to_nat n));
    reflexivity || lia.
Qed.

(** One frame's inner loop runs [min i (steps - step)] iterations. *)
Lemma async_chunk_spec i step (r : run) :
  async_chunk i step r =
    (step + Nat.min i (Z.to_nat r.(ann).(steps) - step),
     run_steps (Nat.min i (Z.to_nat r.(ann).(steps) - step)) step r)%nat.
Proof.
  revert step r. induction i as [|i IH]; intros step r; simpl.
  - f_equal. lia.
  - rewrite step_ltb_iff. destruct (Nat.ltb_spec step (Z.to_nat r.(ann).(steps))).
    + rewrite IH, annealAsync_body_eq.
      pose proof (run_steps_steps 1 step r) as Hs. simpl in Hs. rewrite Hs.
      destruct (Z.to_nat r.(ann).(steps) - step)%nat as [|m] eqn:E; [lia|].
      replace (Z.to_nat r.(ann).(steps) - S step)%nat with m by lia.
      f_equal. lia.
    + replace (Z.to_nat r.(ann).(steps) - step)%nat with 0%nat by lia.
      simpl. f_equal. lia.
Qed.

(** With enough frames left, the frame loop ends with the state the
    synchronous loop reaches after the remaining steps, and with a
    callback it reports once per frame, at the step count reached. *)
Lemma annealAsync_frames_spec cb frames step (r : run) reports :
  (step <= Z.to_nat r.(ann).(steps))%nat ->
  (Nat.max 1 ((Z.to_nat r.(ann).(steps) - step + 9) / 10) <= frames)%nat ->
  exists reports',
    annealAsync_frames cb frames step r reports =
      Some (run_steps (Z.to_nat r.(ann).(steps) - step) step r, reports') /\
    map p_step reports' =
      map p_step reports ++
      (if cb then map (fun k => Nat.min (step + 10 * S k) (Z.to_nat r.(ann).(steps)))
                    (seq 0 (Nat.max 1 ((Z.to_nat r.(ann).(steps) - step + 9) / 10)))
       else []).
Proof.
  revert step r reports. induction frames as [|frames IH]; intros step r reports Hstep Hf.
  - lia.
  - cbn [annealAsync_frames]. rewrite async_chunk_spec. unfold stepsPerFrame.
    set (S0 := Z.to_nat r.(ann).(steps)) in *.
    set (k := Nat.min 10 (S0 - step)).
    rewrite step_ltb_iff, run_steps_steps. fold S0.
    destruct (Nat.ltb_spec (step + k) S0).
    + assert (Hk : k = 10%nat) by (subst k; lia). rewrite Hk in *.
      assert (Hfl : ((S0 - step + 9) / 10 = S ((S0 - (step + 10) + 9) / 10))%nat).
      { replace (S0 - step + 9)%nat with ((S0 - (step + 10) + 9) + 1 * 10)%nat by lia.
        rewrite Nat.div_add by lia. lia. }
      assert (Hpos : (1 <= (S0 - (step + 10) + 9) / 10)%nat)
        by (apply Nat.div_le_lower_bound; lia).
      destruct (IH (step + 10)%nat (run_steps 10 step r)
                  (if cb then reports ++ [progress_of (step + 10) (run_steps 10 step r)]
                   else reports)) as [reps' [E Er]];
        rewrite ?run_steps_steps; fold S0; [lia|lia|].
      exists reps'. rewrite E, run_steps_steps. fold S0. split.
      * f_equal. f_equal. rewrite <- run_steps_add. f_equal. lia.
      * rewrite Er, !run_steps_steps. fold S0. rewrite !Nat.max_r by lia. rewrite Hfl.
        destruct cb; [|rewrite !app_nil_r; reflexivity].
        rewrite map_app, <- app_assoc. f_equal. simpl.
        rewrite Nat.min_l by lia. f_equal.
        rewrite <- seq_shift, map_map. apply map_ext. intros x. f_equal. lia.
    + eexists. split; [f_equal; f_equal; f_equal; lia|].
      assert (Hfl : Nat.max 1 ((S0 - step + 9) / 10) = 1%nat).
      { assert ((S0 - step + 9) / 10 < 2)%nat
          by (apply Nat.Div0.div_lt_upper_bound; lia). lia. }
      rewrite Hfl. destruct cb; [|by rewrite app_nil_r].
      rewrite map_app. simpl. f_equal. f_equal. subst k. lia.
Qed.

(** The outcome of [anneal] as the state after [steps] iterations. *)
Lemma anneal_run cb (a : annealer) (g : G) :
  exists reports,
    anneal cb a g =
      (result_of (run_steps (Z.to_nat a.(steps)) 0 (start_run a g)),
       (run_steps (Z.to_nat a.(steps)) 0 (start_run a g)).(ann),
       (run_steps (Z.to_nat a.(steps)) 0 (start_run a g)).(rng), reports).
Proof.
  unfold anneal.
  pose proof (anneal_loop_run cb (Z.to_nat a.(steps)) 0 (start_run a g) []) as Er.
  destruct (anneal_loop _ _ _ _ _) as [r reps]. simpl in Er. subst r. eauto.
Qed.

(** The outcome of [annealAsync] with enough frames, likewise. *)
Lemma annealAsync_run cb frames (a : annealer) (g : G) :
  (frames_needed a.(steps) <= frames)%nat ->
  exists reports,
    annealAsync cb frames a g =
      Some (result_of (run_steps (Z.to_nat a.(steps)) 0 (start_run a g)),
            (run_steps (Z.to_nat a.(steps)) 0 (start_run a g)).(ann),
            (run_steps (Z.to_nat a.(steps)) 0 (start_run a g)).(rng), reports).
Proof.
  intros Hf. unfold annealAsync.
  destruct (annealAsync_frames_spec cb frames 0 (start_run a g) [])
    as [reps [E _]]; simpl; [lia| unfold frames_needed in Hf; rewrite Nat.sub_0_r; exact Hf|].
  rewrite E, Nat.sub_0_r. eauto.
Qed.

(** (C3) Mode equivalence: given the same generator, [annealAsync]
    with at least [max 1 (ceil(steps/10))] frames resolves with the
    same result, the same final object and the same generator state as
    [anneal]; only the progress reports differ. *)
Theorem annealAsync_equiv cb frames (a : annealer) (g : G) :
  (frames_needed a.(steps) <= frames)%nat ->
  exists reports,
    annealAsync cb frames a g =
      Some (let '(res, a', g', _) := anneal cb a g in (res, a', g', reports)).
Proof.
  intros Hf. destruct (annealAsync_run cb frames a g Hf) as [reps E].
  destruct (anneal_run cb a g) as [reps0 E0]. rewrite E, E0. eauto.
Qed.
End ModeEquivalence.

(** ** The search invariant *)

Section Invariant.
Context {G : Type} `{MathLibLaws G}.
Open Scope Q_scope.

(** [Math.floor(Math.random() * this.N)] is a valid spin index:
    with a draw in [0, 1) and [N > 0] it lies in [0, N). *)
Theorem pick_index_range n (g : G) :
  (0 < n)%nat -> (0 <= (pick_index n g).1 < Z.of_nat n)%Z.
Proof.
  intros Hn. unfold pick_index.
  pose proof (random_range g) as Hu.
  destruct (math_random g) as [u g']. cbn [fst] in *.
  apply floor_scaled_draw; [exact Hu | lia].
Qed.

(** The tracked energy is the Hamiltonian of the live spins, the best
    energy is that of the best spins, and the best is at most the
    current energy. *)
Definition tracks (a : annealer) (ce : Q) : Prop :=
  symmetric (problem a) /\ (0 < a.(N))%nat /\
  length a.(spins) = a.(N) /\ length a.(bestSpins) = a.(N) /\
  spins_pm1 a.(spins) /\ spins_pm1 a.(bestSpins) /\
  ce == calculateEnergy (problem a) a.(spins) /\
  a.(bestEnergy) == calculateEnergy (problem a) a.(bestSpins) /\
  a.(bestEnergy) <= ce.

Lemma tracks_same a b ce :
  config a = config b -> search_state a = search_state b ->
  tracks a ce -> tracks b ce.
Proof.
  destruct a, b. unfold config, search_state, tracks, problem. simpl.
  intros E1 E2. injection E1 as -> -> -> -> -> ->. injection E2 as -> -> ->.
  tauto.
Qed.

Lemma apply_move_tracks a ce i :
  tracks a ce -> (i < a.(N))%nat ->
  tracks (apply_move a ce i (calculateEnergyChange (problem a) a.(spins) i)).1
         (apply_move a ce i (calculateEnergyChange (problem a) a.(spins) i)).2.
Proof.
  intros (Hsym & HN & Hl & Hlb & Hpm & Hpmb & Hce & Hbe & Hle) Hi.
  pose proof (energy_delta_correct (problem a) a.(spins) i Hsym Hl Hi) as Hd.
  unfold apply_move. unfold problem in *. simpl in *.
  case_Qltb; unfold tracks, problem; simpl;
    rewrite ?length_flip; repeat split; auto using flip_pm1; lra.
Qed.

(** The body of the loop keeps the invariant. *)
Lemma anneal_body_tracks step (r : run) :
  tracks r.(ann) r.(currentEnergy) ->
  tracks (anneal_body step r).(ann) (anneal_body step r).(currentEnergy).
Proof.
  intros Ht. unfold anneal_body.
  pose proof (pick_index_range r.(ann).(N) r.(rng) (proj1 (proj2 Ht))) as Hi.
  destruct (pick_index _ _) as [i g1]. simpl in Hi.
  destruct (metropolis _ _ _) as [[] g2].
  - pose proof (apply_move_tracks r.(ann) r.(currentEnergy) (Z.to_nat i) Ht ltac:(lia)) as Hm.
    destruct (apply_move _ _ _ _) as [a1 ce]. simpl in *.
    eapply tracks_same; [symmetry; apply record_history_config
                        |symmetry; apply record_history_config|exact Hm].
  - simpl. eapply tracks_same; [symmetry; apply record_history_config
                        |symmetry; apply record_history_config|exact Ht].
Qed.

Lemma run_steps_tracks n step (r : run) :
  tracks r.(ann) r.(currentEnergy) ->
  tracks (run_steps n step r).(ann) (run_steps n step r).(currentEnergy).
Proof.
  revert step r. induction n; intros step r Ht; simpl; [exact Ht|].
  apply IHn, anneal_body_tracks, Ht.
Qed.
End Invariant.

(** ** The best energy *)

Section Best.
Context {G : Type} `{MathLib G}.
Open Scope Q_scope.

(** How one iteration changes the fields read below. *)
Lemma anneal_body_shape step (r : run) :
  exists (a1 : annealer) (ce : Q),
    (anneal_body step r).(ann) = record_history step ce (r.(temperature) * r.(ann).(coolingRate)) a1 /\
    (anneal_body step r).(currentEnergy) = ce /\
    ((a1, ce) = (r.(ann), r.(currentEnergy)) \/
     exists i d, (a1, ce) = apply_move r.(ann) r.(currentEnergy) i d).
Proof.
  unfold anneal_body.
  destruct (pick_index _ _) as [i g1]. destruct (metropolis _ _ _) as [[] g2].
  - pose proof (apply_move_config r.(ann) r.(currentEnergy) (Z.to_nat i)
      (calculateEnergyChange (problem r.(ann)) r.(ann).(spins) (Z.to_nat i))) as Hc.
    destruct (apply_move _ _ _ _) as [a1 ce] eqn:E. simpl.
    exists a1, ce. unfold config in Hc. simpl in Hc.
    split; [do 2 f_equal; congruence|]. split; [reflexivity|]. right. eauto.
  - exists r.(ann), r.(currentEnergy). simpl. auto.
Qed.

Lemma apply_move_best a ce i d :
  (apply_move a ce i d).1.(bestEnergy) <= a.(bestEnergy) /\
  (apply_move a ce i d).1.(bestEnergy) <= (apply_move a ce i d).2.
Proof. unfold apply_move. case_Qltb; simpl in *; lra. Qed.

(** The best energy never increases from one step to the next. *)
Theorem anneal_body_best_nonincreasing step (r : run) :
  (anneal_body step r).(ann).(bestEnergy) <= r.(ann).(bestEnergy).
Proof.
  destruct (anneal_body_shape step r) as (a1 & ce & -> & _ & Hm).
  rewrite record_history_bestEnergy.
  destruct Hm as [Hm | (i & d & Hm)].
  - injection Hm as -> ->. lra.
  - pose proof (apply_move_best r.(ann) r.(currentEnergy) i d) as Hb.
    rewrite <- Hm in Hb. exact (proj1 Hb).
Qed.

(** The best energy is at most the current energy and at most every
    recorded energy; each iteration keeps this. *)
Definition best_bounds (r : run (G:=G)) : Prop :=
  r.(ann).(bestEnergy) <= r.(currentEnergy) /\
  Forall (fun e => r.(ann).(bestEnergy) <= e) r.(ann).(energyHistory).

Lemma anneal_body_best_bounds step (r : run) :
  best_bounds r -> best_bounds (anneal_body step r).
Proof.
  intros [Hc Hh].
  pose proof (anneal_body_best_nonincreasing step r) as Hmono.
  destruct (anneal_body_shape step r) as (a1 & ce & Ha & Hce & Hm).
  unfold best_bounds in *. rewrite Hce. rewrite Ha in Hmono |- *.
  assert (Hb : a1.(bestEnergy) <= ce /\ a1.(energyHistory) = r.(ann).(energyHistory)).
  { destruct Hm as [Hm | (i & d & Hm)].
    - injection Hm as -> ->. split; [lra|reflexivity].
    - pose proof (apply_move_best r.(ann) r.(currentEnergy) i d) as Hb.
      assert (Eh : (apply_move r.(ann) r.(currentEnergy) i d).1.(energyHistory)
                   = r.(ann).(energyHistory))
        by (unfold apply_move; case_Qltb; reflexivity).
      rewrite <- Hm in Hb, Eh. split; [exact (proj2 Hb)|exact Eh]. }
  destruct Hb as [Hb Heh].
  rewrite record_history_bestEnergy in Hmono |- *.
  split; [exact Hb|].
  unfold record_history. destruct (Nat.eqb _ _); simpl; rewrite Heh;
    [apply Forall_app; split; [|constructor; [exact Hb|constructor]]|];
    eapply Forall_impl; eauto; intros; simpl in *; lra.
Qed.

Lemma run_steps_best_bounds n step (r : run) :
  best_bounds r -> best_bounds (run_steps n step r).
Proof.
  revert step r. induction n; intros step r Hb; simpl; [exact Hb|].
  apply IHn, anneal_body_best_bounds, Hb.
Qed.

Lemma start_run_best_bounds (a : annealer) (g : G) :
  a.(bestEnergy) <= calculateEnergy (problem a) a.(spins) ->
  best_bounds (start_run a g).
Proof. intros Hb. split; simpl; [exact Hb|]. constructor; [exact Hb|constructor]. Qed.

(** (C4) After a run that starts with [bestEnergy] at most the energy
    of the spins, the reported best energy is at most the final energy
    and at most every energy in [energyHistory]. *)
Theorem anneal_best_below_history cb (a : annealer) (g : G) :
  a.(bestEnergy) <= calculateEnergy (problem a) a.(spins) ->
  let '(res, _, _, _) := anneal cb a g in
  res.(r_bestEnergy) <= res.(r_finalEnergy) /\
  Forall (fun e => res.(r_bestEnergy) <= e) res.(r_energyHistory).
Proof.
  intros Hb. unfold anneal.
  pose proof (anneal_loop_run cb (Z.to_nat a.(steps)) 0 (start_run a g) []) as Er.
  destruct (anneal_loop _ _ _ _ _) as [r reps]. simpl in Er. subst r.
  apply run_steps_best_bounds, start_run_best_bounds, Hb.
Qed.
End Best.

(** ** A run keeps the tracked energies exact *)

Section RunInvariant.
Context {G : Type} `{MathLibLaws G}.
Open Scope Q_scope.

(** A well-formed object: symmetric couplings, [N > 0] spins in
    {+1,-1}, the best energy that of the best spins and at most that of
    the spins. *)
Definition wf (a : annealer) : Prop :=
  tracks a (calculateEnergy (problem a) a.(spins)).

Lemma tracks_Qeq a ce ce' : ce == ce' -> tracks a ce -> tracks a ce'.
Proof. unfold tracks. intros E. intuition (rewrite <- E; auto). Qed.

Lemma config_problem a b : config a = config b -> problem a = problem b.
Proof. destruct a, b. unfold config, problem. simpl. congruence. Qed.

(** (C2) A run from a well-formed object ends in a well-formed object,
    and the result's [finalEnergy] and [bestEnergy] are the exact
    Hamiltonians of [finalSpins] and [bestSpins]: the incremental
    updates [currentEnergy += deltaE] never drift from the energy. *)
Theorem anneal_tracks_energy cb (a : annealer) (g : G) :
  wf a ->
  let '(res, a', _, _) := anneal cb a g in
  wf a' /\
  res.(r_finalEnergy) == calculateEnergy (problem a) res.(r_finalSpins) /\
  res.(r_bestEnergy) == calculateEnergy (problem a) res.(r_bestSpins).
Proof.
  intros Hwf. unfold anneal.
  pose proof (anneal_loop_run cb (Z.to_nat a.(steps)) 0 (start_run a g) []) as Er.
  destruct (anneal_loop _ _ _ _ _) as [r reps]. simpl in Er. subst r.
  assert (Ht : tracks (run_steps (Z.to_nat a.(steps)) 0 (start_run a g)).(ann)
                      (run_steps (Z.to_nat a.(steps)) 0 (start_run a g)).(currentEnergy)).
  { apply run_steps_tracks. eapply tracks_same; [reflexivity|reflexivity|exact Hwf]. }
  assert (Hp : problem (run_steps (Z.to_nat a.(steps)) 0 (start_run a g)).(ann) = problem a)
    by (apply config_problem; rewrite run_steps_config; reflexivity).
  pose proof Ht as (_ & _ & _ & _ & _ & _ & Hce & Hbe & _).
  rewrite Hp in Hce, Hbe. simpl.
  split; [|split; assumption].
  unfold wf. rewrite Hp. eapply tracks_Qeq; [exact Hce|exact Ht].
Qed.
End RunInvariant.

(** ** Temperature schedule and sampled history *)

Section History.
Context {G : Type} `{MathLib G}.
Open Scope Q_scope.

Definition sampled (step n : nat) : list nat :=
  List.filter (fun k => Nat.eqb (k mod 10) 0) (seq step n).

Lemma apply_move_histories a ce i d :
  (apply_move a ce i d).1.(energyHistory) = a.(energyHistory) /\
  (apply_move a ce i d).1.(temperatureHistory) = a.(temperatureHistory).
Proof. unfold apply_move. case_Qltb; split; reflexivity. Qed.

(** One iteration pushes onto both histories exactly when
    [step % 10 === 0]. *)
Lemma anneal_body_histories step (r : run) :
  (anneal_body step r).(ann).(energyHistory) =
    r.(ann).(energyHistory) ++
    (if Nat.eqb (step mod 10) 0 then [(anneal_body step r).(currentEnergy)] else []) /\
  (anneal_body step r).(ann).(temperatureHistory) =
    r.(ann).(temperatureHistory) ++
    (if Nat.eqb (step mod 10) 0 then [r.(temperature) * r.(ann).(coolingRate)] else []).
Proof.
  destruct (anneal_body_shape step r) as (a1 & ce & -> & -> & Hm).
  assert (E : a1.(energyHistory) = r.(ann).(energyHistory) /\
              a1.(temperatureHistory) = r.(ann).(temperatureHistory)).
  { destruct Hm as [Hm | (i & d & Hm)].
    - injection Hm as -> ->. split; reflexivity.
    - pose proof (apply_move_histories r.(ann) r.(currentEnergy) i d) as Eh.
      rewrite <- Hm in Eh. exact Eh. }
  destruct E as [E1 E2]. unfold record_history.
  destruct (Nat.eqb _ _); simpl; rewrite ?E1, ?E2, ?app_nil_r; split; reflexivity.
Qed.

Lemma run_steps_temperature n step (r : run) :
  (run_steps n step r).(temperature) =
    Nat.iter n (fun t => t * r.(ann).(coolingRate)) r.(temperature).
Proof.
  revert step r. induction n as [|n IH]; intros step r; [reflexivity|].
  simpl run_steps. rewrite IH, anneal_body_temperature.
  pose proof (anneal_body_config step r) as Ec. unfold config in Ec.
  replace (anneal_body step r).(ann).(coolingRate) with r.(ann).(coolingRate) by congruence.
  symmetry. apply (Nat.iter_succ_r n (fun t => t * r.(ann).(coolingRate))).
Qed.

Lemma run_steps_histories n step (r : run) :
  length (run_steps n step r).(ann).(energyHistory) =
    (length r.(ann).(energyHistory) + length (sampled step n))%nat /\
  (run_steps n step r).(ann).(temperatureHistory) =
    r.(ann).(temperatureHistory) ++
    map (fun k => Nat.iter (S (k - step)) (fun t => t * r.(ann).(coolingRate)) r.(temperature))
        (sampled step n).
Proof.
  revert step r. induction n as [|n IH]; intros step r.
  - simpl. rewrite app_nil_r. split; [lia|reflexivity].
  - simpl run_steps. destruct (IH (S step) (anneal_body step r)) as [IH1 IH2].
    destruct (anneal_body_histories step r) as [E1 E2].
    pose proof (anneal_body_config step r) as Ec. unfold config in Ec.
    replace (anneal_body step r).(ann).(coolingRate) with r.(ann).(coolingRate) in IH2
      by congruence.
    rewrite anneal_body_temperature in IH2.
    unfold sampled in *. cbn [seq List.filter].
    split.
    + rewrite IH1, E1, length_app.
      destruct (Nat.eqb (step mod 10) 0); simpl; lia.
    + rewrite IH2, E2, <- app_assoc. f_equal.
      assert (Hm : map (fun k => Nat.iter (S (k - S step)) (fun t => t * r.(ann).(coolingRate))
                                   (r.(temperature) * r.(ann).(coolingRate)))
                     (List.filter (fun k => Nat.eqb (k mod 10) 0) (seq (S step) n)) =
                   map (fun k => Nat.iter (S (k - step)) (fun t => t * r.(ann).(coolingRate))
                                   r.(temperature))
                     (List.filter (fun k => Nat.eqb (k mod 10) 0) (seq (S step) n))).
      { apply map_ext_in. intros k Hk. apply List.filter_In in Hk.
        destruct Hk as [Hk%in_seq _].
        replace (S (k - step)) with (S (S (k - S step))) by lia.
        rewrite (Nat.iter_succ_r (S (k - S step))). reflexivity. }
      rewrite Hm. destruct (Nat.eqb (step mod 10) 0); simpl; [|reflexivity].
      rewrite Nat.sub_diag. reflexivity.
Qed.

(** Temperature decay: the temperature history of a run is [T0]
    followed by [T0 * coolingRate^(k+1)] for every step [k] with
    [k % 10 === 0]; the temperature is multiplied by the cooling rate
    exactly once per step, accepted or not. *)
Theorem anneal_temperature_history cb (a : annealer) (g : G) :
  Forall2 Qeq
    (let '(res, _, _, _) := anneal cb a g in res.(r_temperatureHistory))
    (a.(T0) :: map (fun k => a.(T0) * a.(coolingRate) ^ Z.of_nat (S k))
                   (sampled 0 (Z.to_nat a.(steps)))).
Proof.
  unfold anneal.
  pose proof (anneal_loop_run cb (Z.to_nat a.(steps)) 0 (start_run a g) []) as Er.
  destruct (anneal_loop _ _ _ _ _) as [r reps]. simpl in Er. subst r. simpl.
  rewrite (proj2 (run_steps_histories _ 0 (start_run a g))). simpl.
  constructor; [reflexivity|].
  apply Forall2_map_Qeq. intros k _. rewrite Nat.sub_0_r.
  apply (iter_mult_power a.(coolingRate) a.(T0) (S k)).
Qed.

Lemma run_history_length (a : annealer) (g : G) :
  length (run_steps (Z.to_nat a.(steps)) 0 (start_run a g)).(ann).(energyHistory) =
    S ((Z.to_nat a.(steps) + 9) / 10) /\
  length (run_steps (Z.to_nat a.(steps)) 0 (start_run a g)).(ann).(temperatureHistory) =
    S ((Z.to_nat a.(steps) + 9) / 10).
Proof.
  destruct (run_steps_histories (Z.to_nat a.(steps)) 0 (start_run a g)) as [E1 E2].
  rewrite E1, E2, length_app, length_map. simpl.
  unfold sampled. rewrite count_multiples_of_10. split; reflexivity.
Qed.

(** Both history traces of a run of [steps] steps hold
    [1 + ceil(steps / 10)] samples: the initial one and one for every
    step [k] with [k % 10 === 0]. *)
Theorem anneal_history_length cb (a : annealer) (g : G) :
  let '(res, _, _, _) := anneal cb a g in
  length res.(r_energyHistory) = S ((Z.to_nat a.(steps) + 9) / 10) /\
  length res.(r_temperatureHistory) = S ((Z.to_nat a.(steps) + 9) / 10).
Proof.
  destruct (anneal_run cb a g) as [reps E]. rewrite E. apply run_history_length.
Qed.

(** A run with [steps <= 0] changes nothing: the result reports
    the object's own best spins and energy, its spins as final spins
    with their energy, one history sample each, no progress report,
    and the generator is untouched. *)
Theorem anneal_zero_steps cb (a : annealer) (g : G) :
  (a.(steps) <= 0)%Z ->
  anneal cb a g =
    (mkResult a.(bestSpins) a.(bestEnergy) a.(spins)
       (calculateEnergy (problem a) a.(spins))
       [calculateEnergy (problem a) a.(spins)] [a.(T0)] a.(J) a.(h),
     with_history [calculateEnergy (problem a) a.(spins)] [a.(T0)] a, g, []).
Proof.
  intros Hs. unfold anneal. replace (Z.to_nat a.(steps)) with 0%nat by lia.
  reflexivity.
Qed.
End History.


(** ** Construction *)

Section Construction.
Context {G : Type} `{MathLibLaws G}.
Open Scope Q_scope.

(** An [n] by [n] array of rows. *)
Definition square (n : nat) (m : list (list Q)) : Prop :=
  length m = n /\ Forall (fun row => length row = n) m.

Lemma mat_set_square n m i j v :
  square n m -> square n (mat_set m i j v).
Proof.
  intros [Hl Hr]. unfold mat_set. split; [by rewrite length_alter|].
  apply Forall_lookup. intros k row Hk. rewrite list_lookup_alter in Hk.
  case_decide; subst.
  - destruct (m !! k) as [r|] eqn:E; simpl in Hk; [|discriminate].
    injection Hk as <-. rewrite length_insert.
    exact (proj1 (Forall_lookup _ _) Hr k r E).
  - exact (proj1 (Forall_lookup _ _) Hr k row Hk).
Qed.

Lemma mat_get_set n m i j v a b :
  square n m -> (i < n)%nat -> (j < n)%nat ->
  (mat_set m i j v) @[a, b] = if decide (a = i /\ b = j) then v else m @[a, b].
Proof.
  intros [Hl Hr] Hi Hj. unfold mat_get, mat_set.
  destruct (lookup_lt_is_Some_2 m i ltac:(lia)) as [row Hrow].
  pose proof (proj1 (Forall_lookup _ _) Hr i row Hrow) as Hlen; cbv beta in Hlen.
  destruct (decide (a = i)) as [->|Ha].
  - rewrite list_lookup_alter_eq, Hrow. simpl.
    destruct (decide (b = j)) as [->|Hb].
    + rewrite decide_True by auto. rewrite list_lookup_insert_eq by lia. reflexivity.
    + rewrite decide_False by tauto. rewrite list_lookup_insert_ne by congruence. reflexivity.
  - rewrite decide_False by tauto. rewrite list_lookup_alter_ne by congruence. reflexivity.
Qed.

(** What the generation loop keeps of the matrix. *)
Definition coupling_ok (n : nat) (m : list (list Q)) : Prop :=
  square n m /\
  (forall a b, m @[a, b] = m @[b, a]) /\
  (forall a, m @[a, a] = 0) /\
  (forall a b, -1 <= m @[a, b] <= 1).

Lemma random_value_bounds (g : G) :
  -1 <= ((math_random g).1 - (1#2)) * 2 <= 1.
Proof. pose proof (random_range g). lra. Qed.

Lemma coupling_ok_init n : coupling_ok n (replicate n (replicate n 0)).
Proof.
  assert (Z0 : forall a b, (replicate n (replicate n 0)) @[a, b] = 0).
  { intros a b. unfold mat_get.
    destruct (decide (a < n)%nat) as [Ha|Ha].
    - rewrite lookup_replicate_2 by lia. simpl.
      destruct (decide (b < n)%nat).
      + rewrite lookup_replicate_2 by lia. reflexivity.
      + rewrite (proj1 (lookup_replicate_None _ _ _)) by lia. reflexivity.
    - rewrite (proj1 (lookup_replicate_None _ _ _)) by lia. reflexivity. }
  split; [split; [apply length_replicate|apply Forall_replicate, length_replicate]|].
  split; [intros; rewrite !Z0; reflexivity|].
  split; [intros; apply Z0|]. intros a b. rewrite Z0. lra.
Qed.

Lemma coupling_ok_set2 n m i j v :
  coupling_ok n m -> (i < j)%nat -> (j < n)%nat -> -1 <= v <= 1 ->
  coupling_ok n (mat_set (mat_set m i j v) j i v).
Proof.
  intros (Hsq & Hsym & Hdiag & Hb) Hij Hj Hv.
  pose proof (mat_set_square n m i j v Hsq) as Hsq1.
  assert (E : forall a b, (mat_set (mat_set m i j v) j i v) @[a, b] =
            if decide (a = j /\ b = i) then v
            else if decide (a = i /\ b = j) then v else m @[a, b]).
  { intros a b. rewrite (mat_get_set n) by (assumption || lia).
    rewrite (mat_get_set n m) by (assumption || lia). reflexivity. }
  split; [apply mat_set_square, Hsq1|].
  split; [intros a b; rewrite !E; rewrite (Hsym a b); repeat case_decide; tauto || lia|].
  split; [intros a; rewrite E; repeat case_decide; lia || apply Hdiag|].
  intros a b. rewrite E. repeat case_decide; auto.
Qed.

(** [generateRandomJ()] builds an N by N array that is symmetric
    ([J[i][j] === J[j][i]]), zero on the diagonal, and whose entries lie
    in [-1, 1] when [Math.random] draws from [0, 1). *)
Theorem generateRandomJ_spec n (g : G) :
  coupling_ok n (generateRandomJ n g).1.
Proof.
  unfold generateRandomJ.
  apply (fold_left_invariant (fun mg => coupling_ok n mg.1)); [apply coupling_ok_init|].
  intros [m g0] i Hi%in_seq Hm. simpl in Hm.
  apply (fold_left_invariant (fun mg => coupling_ok n mg.1)); [exact Hm|].
  intros [m1 g1] j Hj%in_seq Hm1. simpl in Hm1.
  pose proof (random_value_bounds g1) as Hv.
  destruct (math_random g1) as [u g2]. simpl in *.
  apply coupling_ok_set2; (assumption || lia).
Qed.

Lemma draw_list_spec {A} (P : A -> Prop) n (f : Q -> A) (g : G) :
  (forall u, 0 <= u < 1 -> P (f u)) ->
  length (draw_list n f g).1 = n /\ Forall P (draw_list n f g).1.
Proof.
  intros Hf. revert g. induction n as [|n IH]; intros g; simpl; [split; [reflexivity|constructor]|].
  pose proof (random_range g) as Hu.
  destruct (math_random g) as [u g1]. simpl in Hu.
  destruct (IH g1) as [IH1 IH2]. destruct (draw_list n f g1) as [rest g2]. simpl in *.
  split; [lia|]. constructor; [apply Hf, Hu|exact IH2].
Qed.

(** [new VirtualAnnealer(n, T0, r, steps)] with [n > 0] is
    well formed: J symmetric, [n] spins in {+1,-1}, [bestSpins] a copy of
    the spins with their energy as [bestEnergy], empty histories, and
    [n] external-field entries in [-1, 1]. *)
Theorem new_wf n T0' rate st (g : G) :
  (0 < n)%nat ->
  let '(a, _) := new n T0' rate st g in
  wf a /\ a.(bestSpins) = a.(spins) /\ a.(energyHistory) = [] /\
  a.(temperatureHistory) = [] /\ length a.(h) = n /\
  Forall (fun x => -1 <= x <= 1) a.(h).
Proof.
  intros Hn. unfold new.
  pose proof (generateRandomJ_spec n g) as (HJsq & HJsym & _ & _).
  destruct (generateRandomJ n g) as [J0 g1]. simpl in *.
  destruct (draw_list_spec (fun x => -1 <= x <= 1) n (fun u => (u - (1#2)) * 2) g1)
    as [Hhl Hhb]; [intros; lra|].
  unfold generateRandomH. destruct (draw_list n _ g1) as [h0 g2]. simpl in *.
  destruct (draw_list_spec (fun z => z = 1%Z \/ z = (-1)%Z) n
              (fun u => if u <q? (1#2) then 1%Z else (-1)%Z) g2) as [Hsl Hspm];
    [intros u _; destruct (u <q? (1#2)); auto|].
  unfold initializeSpins. destruct (draw_list n _ g2) as [s0 g3]. simpl in *.
  split; [|repeat split; assumption].
  unfold wf, tracks, problem. simpl.
  repeat split; try assumption; try reflexivity; try apply Qle_refl.
  intros i j _ _. rewrite HJsym. reflexivity.
Qed.
End Construction.

(** ** Progress reports and the zero-temperature limit *)

Section Reports.
Context {G : Type} `{MathLib G}.
Open Scope Q_scope.

(** With a callback, [annealAsync] reports once per frame, after
    [min(10 (f+1), steps)] steps at frame [f]: [max 1 ceil(steps/10)]
    reports, the last one at [steps]. *)
Theorem annealAsync_progress_steps frames (a : annealer) (g : G) :
  (frames_needed a.(steps) <= frames)%nat ->
  exists res a' g' reports,
    annealAsync true frames a g = Some (res, a', g', reports) /\
    map p_step reports =
      map (fun k => Nat.min (10 * S k) (Z.to_nat a.(steps))) (seq 0 (frames_needed a.(steps))).
Proof.
  intros Hf. unfold annealAsync.
  destruct (annealAsync_frames_spec true frames 0 (start_run a g) [])
    as [reps [E Er]]; simpl; [lia|unfold frames_needed in Hf; rewrite Nat.sub_0_r; exact Hf|].
  rewrite E. do 4 eexists. split; [reflexivity|].
  rewrite Er. simpl. rewrite Nat.sub_0_r. reflexivity.
Qed.

(** (C5) A cooperative job of 0 steps resolves after its first frame
    without running a Metropolis step or drawing from [Math.random]: the
    result is the starting state, and the one progress report is for
    step 0 with the percentage [(0 / 0) * 100], NaN in JS. *)
Theorem annealAsync_zero_steps_nan frames (a : annealer) (g : G) :
  a.(steps) = 0%Z -> (1 <= frames)%nat ->
  annealAsync true frames a g =
    Some (result_of (start_run a g), (start_run a g).(ann), g, [progress_of 0 (start_run a g)]) /\
  (progress_of 0 (start_run a g)).(p_progress) = None.
Proof.
  intros Hs Hf. destruct frames as [|frames]; [lia|].
  destruct a as [n0 t0 c0 s0 J0 h0 sp bs be eh th]. simpl in Hs. subst s0.
  split; reflexivity.
Qed.

(** The synchronous loop reports at the steps [k % 100 === 0]. *)
Lemma anneal_loop_reports n step (r : run) reports :
  map p_step (anneal_loop true n step r reports).2 =
    map p_step reports ++ List.filter (fun k => Nat.eqb (k mod 100) 0) (seq step n).
Proof.
  revert step r reports. induction n as [|n IH]; intros step r reports;
    cbn [anneal_loop seq List.filter andb snd].
  - by rewrite app_nil_r.
  - rewrite IH. destruct (Nat.eqb (step mod 100) 0); cbn [andb];
      rewrite ?map_app, <- ?app_assoc; reflexivity.
Qed.

(** With a callback, [anneal] reports after exactly the steps
    [k < steps] with [k % 100 === 0], reporting the index [k] of the
    step just taken; so it never reports the last step of a run whose
    length is not [1 mod 100], unlike [annealAsync]. *)
Theorem anneal_progress_steps (a : annealer) (g : G) :
  map p_step (let '(_, _, _, reports) := anneal true a g in reports) =
    List.filter (fun k => Nat.eqb (k mod 100) 0) (seq 0 (Z.to_nat a.(steps))).
Proof.
  unfold anneal.
  pose proof (anneal_loop_reports (Z.to_nat a.(steps)) 0 (start_run a g) []) as E.
  destruct (anneal_loop _ _ _ _ _) as [r reps]. exact E.
Qed.

Lemma metropolis_zero_temperature deltaE temp (g : G) :
  temp == 0 -> (metropolis deltaE temp g).1 = true -> deltaE < 0.
Proof.
  intros Ht. unfold metropolis. case_Qltb; [auto|].
  destruct (math_random g) as [u g']. simpl.
  rewrite (proj2 (Qeq_bool_iff temp 0) Ht). discriminate.
Qed.

(** (C6) At temperature 0 (an [initialTemp] of 0 is not rejected by
    the code) a step only accepts improving moves: the current energy
    never increases and the temperature stays 0, so the run is a greedy
    descent rather than an error. *)
Theorem anneal_body_zero_temperature step (r : run) :
  r.(temperature) == 0 ->
  (anneal_body step r).(currentEnergy) <= r.(currentEnergy) /\
  (anneal_body step r).(temperature) == 0.
Proof.
  intros Ht. rewrite anneal_body_temperature. split; [|rewrite Ht; ring].
  unfold anneal_body.
  destruct (pick_index _ _) as [i g1].
  pose proof (metropolis_zero_temperature
                (calculateEnergyChange (problem r.(ann)) r.(ann).(spins) (Z.to_nat i))
                r.(temperature) g1 Ht) as Hm.
  destruct (metropolis _ _ _) as [[] g2]; simpl in *; [|lra].
  specialize (Hm eq_refl).
  unfold apply_move. case_Qltb; simpl; lra.
Qed.
End Reports.

(** ** A seedable generator for concrete runs

    The Park-Miller generator [g' = 48271 g mod (2^31 - 1)], draw
    [g' / (2^31 - 1)], with a rational stand-in for [Math.exp]; it is the
    injectable, seedable source the spec asks for, and the concrete
    witnesses below run on it. *)

Definition pm_modulus : Z := 2147483647.
Definition pm_next (g : Z) : Z := (48271 * g) mod pm_modulus.
Definition exp_stand_in (x : Q) : Q :=
  if x <q? 0 then (1 / (1 - x))%Q else (1 + x)%Q.

#[export] Instance park_miller : MathLib Z := {|
  math_random g := (pm_next g # 2147483647, pm_next g);
  math_exp := exp_stand_in
|}.

#[export] Instance park_miller_laws : MathLibLaws Z.
Proof.
  constructor. intros g. simpl. unfold Qle, Qlt. simpl.
  pose proof (Z.mod_pos_bound (48271 * g) pm_modulus ltac:(reflexivity)).
  unfold pm_next, pm_modulus in *. lia.
Qed.

(** The three-spin object of [Ising.p3], 12 steps from temperature 10
    with cooling rate 0.9. *)
Definition a3 : annealer :=
  mkAnnealer 3 (10#1) (9#10) 12 p3.(Ising.J) p3.(Ising.h) s3 s3
    (calculateEnergy p3 s3) [] [].

Lemma a3_wf : wf a3.
Proof.
  unfold wf, tracks. simpl.
  repeat split; try reflexivity; try lia; try apply Qle_refl;
    try (apply symmetricb_spec; vm_compute; reflexivity).
  all: unfold spins_pm1, s3; repeat constructor; lia.
Qed.

Lemma annealAsync_equiv_witness :
  (frames_needed a3.(steps) <= 2)%nat /\
  exists reports, annealAsync true 2 a3 7%Z =
    Some (let '(res, a', g', _) := anneal true a3 7%Z in (res, a', g', reports)).
Proof.
  split; [vm_compute; lia|].
  apply annealAsync_equiv. vm_compute. lia.
Defined.

Lemma pick_index_range_witness :
  (0 < 3)%nat /\ (0 <= (pick_index 3 7%Z).1 < Z.of_nat 3)%Z.
Proof. split; [lia|]. apply pick_index_range. lia. Defined.

Lemma anneal_best_below_history_witness :
  (a3.(bestEnergy) <= calculateEnergy (problem a3) a3.(spins))%Q /\
  let '(res, _, _, _) := anneal false a3 7%Z in
  (res.(r_bestEnergy) <= res.(r_finalEnergy))%Q /\
  Forall (fun e => res.(r_bestEnergy) <= e)%Q res.(r_energyHistory).
Proof.
  assert (Hb : (a3.(bestEnergy) <= calculateEnergy (problem a3) a3.(spins))%Q)
    by (apply Qle_bool_imp_le; vm_compute; reflexivity).
  split; [exact Hb|]. apply anneal_best_below_history. exact Hb.
Defined.

Lemma anneal_tracks_energy_witness :
  wf a3 /\
  let '(res, a', _, _) := anneal true a3 7%Z in
  wf a' /\
  (res.(r_finalEnergy) == calculateEnergy (problem a3) res.(r_finalSpins))%Q /\
  (res.(r_bestEnergy) == calculateEnergy (problem a3) res.(r_bestSpins))%Q.
Proof. split; [exact a3_wf|]. apply anneal_tracks_energy. exact a3_wf. Defined.

Lemma anneal_zero_steps_witness :
  let a := mkAnnealer 3 (10#1) (9#10) 0 p3.(Ising.J) p3.(Ising.h) s3 s3
             (calculateEnergy p3 s3) [] [] in
  (a.(steps) <= 0)%Z /\
  anneal true a 7%Z =
    (mkResult a.(bestSpins) a.(bestEnergy) a.(spins)
       (calculateEnergy (problem a) a.(spins))
       [calculateEnergy (problem a) a.(spins)] [a.(T0)] a.(J) a.(h),
     with_history [calculateEnergy (problem a) a.(spins)] [a.(T0)] a, 7%Z, []).
Proof. intros a. split; [simpl; lia|]. apply anneal_zero_steps. simpl; lia. Defined.

Lemma generateRandomJ_spec_witness : coupling_ok 3 (generateRandomJ 3 7%Z).1.
Proof. apply generateRandomJ_spec. Defined.

Lemma new_wf_witness :
  (0 < 3)%nat /\
  let '(a, _) := new 3 (10#1) (9#10) 12 7%Z in
  wf a /\ a.(bestSpins) = a.(spins) /\ a.(energyHistory) = [] /\
  a.(temperatureHistory) = [] /\ length a.(h) = 3%nat /\
  Forall (fun x => -1 <= x <= 1)%Q a.(h).
Proof. split; [lia|]. apply new_wf. lia. Defined.

Lemma annealAsync_progress_steps_witness :
  (frames_needed a3.(steps) <= 2)%nat /\
  exists res a' g' reports,
    annealAsync true 2 a3 7%Z = Some (res, a', g', reports) /\
    map p_step reports =
      map (fun k => Nat.min (10 * S k) (Z.to_nat a3.(steps))) (seq 0 (frames_needed a3.(steps))).
Proof. split; [vm_compute; lia|]. apply annealAsync_progress_steps. vm_compute. lia. Defined.

Lemma annealAsync_zero_steps_nan_witness :
  let a := mkAnnealer 3 (10#1) (9#10) 0 p3.(Ising.J) p3.(Ising.h) s3 s3
             (calculateEnergy p3 s3) [] [] in
  a.(steps) = 0%Z /\ (1 <= 1)%nat /\
  annealAsync true 1 a 7%Z =
    Some (result_of (start_run a 7%Z), (start_run a 7%Z).(ann), 7%Z, [progress_of 0 (start_run a 7%Z)]).
Proof.
  intros a. split; [reflexivity|]. split; [lia|].
  apply (annealAsync_zero_steps_nan 1 a 7%Z); [reflexivity|lia].
Defined.

Lemma anneal_body_zero_temperature_witness :
  let r := mkRun (with_history [] [] a3) (calculateEnergy p3 s3) 0 7%Z in
  (r.(temperature) == 0)%Q /\
  ((anneal_body 0 r).(currentEnergy) <= r.(currentEnergy))%Q /\
  ((anneal_body 0 r).(temperature) == 0)%Q.
Proof.
  intros r. split; [reflexivity|]. apply anneal_body_zero_temperature. reflexivity.
Defined.

End Annealer.
