(* ===== verification/Abi.v ===== *)
(** * ERC-20 call data and the hex numbers of the virtual-annealer page

    [encodeFunctionCall] (src/virtual-annealer/app.js, lines 318-338)
    builds the [data] of [eth_call] and [eth_sendTransaction]: ["0x"],
    the 4-byte selector looked up in [functionSignatures] (a JS object,
    here a [gmap]), and one 64-digit word per [address] or [uint256]
    argument, [value.slice(2).padStart(64, '0')].  The page writes the
    transfer amount with [BigInt(...).toString(16)] (line 238) and reads
    the balance back with [parseInt(result, 16)] (line 197); both are
    modelled here on strings as [list ascii], with [N] for the
    (non-negative) integers.  [parseInt] is modelled on the answers the
    page receives: an optional ["0x"]/["0X"] prefix and the longest run
    of hex digits after it, NaN ([None]) when there is none; leading
    blanks, signs and the rounding of results above 2^53 to a double are
    not modelled. *)

From Stdlib Require Import NArith Ascii String.
From stdpp Require Import base list strings gmap.
From S2P Require Import Prelude.

Module Abi.

Abbreviation str := (list ascii) (only parsing).

(** A literal of the source as a [str]. *)
Definition lit (s : string) : str := list_ascii_of_string s.

(** [s.slice(n)] for [n >= 0]. *)
Definition slice (n : nat) (s : str) : str := drop n s.

(** [s.padStart(w, c)]: nothing is added to a string of length [w] or
    more (nat subtraction gives 0 there), and nothing is cut. *)
Definition padStart (w : nat) (c : ascii) (s : str) : str :=
  replicate (w - length s) c ++ s.

(** [functionSignatures], lines 319-323. *)
Definition functionSignatures : gmap string str :=
  list_to_map [("balanceOf", lit "70a08231"); ("transfer", lit "a9059cbb");
               ("approve", lit "095ea7b3")].

(** One step of the [forEach], lines 328-335: an [address] or [uint256]
    argument is one word; [value.slice] on a missing value ([undefined])
    throws ([None]); any other type is skipped without reading the value. *)
Definition encode_arg (type : string) (value : option str) : option str :=
  if bool_decide (type = "address") || bool_decide (type = "uint256") then
    match value with
    | Some v => Some (padStart 64 "0"%char (slice 2 v))
    | None => None
    end
  else Some [].

Fixpoint encode_args (types : list string) (values : list str) : option str :=
  match types with
  | [] => Some []
  | t :: ts =>
      w ← encode_arg t (head values);
      rest ← encode_args ts (tail values);
      Some (w ++ rest)
  end.

(** [encodeFunctionCall(functionName, types, values)], lines 318-338.
    An unknown name concatenates [undefined] into the selector. *)
Definition encodeFunctionCall (functionName : string) (types : list string)
    (values : list str) : option str :=
  let selector := default (lit "undefined") (functionSignatures !! functionName) in
  args ← encode_args types values;
  Some (lit "0x" ++ selector ++ args).

(** ** Hex digits *)

Local Open Scope N_scope.

Definition hex_char (d : N) : ascii := nth (N.to_nat d) (lit "0123456789abcdef") "0"%char.

(** The value of a hex digit as [parseInt] reads it (either case). *)
Definition hex_val (c : ascii) : option N :=
  let n := N_of_ascii c in
  if (48 <=? n) && (n <=? 57) then Some (n - 48)
  else if (97 <=? n) && (n <=? 102) then Some (n - 87)
  else if (65 <=? n) && (n <=? 70) then Some (n - 55)
  else None.

(** Big-endian base-16 digits of [n], at most [fuel] of them. *)
Fixpoint hex_digit_list (fuel : nat) (n : N) : list N :=
  match fuel with
  | O => []
  | S f => if N.eqb n 0 then [] else hex_digit_list f (n / 16) ++ [n mod 16]
  end.

(** [n.toString(16)] on a BigInt: lower-case digits, no leading zero,
    ["0"] for zero.  [N.size n] (the bit length) bounds the digit count. *)
Definition toString16 (n : N) : str :=
  if N.eqb n 0 then lit "0"
  else map hex_char (hex_digit_list (N.to_nat (N.size n)) n).

(** The longest prefix of hex digits. *)
Fixpoint hex_prefix (s : str) : list N :=
  match s with
  | [] => []
  | c :: r => match hex_val c with Some d => d :: hex_prefix r | None => [] end
  end.

Definition horner (ds : list N) : N := fold_left (fun acc d => 16 * acc + d) ds 0.

Definition strip0x (s : str) : str :=
  match s with
  | c :: x :: r =>
      if bool_decide (c = "0"%char) && (bool_decide (x = "x"%char) || bool_decide (x = "X"%char))
      then r else s
  | _ => s
  end.

(** [parseInt(s, 16)]. *)
Definition parseInt16 (s : str) : option N :=
  match hex_prefix (strip0x s) with
  | [] => None
  | ds => Some (horner ds)
  end.

(** ** Digit lemmas *)

Lemma hex_val_char d : d < 16 -> hex_val (hex_char d) = Some d.
Proof.
  intros Hd. rewrite <- (N2Nat.id d). unfold hex_char. rewrite Nat2N.id.
  assert (Hk : (N.to_nat d < 16)%nat) by lia. revert Hk. generalize (N.to_nat d) as k.
  intros k Hk. do 16 (destruct k as [|k]; [reflexivity|]). lia.
Qed.

Lemma hex_digit_list_lt f n : Forall (fun d => d < 16) (hex_digit_list f n).
Proof.
  revert n. induction f as [|f IH]; intros n; cbn; [constructor|].
  destruct (N.eqb n 0); [constructor|].
  apply Forall_app. split; [apply IH|]. constructor; [apply N.mod_lt; lia | constructor].
Qed.

Lemma hex_prefix_digits ds s :
  Forall (fun d => d < 16) ds -> hex_prefix (map hex_char ds ++ s) = ds ++ hex_prefix s.
Proof.
  induction 1 as [|d ds Hd _ IH]; [reflexivity|].
  cbn [map app hex_prefix]. rewrite hex_val_char by exact Hd. now rewrite IH.
Qed.

Lemma horner_snoc ds d : horner (ds ++ [d]) = 16 * horner ds + d.
Proof. unfold horner. now rewrite fold_left_app. Qed.

Lemma horner_zeros k ds : horner (replicate k 0 ++ ds) = horner ds.
Proof.
  unfold horner. induction k as [|k IH]; [reflexivity|]. exact IH.
Qed.

Lemma hex_prefix_zeros k s :
  hex_prefix (replicate k "0"%char ++ s) = replicate k 0 ++ hex_prefix s.
Proof. induction k as [|k IH]; cbn; [reflexivity|]. now rewrite IH. Qed.

Lemma horner_hex_digit_list f n :
  n < 16 ^ N.of_nat f -> horner (hex_digit_list f n) = n.
Proof.
  revert n. induction f as [|f IH]; intros n Hn; cbn [hex_digit_list].
  - cbn in Hn. unfold horner. cbn. lia.
  - destruct (N.eqb_spec n 0) as [->|Hn0]; [reflexivity|].
    rewrite horner_snoc, IH.
    + pose proof (N.div_mod n 16). lia.
    + apply N.Div0.div_lt_upper_bound. rewrite Nat2N.inj_succ, N.pow_succ_r' in Hn. lia.
Qed.

(** [toString16 n] is the digit string of a non-empty list of digits
    whose value is [n]. *)
Lemma toString16_digits n :
  exists ds, toString16 n = map hex_char ds /\ Forall (fun d => d < 16) ds /\
    ds <> [] /\ horner ds = n.
Proof.
  unfold toString16. destruct (N.eqb_spec n 0) as [->|Hn].
  - exists [0]. repeat split; [repeat constructor; lia | discriminate].
  - set (ds := hex_digit_list (N.to_nat (N.size n)) n).
    assert (Hv : horner ds = n).
    { apply horner_hex_digit_list. rewrite N2Nat.id.
      eapply N.lt_le_trans; [apply N.size_gt|]. apply N.pow_le_mono_l. lia. }
    exists ds. repeat split; [apply hex_digit_list_lt| |exact Hv].
    intros E. rewrite E in Hv. unfold horner in Hv. cbn in Hv. lia.
Qed.

Lemma strip0x_0x r : strip0x ("0"%char :: "x"%char :: r) = r.
Proof. reflexivity. Qed.

Lemma parseInt16_padded k ds :
  Forall (fun d => d < 16) ds -> ds <> [] ->
  parseInt16 (lit "0x" ++ replicate k "0"%char ++ map hex_char ds) = Some (horner ds).
Proof.
  intros Hds Hne. unfold parseInt16.
  change (lit "0x" ++ ?r) with ("0"%char :: "x"%char :: r). rewrite strip0x_0x.
  rewrite hex_prefix_zeros, <- (app_nil_r (map hex_char ds)), hex_prefix_digits by exact Hds.
  rewrite app_nil_r.
  destruct (replicate k 0 ++ ds) eqn:E.
  - apply app_eq_nil in E as [_ ->]. congruence.
  - rewrite <- E, horner_zeros. reflexivity.
Qed.

Lemma signature_length name sel : functionSignatures !! name = Some sel -> length sel = 8%nat.
Proof.
  unfold functionSignatures. intros H. apply elem_of_list_to_map_2 in H.
  repeat (apply elem_of_cons in H as [H|H]; [injection H as -> ->; reflexivity|]).
  by apply elem_of_nil in H.
Qed.

Lemma encode_args_words types values :
  Forall (fun t => t = "address" \/ t = "uint256") types ->
  Forall (fun v => (length v <= 66)%nat) values ->
  (length types <= length values)%nat ->
  exists args, encode_args types values = Some args /\ length args = (64 * length types)%nat.
Proof.
  intros Ht. revert values.
  induction Ht as [|t ts Htype _ IH]; intros values Hv Hlen; [exists []; split; reflexivity|].
  destruct values as [|v vs]; cbn in Hlen; [lia|].
  inversion Hv as [|? ? Hv0 Hvs]; subst.
  destruct (IH vs Hvs ltac:(lia)) as (rest & Erest & Lrest).
  exists (padStart 64 "0"%char (slice 2 v) ++ rest). split.
  - assert (Ea : encode_arg t (Some v) = Some (padStart 64 "0"%char (slice 2 v)))
      by (destruct Htype as [->| ->]; reflexivity).
    cbn [encode_args head tail]. rewrite Ea. cbn -[encode_args]. now rewrite Erest.
  - rewrite length_app, Lrest. unfold padStart, slice.
    rewrite length_app, length_replicate, length_drop. cbn [length]. lia.
Qed.

Lemma encode_args_missing types values :
  Forall (fun t => t = "address" \/ t = "uint256") types ->
  (length values < length types)%nat -> encode_args types values = None.
Proof.
  intros Ht. revert values.
  induction Ht as [|t ts Htype _ IH]; intros values Hlen; cbn in Hlen; [lia|].
  destruct values as [|v vs]; cbn [encode_args head tail].
  - destruct Htype as [->| ->]; reflexivity.
  - cbn in Hlen. rewrite (IH vs ltac:(lia)).
    destruct Htype as [->| ->]; reflexivity.
Qed.

(** ** Theorems *)

(** The call data of [payWithLOT]'s transfer: for a 42-character
    recipient and an amount of at most 64 hex digits, [encodeFunctionCall]
    gives 138 characters: ["0x"] and the [transfer] selector, the
    recipient's 40 digits left-padded with 24 zeros, and a last word
    from which [parseInt] reads back the amount. *)
Theorem encodeFunctionCall_transfer (recipient : str) (amount : N) :
  length recipient = 42%nat -> (length (toString16 amount) <= 64)%nat ->
  exists data,
    encodeFunctionCall "transfer" ["address"; "uint256"]
      [recipient; lit "0x" ++ toString16 amount] = Some data /\
    length data = 138%nat /\
    take 10 data = lit "0xa9059cbb" /\
    take 64 (drop 10 data) = replicate 24 "0"%char ++ drop 2 recipient /\
    parseInt16 (lit "0x" ++ drop 74 data) = Some amount.
Proof.
  intros Hr Ha.
  set (w1 := padStart 64 "0"%char (slice 2 recipient)).
  set (w2 := padStart 64 "0"%char (toString16 amount)).
  assert (L1 : length w1 = 64%nat).
  { unfold w1, padStart, slice. rewrite length_app, length_replicate, length_drop. lia. }
  assert (L2 : length w2 = 64%nat).
  { unfold w2, padStart. rewrite length_app, length_replicate. lia. }
  assert (E : encodeFunctionCall "transfer" ["address"; "uint256"]
                [recipient; lit "0x" ++ toString16 amount] =
              Some (lit "0xa9059cbb" ++ w1 ++ w2 ++ [])) by reflexivity.
  rewrite app_nil_r in E.
  exists (lit "0xa9059cbb" ++ w1 ++ w2). split; [exact E|]. split.
  { rewrite !length_app, L1, L2. reflexivity. } split.
  { rewrite take_app_length' by reflexivity. reflexivity. } split.
  { rewrite drop_app_length' by reflexivity. rewrite take_app_length' by exact (eq_sym L1).
    unfold w1, padStart, slice. rewrite length_drop, Hr. reflexivity. }
  rewrite app_assoc, drop_app_length' by (rewrite length_app, L1; reflexivity).
  destruct (toString16_digits amount) as (ds & Es & Hds & Hne & Hv).
  unfold w2, padStart. rewrite Es, <- Hv. exact (parseInt16_padded _ ds Hds Hne).
Qed.

(** The layout of [encodeFunctionCall] for a known function whose
    argument types are all [address] or [uint256], with values of at most
    66 characters: with a value for every type the data is one 64-digit
    word per argument after the 10-character selector prefix; with fewer
    values than types, [value.slice] on [undefined] throws. *)
Theorem encodeFunctionCall_layout name sel types values :
  functionSignatures !! name = Some sel ->
  Forall (fun t => t = "address" \/ t = "uint256") types ->
  Forall (fun v => (length v <= 66)%nat) values ->
  ((length types <= length values)%nat ->
     exists data, encodeFunctionCall name types values = Some data /\
       take 10 data = lit "0x" ++ sel /\
       length data = (10 + 64 * length types)%nat) /\
  ((length values < length types)%nat -> encodeFunctionCall name types values = None).
Proof.
  intros Hsel Ht Hv. pose proof (signature_length name sel Hsel) as Ls.
  unfold encodeFunctionCall. rewrite Hsel. cbn [default]. split.
  - intros Hlen. destruct (encode_args_words types values Ht Hv Hlen) as (args & Ea & La).
    rewrite Ea. exists (lit "0x" ++ sel ++ args). split; [reflexivity|]. split.
    + rewrite app_assoc, take_app_length'; [reflexivity|]. rewrite length_app, Ls. reflexivity.
    + rewrite !length_app, Ls, La. reflexivity.
  - intros Hlen. now rewrite (encode_args_missing types values Ht Hlen).
Qed.

(** ** Witnesses *)

Definition demo_recipient : str := lit "0x2222222222222222222222222222222222222222".

Lemma encodeFunctionCall_transfer_witness :
  length demo_recipient = 42%nat /\ (length (toString16 (10 ^ 19)) <= 64)%nat /\
  exists data,
    encodeFunctionCall "transfer" ["address"; "uint256"]
      [demo_recipient; lit "0x" ++ toString16 (10 ^ 19)] = Some data /\
    parseInt16 (lit "0x" ++ drop 74 data) = Some (10 ^ 19).
Proof.
  split; [reflexivity|]. split; [vm_compute; lia|].
  destruct (encodeFunctionCall_transfer demo_recipient (10 ^ 19) eq_refl
              ltac:(vm_compute; lia)) as (data & E & _ & _ & _ & P).
  exists data. split; assumption.
Defined.

Lemma encodeFunctionCall_layout_witness :
  functionSignatures !! "balanceOf" = Some (lit "70a08231") /\
  exists data,
    encodeFunctionCall "balanceOf" ["address"] [demo_recipient] = Some data /\
    length data = 74%nat.
Proof.
  assert (Hsel : functionSignatures !! "balanceOf" = Some (lit "70a08231")) by reflexivity.
  split; [exact Hsel|].
  destruct (encodeFunctionCall_layout "balanceOf" _ ["address"] [demo_recipient] Hsel
              ltac:(repeat constructor) ltac:(repeat constructor; vm_compute; lia))
    as [Hok _].
  destruct (Hok ltac:(cbn; lia)) as (data & E & _ & L). exists data. split; assumption.
Defined.

End Abi.
