(* ===== verification/NumberFormat.v ===== *)
(** * How the pages print numbers

    Two JavaScript number formats the pages rely on, as library
    functions on exact rationals:
    - [new Intl.NumberFormat('en-US').format(x)] (the gateway's
      [formatSats], src/app.js line 63): at most three fraction digits,
      rounded half away from zero, trailing zeros dropped, the integer
      part grouped by commas, and a minus sign on a negative number;
    - [x.toFixed(d)] (the virtual-annealer page, src/virtual-annealer/
      app.js lines 203, 471 and 485): [d] fraction digits, the integer
      nearest to [|x| * 10^d], the larger of two.
    Digits are those of stdpp's [pretty] on [N].  Both are models of
    the JavaScript built-ins on the values the pages print, not
    repository code: [toFixed] covers [|x| < 1e21] (above it JS prints
    the exponent form of [Number::toString], which has no counterpart
    on exact rationals), and the rounding of doubles is not modelled. *)

From Stdlib Require Import QArith Qabs Qround ZArith NArith Ascii String.
From stdpp Require Import base list strings pretty.
From S2P Require Import Prelude Abi.

Module NumberFormat.

(** ** Intl.NumberFormat('en-US').format *)

(** Commas between groups of three digits, on the reversed digits. *)
Fixpoint group3_rev (ds : Abi.str) : Abi.str :=
  match ds with
  | a :: b :: c :: ((_ :: _) as rest) => a :: b :: c :: ","%char :: group3_rev rest
  | _ => ds
  end.

Definition group_digits (n : N) : Abi.str :=
  reverse (group3_rev (reverse (Abi.lit (pretty n)))).

Fixpoint drop_zeros_rev (ds : Abi.str) : Abi.str :=
  match ds with
  | c :: rest => if bool_decide (c = "0"%char) then drop_zeros_rev rest else ds
  | [] => []
  end.

(** The integer [format_number] prints, in thousandths. *)
Definition thousandths (x : Q) : N := Z.to_N (Qfloor (Qabs x * 1000 + (1 # 2))%Q).

(** The fraction digits: [m mod 1000] on three digits, trailing zeros
    dropped. *)
Definition frac_digits (m : N) : Abi.str :=
  reverse (drop_zeros_rev (reverse (Abi.padStart 3 "0"%char (Abi.lit (pretty (m mod 1000)%N))))).

(** The default format of a number in [en-US]. *)
Definition format_number (x : Q) : Abi.str :=
  let m := thousandths x in
  let frac := frac_digits m in
  (if Qltb x 0 then ["-"%char] else []) ++ group_digits (m / 1000)%N ++
  (if bool_decide (frac = []) then [] else "."%char :: frac).

(** ** Number.prototype.toFixed *)

(** The integer [n] that [x.toFixed(d)] prints: the one nearest to
    [|x| * 10^d], the larger of two. *)
Definition toFixed_digits (x : Q) (d : nat) : N :=
  Z.to_N (Qfloor (Qabs x * inject_Z (10 ^ Z.of_nat d) + (1 # 2))%Q).

(** [x.toFixed(d)] for a finite [x] below [1e21]: a minus sign when [x]
    is negative, at least one integer digit, and [d] fraction digits. *)
Definition toFixed (x : Q) (d : nat) : Abi.str :=
  let ds := Abi.padStart (S d) "0"%char (Abi.lit (pretty (toFixed_digits x d))) in
  let k := length ds - d in
  (if Qltb x 0 then ["-"%char] else []) ++
  (if bool_decide (d = 0) then ds else take k ds ++ "."%char :: drop k ds).

End NumberFormat.
