(* ===== verification/Wallet.v ===== *)
(** * The virtual-annealer page: wallet, LOT payment, one job per payment

    src/virtual-annealer/app.js: [appState] and the [sessionStorage]
    flag ['paid'] as state, every handler that changes them as a
    function, each [async] handler split at its [await]s, and a step
    relation [step] that interleaves them as the browser may.  The pay
    button's in-flight state ([button.disabled] from the first [await]
    to the [finally]) is the [pay] phase.  Two ghost counters record the
    transfers whose confirmation the page observed and the runs that
    consumed the payment flag; they are not in the code and are read
    only by the theorems.  The environment (MetaMask answers, balances,
    run results, form values) is any value the step rules accept. *)

From Stdlib Require Import QArith ZArith.
From stdpp Require Import base list strings.
From S2P Require Import Prelude Ising Annealer Abi.

Module Wallet.

(** A JS number read from a form field: [None] is NaN, for which every
    comparison is false. *)
Definition jsnum := option Q.

Definition js_lt (x : jsnum) (c : Q) : bool :=
  match x with Some q => Qltb q c | None => false end.
Definition js_gt (x : jsnum) (c : Q) : bool :=
  match x with Some q => Qltb c q | None => false end.
Definition js_le (x : jsnum) (c : Q) : bool :=
  match x with Some q => Qle_bool q c | None => false end.
Definition js_ge (x : jsnum) (c : Q) : bool :=
  match x with Some q => Qle_bool c q | None => false end.

(** The fields of [CONFIG] (src/virtual-annealer/config.js) the page reads. *)
Record config := mkConfig {
  LOT_TOKEN_ADDRESS : string;
  ANNEALING_COST : Q;
  PAYMENT_RECIPIENT : string
}.

Definition zero_address : string := "0x0000000000000000000000000000000000000000".

(** [appState], lines 14-23 ([web3] is written and never read). *)
Record appState := mkAppState {
  account : option string;
  isConnected : bool;
  lotContract : bool;
  lotBalance : jsnum;
  isPaid : bool;
  isAnnealing : bool;
  currentResult : option Annealer.result
}.

Definition initialAppState : appState :=
  mkAppState None false false (Some 0%Q) false false None.

Inductive pay_phase := PayIdle | PaySending | PaySettling.

Record page := mkPage {
  app : appState;
  session_paid : bool;     (** [sessionStorage.getItem('paid') === 'true'] *)
  pay : pay_phase;
  payments : nat;          (** ghost: confirmed transfers the page observed *)
  jobs_done : nat          (** ghost: runs that cleared the payment flag *)
}.

Definition with_app (s : appState) (p : page) : page :=
  mkPage s p.(session_paid) p.(pay) p.(payments) p.(jobs_done).

(** The alerts with which a handler gives up. *)
Inductive alert :=
  | NotConnected | InsufficientBalance | RecipientUnset
  | NotPaid | AlreadyRunning | BadSpinCount | BadCoolingRate.

(** ** Wallet handlers *)

(** [connectWallet()], lines 40-56: after the accounts request resolves,
    [account = accounts[0]] (undefined, i.e. no account, for an empty
    list) and [isConnected = true]. *)
Definition connectWallet_accounts (accounts : list string) (p : page) : page :=
  let s := p.(app) in
  with_app (mkAppState (head accounts) true s.(lotContract) s.(lotBalance)
              s.(isPaid) s.(isAnnealing) s.(currentResult)) p.

(** [initializeLOTContract()], lines 155-170, when the ABI loads. *)
Definition initializeLOTContract_done (p : page) : page :=
  let s := p.(app) in
  with_app (mkAppState s.(account) s.(isConnected) true s.(lotBalance)
              s.(isPaid) s.(isAnnealing) s.(currentResult)) p.

(** [updateLOTBalance()], lines 175-209: the guard under which the call
    is made, and the assignment once [eth_call] answers [result]:
    [parseInt(result, 16) / 1e18], NaN ([None]) for an answer with no
    hex digit. *)
Definition updateLOTBalance_requests (p : page) : bool :=
  bool_decide (is_Some p.(app).(account)) && p.(app).(lotContract).

Definition updateLOTBalance_done (result : Abi.str) (p : page) : page :=
  let s := p.(app) in
  with_app (mkAppState s.(account) s.(isConnected) s.(lotContract)
              (option_map (fun r => (inject_Z (Z.of_N r) / inject_Z (10 ^ 18))%Q)
                 (Abi.parseInt16 result))
              s.(isPaid) s.(isAnnealing)
              s.(currentResult)) p.

(** [disconnectWallet()], lines 83-93. *)
Definition disconnectWallet (p : page) : page :=
  let s := p.(app) in
  mkPage (mkAppState None false s.(lotContract) (Some 0%Q) false s.(isAnnealing) s.(currentResult))
    false p.(pay) p.(payments) p.(jobs_done).

(** [handleAccountsChanged(accounts)], lines 98-108. *)
Definition handleAccountsChanged (accounts : list string) (p : page) : page :=
  match accounts with
  | [] => disconnectWallet p
  | a0 :: _ =>
      if bool_decide (Some a0 = p.(app).(account)) then p
      else
        let s := p.(app) in
        mkPage (mkAppState (Some a0) s.(isConnected) s.(lotContract) s.(lotBalance)
                  false s.(isAnnealing) s.(currentResult))
          false p.(pay) p.(payments) p.(jobs_done)
  end.

(** [initializeApp()], lines 620-643, on a fresh [appState]. *)
Definition initializeApp (session : bool) : appState :=
  if session then mkAppState None false false (Some 0%Q) true false None else initialAppState.

(** [handleChainChanged()], lines 113-115: [window.location.reload()]
    drops the page's state and its pending continuations; only
    [sessionStorage] survives, and [initializeApp] runs again. *)
Definition reload (p : page) : page :=
  mkPage (initializeApp p.(session_paid)) p.(session_paid) PayIdle p.(payments) p.(jobs_done).

(** ** Payment *)

(** [payWithLOT()], lines 214-246, up to its first [await]: the three
    guards, then the button is disabled and the transfer is sent. *)
Definition payWithLOT_start (cfg : config) (p : page) : page * option alert :=
  if negb p.(app).(isConnected) then (p, Some NotConnected)
  else if js_lt p.(app).(lotBalance) cfg.(ANNEALING_COST) then (p, Some InsufficientBalance)
  else if String.eqb cfg.(PAYMENT_RECIPIENT) zero_address then (p, Some RecipientUnset)
  else (mkPage p.(app) p.(session_paid) PaySending p.(payments) p.(jobs_done), None).

(** Lines 261-263, once [waitForTransaction] resolves. *)
Definition payWithLOT_confirmed (p : page) : page :=
  let s := p.(app) in
  mkPage (mkAppState s.(account) s.(isConnected) s.(lotContract) s.(lotBalance)
            true s.(isAnnealing) s.(currentResult))
    true PaySettling (S p.(payments)) p.(jobs_done).

(** Lines 266-282: after the balance update, the [finally] re-enables
    the button. *)
Definition payWithLOT_settled (p : page) : page :=
  mkPage p.(app) p.(session_paid) PayIdle p.(payments) p.(jobs_done).

(** Lines 273-282: the transfer or its receipt failed. *)
Definition payWithLOT_failed (p : page) : page :=
  mkPage p.(app) p.(session_paid) PayIdle p.(payments) p.(jobs_done).

(** One answer of [eth_getTransactionReceipt]: no receipt yet, a
    receipt with [status === '0x1'] or another status, or an RPC error. *)
Inductive receipt_poll := RNull | RStatus (ok : bool) | RError.

(** ** Running a job *)

Inductive run_outcome :=
  | RunRejected (a : alert)
  | RunThrew
  | RunStarted (spinCount : Z) (initialTemp coolingRate steps : jsnum).

Definition paid (p : page) : bool := p.(app).(isPaid) || p.(session_paid).

Definition with_annealing (b : bool) (p : page) : page :=
  let s := p.(app) in
  with_app (mkAppState s.(account) s.(isConnected) s.(lotContract) s.(lotBalance)
              s.(isPaid) b s.(currentResult)) p.

(** [runAnnealing()], lines 358-411, up to [await annealer.annealAsync].
    [isAnnealing] is set before validation and reset on every early
    return; [new VirtualAnnealer(NaN, ...)] throws at [Array(NaN)], and
    the [finally] resets [isAnnealing]. *)
Definition runAnnealing_start (p : page) (spinCount : option Z)
    (initialTemp coolingRate steps : jsnum) : page * run_outcome :=
  if negb p.(app).(isPaid) && negb p.(session_paid) then (p, RunRejected NotPaid)
  else if p.(app).(isAnnealing) then (p, RunRejected AlreadyRunning)
  else
    let sc := option_map inject_Z spinCount in
    if js_lt sc 2 || js_gt sc 100 then (p, RunRejected BadSpinCount)
    else if js_le coolingRate 0 || js_ge coolingRate 1 then (p, RunRejected BadCoolingRate)
    else match spinCount with
         | None => (p, RunThrew)
         | Some n => (with_annealing true p, RunStarted n initialTemp coolingRate steps)
         end.

(** Lines 414-452, once [annealAsync] resolves with [res]: the result is
    stored and displayed, the payment flag cleared ("one payment = one
    job"), and the [finally] resets [isAnnealing]. *)
Definition runAnnealing_finish (p : page) (res : Annealer.result) : page :=
  let s := p.(app) in
  mkPage (mkAppState s.(account) s.(isConnected) s.(lotContract) s.(lotBalance)
            false false (Some res))
    false p.(pay) p.(payments) (S p.(jobs_done)).

(** The same point when [displayResults] throws (a result element
    missing from the page): the [catch] skips the clearing of the flag. *)
Definition runAnnealing_finish_throw (p : page) (res : Annealer.result) : page :=
  let s := p.(app) in
  with_app (mkAppState s.(account) s.(isConnected) s.(lotContract) s.(lotBalance)
              s.(isPaid) false (Some res)) p.

(** [displayResults(result)], line 486: the "steps completed" figure. *)
Definition steps_completed (res : Annealer.result) : nat :=
  length res.(Annealer.r_energyHistory) * 10.

(** ** The page's transitions *)

Section Steps.
Variable cfg : config.

Inductive step : page -> page -> Prop :=
  | st_connect p accounts : step p (connectWallet_accounts accounts p)
  | st_contract p : step p (initializeLOTContract_done p)
  | st_balance p result : step p (updateLOTBalance_done result p)
  | st_disconnect p : step p (disconnectWallet p)
  | st_accounts p accounts : step p (handleAccountsChanged accounts p)
  | st_reload p : step p (reload p)
  | st_pay_start p p' :
      p.(pay) = PayIdle -> payWithLOT_start cfg p = (p', None) -> step p p'
  | st_pay_confirmed p : p.(pay) = PaySending -> step p (payWithLOT_confirmed p)
  | st_pay_failed p : p.(pay) = PaySending -> step p (payWithLOT_failed p)
  | st_pay_settled p : p.(pay) = PaySettling -> step p (payWithLOT_settled p)
  | st_run_start p sc t r n p' o :
      runAnnealing_start p sc t r n = (p', o) -> step p p'
  | st_run_finish p res : p.(app).(isAnnealing) = true -> step p (runAnnealing_finish p res)
  | st_run_throw p res :
      p.(app).(isAnnealing) = true -> step p (runAnnealing_finish_throw p res).

(** A fresh browser session. *)
Definition init_page : page := mkPage initialAppState false PayIdle 0 0.

Inductive reachable : page -> Prop :=
  | reach_init : reachable init_page
  | reach_step p p' : reachable p -> step p p' -> reachable p'.
End Steps.

(** ** Events: the transitions as an executable interpreter *)

#[export] Instance pay_phase_eq_dec : EqDecision pay_phase.
Proof. solve_decision. Defined.

(** One thing that can happen to the page: a click, a MetaMask answer,
    the end of a run. *)
Inductive event :=
  | EvConnect (accounts : list string)
  | EvContract
  | EvBalance (result : Abi.str)
  | EvDisconnect
  | EvAccounts (accounts : list string)
  | EvReload
  | EvPay
  | EvPayConfirmed
  | EvPayFailed
  | EvPaySettled
  | EvRun (spinCount : option Z) (initialTemp coolingRate steps : jsnum)
  | EvRunFinish (res : Annealer.result)
  | EvRunThrow (res : Annealer.result).

(** The page after [e], or [None] where [e] cannot happen. *)
Definition handle (cfg : config) (e : event) (p : page) : option page :=
  match e with
  | EvConnect accounts => Some (connectWallet_accounts accounts p)
  | EvContract => Some (initializeLOTContract_done p)
  | EvBalance result => Some (updateLOTBalance_done result p)
  | EvDisconnect => Some (disconnectWallet p)
  | EvAccounts accounts => Some (handleAccountsChanged accounts p)
  | EvReload => Some (reload p)
  | EvPay =>
      if decide (p.(pay) = PayIdle) then
        match payWithLOT_start cfg p with (p', None) => Some p' | _ => None end
      else None
  | EvPayConfirmed =>
      if decide (p.(pay) = PaySending) then Some (payWithLOT_confirmed p) else None
  | EvPayFailed =>
      if decide (p.(pay) = PaySending) then Some (payWithLOT_failed p) else None
  | EvPaySettled =>
      if decide (p.(pay) = PaySettling) then Some (payWithLOT_settled p) else None
  | EvRun sc t r n => Some (fst (runAnnealing_start p sc t r n))
  | EvRunFinish res =>
      if p.(app).(isAnnealing) then Some (runAnnealing_finish p res) else None
  | EvRunThrow res =>
      if p.(app).(isAnnealing) then Some (runAnnealing_finish_throw p res) else None
  end.

Fixpoint run_events (cfg : config) (es : list event) (p : page) : option page :=
  match es with
  | [] => Some p
  | e :: rest => handle cfg e p ≫= run_events cfg rest
  end.

(** A credit the page still holds: a payment flag, or a running job that
    will clear it. *)
Definition credit (p : page) : nat :=
  if paid p || p.(app).(isAnnealing) then 1 else 0.

(** ** Theorems *)

Ltac page_cases :=
  repeat match goal with
  | p : page |- _ => destruct p as [[? ? ? ? ? ? ?] ? ? ? ?]
  end; cbn in *; repeat case_match; simplify_eq/=.

Lemma runAnnealing_start_cases p sc t r n p' o :
  runAnnealing_start p sc t r n = (p', o) ->
  p' = p \/ (p' = with_annealing true p /\ paid p = true /\ p.(app).(isAnnealing) = false).
Proof.
  unfold runAnnealing_start, paid.
  destruct (isPaid (app p)) eqn:?, (session_paid p) eqn:?, (isAnnealing (app p)) eqn:?;
    cbn; repeat case_match; intros; simplify_eq; auto.
Qed.

Section Credit.
Variable cfg : config.

Lemma handle_step e p p' : handle cfg e p = Some p' -> step cfg p p'.
Proof.
  destruct e; cbn; intros H; repeat case_match; simplify_eq.
  - apply st_connect.
  - apply st_contract.
  - apply st_balance.
  - apply st_disconnect.
  - apply st_accounts.
  - apply st_reload.
  - now apply st_pay_start.
  - now apply st_pay_confirmed.
  - now apply st_pay_failed.
  - now apply st_pay_settled.
  - eapply st_run_start. apply surjective_pairing.
  - now apply st_run_finish.
  - now apply st_run_throw.
Qed.

Lemma step_handle p p' : step cfg p p' -> exists e, handle cfg e p = Some p'.
Proof.
  destruct 1 as [| | | | | | p p' Hi Hs | p Hs | p Hs | p Hs | p sc t r n p' o Hs | p res Hs
                | p res Hs].
  all: try solve [eexists (EvConnect _); reflexivity | exists EvContract; reflexivity
                 | eexists (EvBalance _); reflexivity | exists EvDisconnect; reflexivity
                 | eexists (EvAccounts _); reflexivity | exists EvReload; reflexivity].
  - exists EvPay. cbn. case_decide; [|congruence]. now rewrite Hs.
  - exists EvPayConfirmed. cbn. case_decide; congruence.
  - exists EvPayFailed. cbn. case_decide; congruence.
  - exists EvPaySettled. cbn. case_decide; congruence.
  - exists (EvRun sc t r n). cbn. now rewrite Hs.
  - exists (EvRunFinish res). cbn. now rewrite Hs.
  - exists (EvRunThrow res). cbn. now rewrite Hs.
Qed.

Lemma run_events_reachable es p p' :
  reachable cfg p -> run_events cfg es p = Some p' -> reachable cfg p'.
Proof.
  revert p. induction es as [|e es IH]; cbn; intros p Hp H.
  - congruence.
  - destruct (handle cfg e p) as [q|] eqn:Hq; cbn in H; [|discriminate].
    eapply IH; [|exact H]. eapply reach_step; [exact Hp|]. now apply (handle_step e).
Qed.

Lemma step_credit p p' :
  step cfg p p' -> jobs_done p + credit p <= payments p ->
  jobs_done p' + credit p' <= payments p'.
Proof.
  unfold credit, paid. destruct 1 as [| | | | | | p p' Hi Hs | | | | p sc t r n p' o Hs | |].
  all: try (apply runAnnealing_start_cases in Hs as [->|(-> & Hpaid & Hrun)]);
    try (unfold payWithLOT_start in Hs); try destruct accounts; unfold paid, reload, initializeApp in *;
    page_cases; rewrite ?orb_true_r, ?orb_false_r in *; first [lia | congruence].
Qed.
End Credit.

(** [CONFIG] as shipped in src/virtual-annealer/config.js, lines 8-42. *)
Definition CONFIG : config := mkConfig zero_address 10 zero_address.

(** A deployment with a recipient set, for the scenarios below. *)
Definition demo_config : config :=
  mkConfig "0x1111111111111111111111111111111111111111" 10
           "0x2222222222222222222222222222222222222222".

Lemma spin_count_check k :
  (inject_Z k <q? 2) || (100 <q? inject_Z k) = false <-> (2 <= k <= 100)%Z.
Proof.
  rewrite orb_false_iff, !Qltb_false.
  change 2%Q with (inject_Z 2). change 100%Q with (inject_Z 100).
  rewrite <- !Zle_Qle. lia.
Qed.

Lemma spin_count_reject k :
  (inject_Z k <q? 2) || (100 <q? inject_Z k) = true -> (k < 2 \/ 100 < k)%Z.
Proof.
  intros H. destruct (decide (2 <= k <= 100)%Z) as [Hk|Hk]; [|lia].
  apply spin_count_check in Hk. congruence.
Qed.

(** The spin-count test of [runAnnealing] as bounds on [k]. *)
Ltac spin_bounds :=
  repeat match goal with
  | H : (inject_Z _ <q? 2) || (100 <q? inject_Z _) = false |- _ =>
      apply spin_count_check in H
  | H : (inject_Z _ <q? 2) || (100 <q? inject_Z _) = true |- _ =>
      apply spin_count_reject in H
  end.

(** The [eth_call] answer for a balance of 100 LOT (100 * 10^18 units). *)
Definition balance_100_LOT : Abi.str :=
  Abi.lit "0x0000000000000000000000000000000000000000000000056bc75e2d63100000".

(** The payment-clearing run of the scenario of [second_payment_lost]:
    pay, start a job, pay again while it runs, let the job finish. *)
Definition lost_payment_events (res : Annealer.result) : list event :=
  [EvConnect ["0xabc"]; EvContract; EvBalance balance_100_LOT;
   EvPay; EvPayConfirmed; EvPaySettled;
   EvRun (Some 10%Z) (Some 100%Q) (Some (95 # 100)) (Some 1000%Q);
   EvPay; EvPayConfirmed; EvPaySettled;
   EvRunFinish res].

Lemma lost_payment_run res :
  exists p, run_events demo_config (lost_payment_events res) init_page = Some p /\
    payments p = 2 /\ jobs_done p = 1 /\ credit p = 0 /\ pay p = PayIdle.
Proof.
  destruct (run_events demo_config (lost_payment_events res) init_page) as [p|] eqn:E;
    vm_compute in E; [|discriminate].
  exists p. injection E as <-. auto.
Qed.

(** (C7) Every job the page runs is paid for: on every reachable page of
    any deployment, the completed jobs plus the credit the page still
    holds (a payment flag, or a running job) never exceed the confirmed
    LOT transfers. *)
Theorem reachable_jobs_paid cfg p :
  reachable cfg p -> jobs_done p + credit p <= payments p.
Proof.
  induction 1 as [|q q' _ IH Hs]; [cbn; lia|]. exact (step_credit cfg q q' Hs IH).
Qed.

Lemma shipped_config_inert p p' :
  step CONFIG p p' ->
  pay p = PayIdle /\ payments p = 0 /\ jobs_done p = 0 /\ paid p = false /\
    p.(app).(isAnnealing) = false ->
  pay p' = PayIdle /\ payments p' = 0 /\ jobs_done p' = 0 /\ paid p' = false /\
    p'.(app).(isAnnealing) = false.
Proof.
  intros Hs (Hpay & Hn & Hj & Hp & Ha). unfold paid in *.
  destruct Hs as [| | | | | | p p' Hi Hs | | | | p sc t r n p' o Hs | |];
    try (apply runAnnealing_start_cases in Hs as [->|(-> & Hpaid & Hrun)]);
    try (unfold payWithLOT_start in Hs); try destruct accounts;
    unfold paid, reload, initializeApp in *; page_cases;
    rewrite ?orb_true_r, ?orb_false_r in *; rewrite ?orb_false_iff in *;
    destruct_and?; subst; cbn in *; intuition congruence.
Qed.

(** (C8) With the shipped [config.js] ([PAYMENT_RECIPIENT] the zero
    address), no LOT transfer is ever sent: on every reachable page no
    payment is in flight, none was confirmed, the payment flag is clear,
    and no job has run or is running. *)
Theorem shipped_config_never_pays p :
  reachable CONFIG p ->
  pay p = PayIdle /\ payments p = 0 /\ jobs_done p = 0 /\ paid p = false /\
    p.(app).(isAnnealing) = false.
Proof.
  induction 1 as [|q q' _ IH Hs]; [cbn; auto 6|]. exact (shipped_config_inert q q' Hs IH).
Qed.

(** (C9) A transfer confirmed while a job runs is lost: in a deployment
    with a recipient, a reachable page has two confirmed payments and
    one completed job, yet holds no credit, and every further run is
    refused for want of payment. *)
Theorem second_payment_lost (res : Annealer.result) :
  exists p, reachable demo_config p /\ payments p = 2 /\ jobs_done p = 1 /\
    credit p = 0 /\
    forall sc t r n, snd (runAnnealing_start p sc t r n) = RunRejected NotPaid.
Proof.
  destruct (lost_payment_run res) as (p & Hrun & Hpay & Hjobs & Hcredit & _).
  exists p. split; [exact (run_events_reachable _ _ _ _ (reach_init _) Hrun)|].
  repeat split; auto. intros sc t r n. unfold credit, paid in Hcredit.
  unfold runAnnealing_start. destruct (isPaid (app p)), (session_paid p); easy.
Qed.

(** (C10) [runAnnealing] gates a job on payment and on no job running:
    it refuses an unpaid page, then a page with a job running; it
    starts a job exactly when the page is paid and idle, the spin count
    is an integer in [[2, 100]] and the cooling rate fails both range
    tests, passing the form's values on unchanged; and only a started
    job changes the page, by setting [isAnnealing]. *)
Theorem runAnnealing_start_spec p sc t r n p' o :
  runAnnealing_start p sc t r n = (p', o) ->
  (o = RunRejected NotPaid <-> paid p = false) /\
  (o = RunRejected AlreadyRunning <-> paid p = true /\ p.(app).(isAnnealing) = true) /\
  (forall k t' r' n', o = RunStarted k t' r' n' <->
     paid p = true /\ p.(app).(isAnnealing) = false /\ sc = Some k /\ (2 <= k <= 100)%Z /\
     js_le r 0 || js_ge r 1 = false /\ t' = t /\ r' = r /\ n' = n) /\
  (match o with RunStarted _ _ _ _ => p' = with_annealing true p | _ => p' = p end).
Proof.
  unfold runAnnealing_start, paid.
  destruct (isPaid (app p)), (session_paid p), (isAnnealing (app p)); cbn;
    intros Hs; simplify_eq; try (repeat split; intros; destruct_and?; done).
  all: destruct sc as [k|]; cbn in Hs; repeat case_match; simplify_eq; spin_bounds;
    repeat split; intros; destruct_and?; simplify_eq; auto; first [congruence | lia].
Qed.

Section Display.
Context {G : Type} `{MathLib G}.

(** (C11) The "steps completed" figure of [displayResults] is not the
    number of steps run: for every finished [annealAsync] run of [S]
    steps it shows [10 * (1 + ceil(S / 10))], which always exceeds [S]. *)
Theorem displayResults_steps_completed cb frames (a : Annealer.annealer) (g : G)
    res a' g' reports :
  (Annealer.frames_needed a.(Annealer.steps) <= frames)%nat ->
  Annealer.annealAsync cb frames a g = Some (res, a', g', reports) ->
  steps_completed res = 10 * S ((Z.to_nat a.(Annealer.steps) + 9) / 10) /\
  Z.to_nat a.(Annealer.steps) < steps_completed res.
Proof.
  intros Hf Hrun. destruct (Annealer.annealAsync_run cb frames a g Hf) as [reports' E].
  rewrite E in Hrun. injection Hrun as <- _ _ _.
  unfold steps_completed.
  change (Annealer.r_energyHistory (Annealer.result_of ?r))
    with (Annealer.ann r).(Annealer.energyHistory).
  rewrite (proj1 (Annealer.run_history_length a g)).
  pose proof (Nat.div_mod (Z.to_nat a.(Annealer.steps) + 9) 10 ltac:(lia)).
  pose proof (Nat.mod_upper_bound (Z.to_nat a.(Annealer.steps) + 9) 10 ltac:(lia)).
  lia.
Qed.
End Display.

(** ** Witnesses *)

Definition demo_result : Annealer.result := Annealer.mkResult [] 0 [] 0 [] [] [] [].

Definition demo_page : page :=
  default init_page (run_events demo_config (lost_payment_events demo_result) init_page).

Lemma demo_page_reachable : reachable demo_config demo_page.
Proof.
  apply (run_events_reachable _ (lost_payment_events demo_result) init_page);
    [constructor | vm_compute; reflexivity].
Qed.

Definition shipped_events : list event :=
  [EvConnect ["0xabc"]; EvContract; EvBalance balance_100_LOT].

Definition shipped_page : page :=
  default init_page (run_events CONFIG shipped_events init_page).

Lemma shipped_page_reachable : reachable CONFIG shipped_page.
Proof.
  apply (run_events_reachable _ shipped_events init_page);
    [constructor | vm_compute; reflexivity].
Qed.

(** Connected, holding 100 LOT, paid and idle. *)
Definition paid_page : page :=
  mkPage (mkAppState (Some "0xabc") true true (Some 100%Q) true false None) true PayIdle 1 0.

Lemma reachable_jobs_paid_witness :
  reachable demo_config demo_page /\
  jobs_done demo_page + credit demo_page <= payments demo_page.
Proof.
  split; [exact demo_page_reachable|].
  exact (reachable_jobs_paid demo_config demo_page demo_page_reachable).
Defined.

Lemma shipped_config_never_pays_witness :
  reachable CONFIG shipped_page /\ payments shipped_page = 0 /\ paid shipped_page = false.
Proof.
  destruct (shipped_config_never_pays shipped_page shipped_page_reachable)
    as (_ & Hn & _ & Hp & _).
  split; [exact shipped_page_reachable|]. split; assumption.
Defined.

Lemma runAnnealing_start_spec_witness :
  runAnnealing_start paid_page (Some 10%Z) (Some 100%Q) (Some (95 # 100)) (Some 1000%Q) =
    (with_annealing true paid_page, RunStarted 10 (Some 100%Q) (Some (95 # 100)) (Some 1000%Q)) /\
  paid paid_page = true /\ paid_page.(app).(isAnnealing) = false.
Proof.
  assert (Hs : runAnnealing_start paid_page (Some 10%Z) (Some 100%Q) (Some (95 # 100))
                 (Some 1000%Q) =
               (with_annealing true paid_page,
                RunStarted 10 (Some 100%Q) (Some (95 # 100)) (Some 1000%Q))) by reflexivity.
  split; [exact Hs|].
  destruct (runAnnealing_start_spec _ _ _ _ _ _ _ Hs) as (_ & _ & Hk & _).
  destruct (proj1 (Hk 10%Z _ _ _) eq_refl) as (Hp & Ha & _). split; assumption.
Defined.

Lemma displayResults_steps_completed_witness :
  exists res a' g' reports,
    @Annealer.annealAsync Z Annealer.park_miller false 2 Annealer.a3 42%Z =
      Some (res, a', g', reports) /\
    steps_completed res = 30 /\ 12 < steps_completed res.
Proof.
  destruct (@Annealer.annealAsync Z Annealer.park_miller false 2 Annealer.a3 42%Z)
    as [[[[res a'] g'] reports]|] eqn:E; [|vm_compute in E; discriminate].
  exists res, a', g', reports. split; [reflexivity|].
  destruct (@displayResults_steps_completed Z Annealer.park_miller false 2 Annealer.a3 42%Z
              res a' g' reports
              ltac:(vm_compute; lia) E) as [E1 E2].
  split; [rewrite E1; reflexivity | exact E2].
Defined.

End Wallet.
