(* ===== verification/Chart.v ===== *)
(** * The energy chart of the virtual-annealer page

    [displayEnergyChart(energyHistory)] (src/virtual-annealer/app.js,
    lines 518-543): [Math.max] and [Math.min] of the history, a stride
    [sampleEvery = max(1, floor(length / 50))], and for every sampled
    energy one bar of [Math.round(normalized * 40)] full cells and
    [40 - barLength] empty ones, where [String.prototype.repeat] throws
    on a negative count.  The model returns the rows as (full cells,
    empty cells, energy), [None] where [repeat] would throw; the HTML
    around them is not modelled.  The [for] loop is structural recursion
    on a fuel of [length energyHistory], enough because the stride is at
    least 1 ([strided_seq]). *)

From Stdlib Require Import QArith Qround Qminmax Lqa.
From stdpp Require Import base list.
From S2P Require Import Prelude.

Module Chart.

(** [Math.round] on a finite number: the floor of [x + 1/2]. *)
Definition js_round (x : Q) : Z := Qfloor (x + (1 # 2)).

(** [Math.max(...l)] and [Math.min(...l)]; [None] for the empty array
    ([-Infinity] and [Infinity]). *)
Definition list_max (l : list Q) : option Q :=
  match l with [] => None | x :: r => Some (fold_left Qmax r x) end.
Definition list_min (l : list Q) : option Q :=
  match l with [] => None | x :: r => Some (fold_left Qmin r x) end.

(** ['█'.repeat(barLength) + '░'.repeat(40 - barLength)]: the two cell
    counts, or [None] where a count is negative (a [RangeError]). *)
Definition bar_cells (barLength : Z) : option (nat * nat) :=
  if (0 <=? barLength)%Z && (barLength <=? 40)%Z
  then Some (Z.to_nat barLength, Z.to_nat (40 - barLength))
  else None.

Definition row := (nat * nat * Q)%type.

(** The [for (let i = 0; i < energyHistory.length; i += sampleEvery)]
    loop, lines 533-539, from index [i]. *)
Fixpoint chart_loop (fuel : nat) (hist : list Q) (sampleEvery : nat) (minEnergy range : Q)
    (i : nat) : option (list row) :=
  match fuel with
  | O => Some []
  | S f =>
      if Nat.ltb i (length hist) then
        let energy := hist @[ i ] in
        let normalized := if 0 <q? range then ((energy - minEnergy) / range)%Q else 0%Q in
        let barLength := js_round (normalized * 40)%Q in
        cells ← bar_cells barLength;
        rest ← chart_loop f hist sampleEvery minEnergy range (i + sampleEvery);
        Some ((cells, energy) :: rest)
      else Some []
  end.

Definition sampleEvery_of (len : nat) : nat := Nat.max 1 (len / 50).

(** [displayEnergyChart(energyHistory)]: for an empty history the range
    is [-Infinity - Infinity] and the loop does not run. *)
Definition displayEnergyChart (hist : list Q) : option (list row) :=
  match list_max hist, list_min hist with
  | Some maxEnergy, Some minEnergy =>
      chart_loop (length hist) hist (sampleEvery_of (length hist)) minEnergy
        (maxEnergy - minEnergy)%Q 0
  | _, _ => Some []
  end.

(** The indices the loop visits from [i]. *)
Fixpoint strided (fuel : nat) (len s i : nat) : list nat :=
  match fuel with
  | O => []
  | S f => if Nat.ltb i len then i :: strided f len s (i + s) else []
  end.

(** ** Lemmas *)

Local Open Scope Q_scope.

Lemma fold_max_bound (r : list Q) (y : Q) :
  y <= fold_left Qmax r y /\ Forall (fun x => x <= fold_left Qmax r y) r.
Proof.
  revert y. induction r as [|x r IH]; intros y; cbn; [split; [lra | constructor]|].
  destruct (IH (Qmax y x)) as [H1 H2].
  pose proof (Q.le_max_l y x). pose proof (Q.le_max_r y x).
  split; [lra|]. constructor; [lra | exact H2].
Qed.

Lemma fold_min_bound (r : list Q) (y : Q) :
  fold_left Qmin r y <= y /\ Forall (fun x => fold_left Qmin r y <= x) r.
Proof.
  revert y. induction r as [|x r IH]; intros y; cbn; [split; [lra | constructor]|].
  destruct (IH (Qmin y x)) as [H1 H2].
  pose proof (Q.le_min_l y x). pose proof (Q.le_min_r y x).
  split; [lra|]. constructor; [lra | exact H2].
Qed.

(** Every entry of the history lies between its [Math.min] and [Math.max]. *)
Lemma list_min_max_bounds hist mx mn i :
  list_max hist = Some mx -> list_min hist = Some mn -> (i < length hist)%nat ->
  mn <= hist @[ i ] <= mx.
Proof.
  destruct hist as [|y r]; [discriminate|]. cbn. intros [= <-] [= <-] Hi.
  destruct (fold_max_bound r y) as [Hy1 Hr1]. destruct (fold_min_bound r y) as [Hy2 Hr2].
  unfold vec_get. destruct i as [|i]; [cbn; lra|].
  change ((y :: r) !! S i) with (r !! i).
  destruct (lookup_lt_is_Some_2 r i ltac:(cbn in Hi; lia)) as [x Hx]. rewrite Hx. cbn.
  apply list_elem_of_lookup_2 in Hx.
  rewrite Forall_forall in Hr1, Hr2. specialize (Hr1 x Hx). specialize (Hr2 x Hx). lra.
Qed.

Lemma normalized_bounds mn mx e :
  mn <= e <= mx ->
  0 <= (if 0 <q? (mx - mn) then (e - mn) / (mx - mn) else 0) <= 1.
Proof.
  intros He. case_Qltb; [|lra]. split.
  - apply Qle_shift_div_l; lra.
  - apply Qle_shift_div_r; lra.
Qed.

Lemma js_round_bar q : 0 <= q <= 1 -> (0 <= js_round (q * 40) <= 40)%Z.
Proof.
  intros Hq. unfold js_round. split.
  - change 0%Z with (Qfloor 0). apply Qfloor_resp_le. lra.
  - pose proof (Qfloor_le (q * 40 + (1 # 2))) as H.
    assert (Hlt : inject_Z (Qfloor (q * 40 + (1 # 2))) < inject_Z 41).
    { apply Qle_lt_trans with (q * 40 + (1 # 2)); [exact H|].
      change (inject_Z 41) with (41 # 1). lra. }
    rewrite <- Zlt_Qlt in Hlt. lia.
Qed.

(** The row the loop body builds for energy [e]. *)
Definition row_of (mn range e : Q) : row :=
  let b := js_round ((if 0 <q? range then (e - mn) / range else 0) * 40) in
  (Z.to_nat b, Z.to_nat (40 - b), e).

Lemma chart_loop_strided fuel hist s mn range i :
  (forall k, (k < length hist)%nat ->
     0 <= (if 0 <q? range then (hist @[ k ] - mn) / range else 0) <= 1) ->
  chart_loop fuel hist s mn range i =
    Some (map (fun k => row_of mn range (hist @[ k ])) (strided fuel (length hist) s i)).
Proof.
  intros Hn. revert i. induction fuel as [|f IH]; intros i; [reflexivity|].
  cbn [chart_loop strided]. destruct (Nat.ltb_spec i (length hist)) as [Hi|Hi]; [|reflexivity].
  pose proof (js_round_bar _ (Hn i Hi)) as Hb.
  unfold bar_cells. rewrite (proj2 (andb_true_iff _ _)) by (split; apply Z.leb_le; lia).
  cbn [mbind option_bind]. rewrite IH. reflexivity.
Qed.

Lemma strided_seq fuel len s i :
  (1 <= s)%nat -> (len - i <= fuel)%nat ->
  strided fuel len s i = map (fun k => i + k * s)%nat (seq 0 ((len - i + s - 1) / s)).
Proof.
  intros Hs. revert i. induction fuel as [|f IH]; intros i Hf; cbn [strided].
  - replace (len - i)%nat with 0%nat by lia. rewrite Nat.div_small by lia. reflexivity.
  - destruct (Nat.ltb_spec i len) as [Hi|Hi].
    + rewrite IH by lia.
      replace ((len - i + s - 1) / s)%nat with (S ((len - (i + s) + s - 1) / s)).
      * cbn [seq map]. rewrite <- seq_shift, map_map. f_equal; [lia|].
        apply map_ext. intros k. lia.
      * destruct (Nat.le_gt_cases s (len - i)) as [Hle|Hgt].
        -- replace (len - i + s - 1)%nat with (1 * s + (len - (i + s) + s - 1))%nat by lia.
           rewrite Nat.div_add_l by lia. lia.
        -- replace (len - (i + s) + s - 1)%nat with (s - 1)%nat by lia.
           rewrite Nat.div_small by lia.
           apply Nat.le_antisymm.
           ++ apply Nat.div_le_lower_bound; lia.
           ++ assert ((len - i + s - 1) / s < 2)%nat by (apply Nat.Div0.div_lt_upper_bound; lia). lia.
    + replace (len - i)%nat with 0%nat by lia. rewrite Nat.div_small by lia. reflexivity.
Qed.

(** At most 99 rows: [ceil(len / max(1, floor(len / 50)))] is largest,
    99, at [len = 99]. *)
Lemma chart_row_count len :
  ((len + sampleEvery_of len - 1) / sampleEvery_of len <= 99)%nat.
Proof.
  unfold sampleEvery_of. destruct (Nat.lt_ge_cases len 100) as [Hl|Hl].
  - assert (Hs : Nat.max 1 (len / 50) = 1%nat).
    { apply Nat.max_l.
      assert (len / 50 < 2)%nat by (apply Nat.Div0.div_lt_upper_bound; lia). lia. }
    rewrite Hs, Nat.div_1_r. lia.
  - pose proof (Nat.div_mod len 50 ltac:(lia)) as Hd.
    pose proof (Nat.mod_upper_bound len 50 ltac:(lia)) as Hm.
    assert (H2 : (2 <= len / 50)%nat) by (apply Nat.div_le_lower_bound; lia).
    rewrite Nat.max_r by lia.
    apply Nat.Div0.div_le_upper_bound. nia.
Qed.

(** ** Theorems *)

(** (C19) [displayEnergyChart] draws a non-empty history without a
    [RangeError]: every bar has [0..40] full cells and 40 cells in all,
    the rows show the energies at indices [0, s, 2s, ...] below the
    length for [s = max(1, floor(length / 50))], and there are at most
    99 of them. *)
Theorem displayEnergyChart_rows hist :
  hist <> [] ->
  exists rows, displayEnergyChart hist = Some rows /\
    Forall (fun r : row => (r.1.1 + r.1.2 = 40)%nat) rows /\
    map snd rows =
      map (fun k => hist @[ k * sampleEvery_of (length hist) ])
        (seq 0 ((length hist + sampleEvery_of (length hist) - 1) / sampleEvery_of (length hist))) /\
    (length rows <= 99)%nat.
Proof.
  intros Hne. unfold displayEnergyChart.
  destruct (list_max hist) as [mx|] eqn:Emx; [|destruct hist; [done | discriminate]].
  destruct (list_min hist) as [mn|] eqn:Emn; [|destruct hist; [done | discriminate]].
  set (s := sampleEvery_of (length hist)).
  assert (Hs : (1 <= s)%nat) by apply Nat.le_max_l.
  rewrite chart_loop_strided.
  2: { intros k Hk. apply normalized_bounds. exact (list_min_max_bounds hist mx mn k Emx Emn Hk). }
  rewrite strided_seq by (first [exact Hs | lia]). rewrite Nat.sub_0_r.
  eexists. split; [reflexivity|]. split; [|split].
  - apply Forall_forall. intros r Hr. apply list_elem_of_fmap in Hr as (k & -> & Hk).
    apply list_elem_of_fmap in Hk as (j & -> & Hj). apply elem_of_seq in Hj.
    assert (Hk : (j * s < length hist)%nat).
    { assert (Hj' : (j + 1 <= (length hist + s - 1) / s)%nat) by lia.
      pose proof (Nat.Div0.mul_div_le (length hist + s - 1) s). nia. }
    pose proof (js_round_bar _ (normalized_bounds mn mx _
                  (list_min_max_bounds hist mx mn _ Emx Emn Hk))) as Hb.
    unfold row_of. cbn [fst snd]. rewrite Nat.add_0_l. lia.
  - rewrite !map_map. apply map_ext. reflexivity.
  - rewrite !length_map, length_seq. apply chart_row_count.
Qed.

(** ** Witnesses *)

Lemma displayEnergyChart_rows_witness :
  [3; 1; 2; 1 # 2] <> [] /\
  exists rows, displayEnergyChart [3; 1; 2; 1 # 2] = Some rows /\ (length rows <= 99)%nat.
Proof.
  split; [discriminate|].
  destruct (displayEnergyChart_rows [3; 1; 2; 1 # 2] ltac:(discriminate))
    as (rows & E & _ & _ & L).
  exists rows. split; assumption.
Defined.

End Chart.
