(* ===== verification/WalletUI.v ===== *)
(** * The virtual-annealer page: configuration, chain check and display

    src/virtual-annealer/config.js: the whole [CONFIG] (lines 8-42),
    [CHAIN_CONFIG] (lines 45-55) and the two console warnings (lines
    57-64).  src/virtual-annealer/app.js: [checkChainId] (lines
    120-146) as the wallet requests it makes for MetaMask's answers,
    [updateWalletUI] (lines 552-585) as a view of [appState],
    [showAlert] (lines 590-611), the texts of [updateProgress] (lines
    458-473), [displayResults] (lines 478-495) with
    [displaySpinConfiguration] (lines 500-513), the balance text of
    [updateLOTBalance] (line 203), all printing numbers with
    [NumberFormat.toFixed].  The icon literals
    are the bytes of the source file, which holds them double-encoded. *)

From Stdlib Require Import QArith Qabs Qround ZArith NArith Ascii String Lqa.
From stdpp Require Import base list strings pretty.
From S2P Require Import Prelude Abi NumberFormat Annealer Wallet Chart.

Module WalletUI.

(** ** CONFIG and CHAIN_CONFIG *)

Record default_params := mkParams {
  spinCount : Z; initialTemp : Q; coolingRate : Q; steps : Z
}.

(** The [CONFIG] fields besides the three of [Wallet.config]. *)
Record chain_settings := mkChainSettings {
  CHAIN_ID : N;
  CHAIN_NAME : string;
  RPC_URL : string;
  BLOCK_EXPLORER_URL : string;
  APP_NAME : string;
  APP_VERSION : string;
  DEFAULT_PARAMS : default_params
}.

(** config.js lines 13-41, as shipped. *)
Definition CONFIG_chain : chain_settings :=
  mkChainSettings 11155111 "Sepolia Testnet" "https://sepolia.infura.io/v3/YOUR_INFURA_KEY"
    "https://sepolia.etherscan.io" "Virtual Annealing Machine" "1.0.0"
    (mkParams 10 100 (95 # 100) 1000).

Record native_currency := mkCurrency { cur_name : string; cur_symbol : string; decimals : nat }.

Record chain_config := mkChainConfig {
  chainId : Abi.str;
  chainName : string;
  nativeCurrency : native_currency;
  rpcUrls : list string;
  blockExplorerUrls : list string
}.

(** [`0x${CONFIG.CHAIN_ID.toString(16)}`], config.js line 46 and app.js line 122. *)
Definition expectedChainId (c : chain_settings) : Abi.str := Abi.lit "0x" ++ Abi.toString16 c.(CHAIN_ID).

(** [CHAIN_CONFIG], lines 45-55. *)
Definition CHAIN_CONFIG (c : chain_settings) : chain_config :=
  mkChainConfig (expectedChainId c) c.(CHAIN_NAME) (mkCurrency "ETH" "ETH" 18)
    [c.(RPC_URL)] [c.(BLOCK_EXPLORER_URL)].

(** The warnings of lines 57-64. *)
Definition config_warnings (cfg : Wallet.config) : list string :=
  (if String.eqb cfg.(Wallet.LOT_TOKEN_ADDRESS) Wallet.zero_address
   then ["⚠️ LOT Token address is not configured. Please update config.js"] else []) ++
  (if String.eqb cfg.(Wallet.PAYMENT_RECIPIENT) Wallet.zero_address
   then ["⚠️ Payment recipient address is not configured. Please update config.js"] else []).

(** ** Alerts *)

Record alert := mkAlert { className : string; innerHTML : string }.

Definition alert_icon (type : string) : string :=
  if String.eqb type "success" then "‚úÖ"
  else if String.eqb type "error" then "‚ùå"
  else if String.eqb type "warning" then "‚ö†Ô∏è" else "‚ÑπÔ∏è".

(** [showAlert(message, type)], lines 590-611: the message goes into
    [innerHTML] as it is. *)
Definition showAlert (message type : string) : alert :=
  mkAlert ("alert alert-" ++ type)
    (nl ++ "    <span style=" ++ dq ++ "font-size: 1.25rem;" ++ dq ++ ">" ++ alert_icon type ++
     "</span>" ++ nl ++ "    <span>" ++ message ++ "</span>" ++ nl ++ "  ").

(** ** checkChainId *)

(** What a [window.ethereum.request] answers: success, or a rejection
    with its [code]. *)
Inductive rpc_answer := RpcOk | RpcError (code : Z).

Inductive wallet_request :=
  | SwitchChain (chainId : Abi.str)       (** [wallet_switchEthereumChain] *)
  | AddChain (c : chain_config).          (** [wallet_addEthereumChain] *)

(** [checkChainId()], lines 120-146, once [eth_chainId] answered
    [chainId]: the requests made after it (in order) and the alert.  On
    a wrong chain the page asks to switch; a rejection with code 4902
    (unknown chain) makes it ask to add [CHAIN_CONFIG]; every other
    rejection, and any answer to the addition, is swallowed. *)
Definition checkChainId (c : chain_settings) (chainId : Abi.str) (switch : rpc_answer)
    : list wallet_request * list alert :=
  let expected := expectedChainId c in
  if bool_decide (chainId = expected) then ([], [])
  else (SwitchChain expected ::
          match switch with
          | RpcError code => if Z.eqb code 4902 then [AddChain (CHAIN_CONFIG c)] else []
          | RpcOk => []
          end,
        [showAlert ("Please switch to " ++ c.(CHAIN_NAME)) "warning"]).

(** ** updateWalletUI *)

Inductive button_handler := OnConnect | OnDisconnect.

Record wallet_view := mkWalletView {
  connect_text : string;
  connect_onclick : button_handler;
  wallet_info_shown : bool;
  address_text : option Abi.str;        (** left as it was when disconnected *)
  status_html : string;
  status_class : string;
  pay_section_shown : bool
}.

(** [`${a.slice(0, 6)}...${a.slice(-4)}`]. *)
Definition short_address (a : Abi.str) : Abi.str :=
  take 6 a ++ Abi.lit "..." ++ drop (length a - 4) a.

(** [updateWalletUI()], lines 552-585; connected without an account,
    [appState.account.slice] throws ([None]). *)
Definition updateWalletUI (s : Wallet.appState) : option wallet_view :=
  if s.(Wallet.isConnected) then
    match s.(Wallet.account) with
    | Some a =>
        Some (mkWalletView "Disconnect Wallet" OnDisconnect true
                (Some (short_address (list_ascii_of_string a)))
                ("<span class=" ++ dq ++ "status-dot" ++ dq ++ "></span> Connected")
                "status-badge status-connected" true)
    | None => None
    end
  else Some (mkWalletView "Connect Wallet" OnConnect false None
               ("<span class=" ++ dq ++ "status-dot" ++ dq ++ "></span> Disconnected")
               "status-badge status-disconnected" false).

(** ** Number formatting *)

(** [toFixed] on a number read as a [jsnum]: NaN prints as [NaN]. *)
Definition toFixed_js (x : Wallet.jsnum) (d : nat) : Abi.str :=
  match x with Some q => NumberFormat.toFixed q d | None => Abi.lit "NaN" end.

(** The balance text of [updateLOTBalance], line 203. *)
Definition balance_text (balance : Wallet.jsnum) : Abi.str := toFixed_js balance 2 ++ Abi.lit " LOT".

(** ** Progress and results *)

Record progress_view := mkProgressView { progress_text : Abi.str; energy_text : Abi.str }.

(** The two texts of [updateProgress(progress)], lines 464-472 (the bar
    width of line 461 prints a double and is not modelled). *)
Definition updateProgress (p : Annealer.progress) : progress_view :=
  mkProgressView
    (Abi.lit ("Step " ++ pretty (N.of_nat p.(Annealer.p_step)) ++ " / " ++
              (if (p.(Annealer.p_totalSteps) <? 0)%Z then "-" else "") ++
              pretty (Z.to_N (Z.abs p.(Annealer.p_totalSteps)))))
    (Abi.lit "Energy: " ++ NumberFormat.toFixed p.(Annealer.p_bestEnergy) 4).

(** One cell of [displaySpinConfiguration], lines 506-512. *)
Record spin_cell := mkCell { cell_class : string; cell_text : string; cell_title : Abi.str }.

Definition spin_cell_of (index : nat) (spin : Z) : spin_cell :=
  let up := Z.eqb spin 1 in
  mkCell ("spin-cell " ++ if up then "spin-up" else "spin-down") (if up then "‚Üë" else "‚Üì")
    (Abi.lit ("Spin " ++ pretty (N.of_nat index) ++ ": " ++
              (if (spin <? 0)%Z then "-" else "") ++ pretty (Z.to_N (Z.abs spin)))).

(** [displaySpinConfiguration(spins)]: one cell per spin, in order. *)
Definition displaySpinConfiguration (spins : list Z) : list spin_cell :=
  imap spin_cell_of spins.

Record results_view := mkResultsView {
  final_energy : Abi.str;
  steps_completed_text : nat;
  spin_grid : list spin_cell;
  chart : option (list Chart.row)
}.

(** [displayResults(result)], lines 478-495. *)
Definition displayResults (res : Annealer.result) : results_view :=
  mkResultsView (NumberFormat.toFixed res.(Annealer.r_bestEnergy) 6) (Wallet.steps_completed res)
    (displaySpinConfiguration res.(Annealer.r_bestSpins))
    (Chart.displayEnergyChart res.(Annealer.r_energyHistory)).

(** ** Lemmas *)

End WalletUI.
