(* ===== verification/WalletPage.v ===== *)
(** * The virtual-annealer page as a user drives it

    src/virtual-annealer/app.js as one page: [Wallet.page] beside the
    parts of the DOM the handlers write (the alerts, the wallet view of
    [updateWalletUI], the balance text, the pay and run buttons, the
    annealing, progress and result panels with their texts), and every
    handler with its [await]s as the code orders them.  [connectWallet]
    (lines 40-78) is a flow through four awaits (the accounts, the
    ABI of [initializeLOTContract], [checkChainId], [updateLOTBalance]);
    the connect button does not disable itself, so flows are a list and
    may overlap.  Each completed connection registers the
    [accountsChanged] and [chainChanged] listeners again (lines 71-72)
    and nothing removes them: an [accountsChanged] event runs
    [handleAccountsChanged] once per registration.  [payWithLOT] (lines
    214-283) awaits the transaction, each receipt poll of
    [waitForTransaction] (lines 288-313) and the balance; [runAnnealing]
    (lines 358-453) awaits [annealAsync], whose progress callbacks are
    steps too.  A page load is [initializeApp] (lines 620-650).  The
    pay and run buttons are bound in the page's HTML, which the
    repository does not hold: their clicks are taken to call
    [payWithLOT] and [runAnnealing], and their labels before the first
    write are parameters.

    Every page step is zero, one or two [Wallet.step]s (refinement), so
    the payment theorems of [Wallet] hold of the page; the pay and run
    buttons are disabled, with their spinners, exactly while their
    handler is in flight; and the listeners registered [k] times change
    the state as one call would. *)

From Stdlib Require Import QArith ZArith String Ascii.
From stdpp Require Import base list strings relations.
From S2P Require Import Prelude Annealer Abi Wallet WalletUI.

Module WalletPage.
Import Wallet WalletUI.

(** ** The DOM *)

(** Where a [connectWallet()] call waits. *)
Inductive connect_phase := CAccounts | CContract | CChain | CBalance.

#[global] Instance connect_phase_eq_dec : EqDecision connect_phase.
Proof. solve_decision. Defined.

(** [None] is the page as loaded. *)
Record wdom := mkWDom {
  alerts : list alert;                      (** [#alert-container], oldest first; the 5 s removal timers are not modelled *)
  wallet_shown : option wallet_view;        (** the last [updateWalletUI()] that returned *)
  balance_shown : option Abi.str;           (** [#lot-balance] *)
  pay_busy : bool;                          (** [#pay-button].disabled *)
  pay_label : string;
  run_busy : bool;                          (** [#run-annealing-button].disabled *)
  run_label : string;
  panel_shown : option bool;                (** [#annealing-panel] without [hidden] *)
  progress_shown : option bool;             (** [#progress-container] without [hidden] *)
  result_shown : option bool;               (** [#result-panel] without [hidden] *)
  progress_texts : option progress_view;
  results_texts : option results_view
}.

Definition add_alert (a : alert) (d : wdom) : wdom :=
  mkWDom (d.(alerts) ++ [a]) d.(wallet_shown) d.(balance_shown) d.(pay_busy) d.(pay_label)
    d.(run_busy) d.(run_label) d.(panel_shown) d.(progress_shown) d.(result_shown)
    d.(progress_texts) d.(results_texts).

(** [updateWalletUI()]: the view when it returns.  Connected without
    an account it throws at [appState.account.slice] (line 567), after
    it has turned the connect button into Disconnect Wallet and shown
    [#wallet-info]; the rest of the view is left as it was. *)
Definition show_wallet (s : appState) (d : wdom) : wdom :=
  let w := match updateWalletUI s, d.(wallet_shown) with
           | Some v, _ => Some v
           | None, Some v => Some (mkWalletView "Disconnect Wallet" OnDisconnect true v.(address_text)
                                     v.(status_html) v.(status_class) v.(pay_section_shown))
           | None, None => None
           end in
  mkWDom d.(alerts) w d.(balance_shown) d.(pay_busy) d.(pay_label)
    d.(run_busy) d.(run_label) d.(panel_shown) d.(progress_shown) d.(result_shown)
    d.(progress_texts) d.(results_texts).

(** [balanceElement.textContent], line 203. *)
Definition show_balance (s : appState) (d : wdom) : wdom :=
  mkWDom d.(alerts) d.(wallet_shown) (Some (WalletUI.balance_text s.(lotBalance))) d.(pay_busy) d.(pay_label)
    d.(run_busy) d.(run_label) d.(panel_shown) d.(progress_shown) d.(result_shown)
    d.(progress_texts) d.(results_texts).

Definition set_pay (busy : bool) (label : string) (d : wdom) : wdom :=
  mkWDom d.(alerts) d.(wallet_shown) d.(balance_shown) busy label
    d.(run_busy) d.(run_label) d.(panel_shown) d.(progress_shown) d.(result_shown)
    d.(progress_texts) d.(results_texts).

Definition set_run (busy : bool) (label : string) (d : wdom) : wdom :=
  mkWDom d.(alerts) d.(wallet_shown) d.(balance_shown) d.(pay_busy) d.(pay_label)
    busy label d.(panel_shown) d.(progress_shown) d.(result_shown)
    d.(progress_texts) d.(results_texts).

Definition set_panels (panel progress result : option bool) (d : wdom) : wdom :=
  mkWDom d.(alerts) d.(wallet_shown) d.(balance_shown) d.(pay_busy) d.(pay_label)
    d.(run_busy) d.(run_label) panel progress result d.(progress_texts) d.(results_texts).

Definition set_progress (v : progress_view) (d : wdom) : wdom :=
  mkWDom d.(alerts) d.(wallet_shown) d.(balance_shown) d.(pay_busy) d.(pay_label)
    d.(run_busy) d.(run_label) d.(panel_shown) d.(progress_shown) d.(result_shown)
    (Some v) d.(results_texts).

Definition set_results (v : results_view) (d : wdom) : wdom :=
  mkWDom d.(alerts) d.(wallet_shown) d.(balance_shown) d.(pay_busy) d.(pay_label)
    d.(run_busy) d.(run_label) d.(panel_shown) d.(progress_shown) (Some true)
    d.(progress_texts) (Some v).

(** The run button's idle [innerHTML], line 445 (the icon is the bytes
    of the source file). *)
Definition run_idle_label : string := "üöÄ Start Annealing".

(** The alerts of the guards of [payWithLOT] and [runAnnealing];
    [cost] is [`${CONFIG.ANNEALING_COST}`]. *)
Definition alert_of (cost : string) (a : Wallet.alert) : alert :=
  match a with
  | NotConnected => showAlert "Please connect your wallet first" "warning"
  | InsufficientBalance => showAlert ("Insufficient LOT balance. Need " ++ cost ++ " LOT") "error"
  | RecipientUnset => showAlert "Payment recipient address is not configured" "error"
  | NotPaid => showAlert "Please pay LOT tokens first" "warning"
  | AlreadyRunning => showAlert "Annealing is already running" "warning"
  | BadSpinCount => showAlert "Spin count must be between 2 and 100" "error"
  | BadCoolingRate => showAlert "Cooling rate must be between 0 and 1" "error"
  end.

(** The message of [updateWalletUI]'s [TypeError] on a connection
    without an account (line 567), and of the [RangeError] of
    [new Array(NaN)] in the constructor. *)
Definition slice_error : string := "Cannot read properties of undefined (reading 'slice')".
Definition array_error : string := "Invalid array length".

(** ** The handlers *)

Section Page.
Variable cfg : config.
Variable chain : chain_settings.
(** [`${CONFIG.ANNEALING_COST}`]: the cost as JavaScript prints it. *)
Variable cost : string.
(** [isMetaMaskInstalled()], lines 33-35. *)
Variable metamask : bool.
(** The buttons' [innerHTML] in the page's HTML, which the repository
    does not hold. *)
Variable pay_html run_html : string.

Record wpage := mkWPage {
  wp : Wallet.page;
  wd : wdom;
  connects : list connect_phase;            (** pending [connectWallet()] calls *)
  listeners : nat;                          (** registrations of lines 71-72 *)
  balance_calls : nat;                      (** pending [updateLOTBalance()] of lines 105-106 *)
  submitted : bool                          (** [eth_sendTransaction] answered *)
}.

Definition with_wp (p : Wallet.page) (d : wdom) (u : wpage) : wpage :=
  mkWPage p d u.(connects) u.(listeners) u.(balance_calls) u.(submitted).

Definition with_connects (cs : list connect_phase) (u : wpage) : wpage :=
  mkWPage u.(wp) u.(wd) cs u.(listeners) u.(balance_calls) u.(submitted).

Definition pay_idle_label : string := "‚ö° Run Annealing (" ++ cost ++ " LOT)".

(** The page [initializeApp()] builds on a fresh [appState] from the
    [sessionStorage] flag, lines 620-643: the wallet view, and a
    [connectWallet()] when MetaMask has a [selectedAddress]. *)
Definition initializeApp_page (selected : bool) (p : Wallet.page) : wpage :=
  mkWPage p
    (show_wallet p.(app) (mkWDom [] None None false pay_html false run_html None None None None None))
    (if metamask && selected then [CAccounts] else []) 0 0 false.

(** A click on Connect Wallet, lines 40-45. *)
Definition connectWallet_click (u : wpage) : wpage :=
  if metamask then with_connects (u.(connects) ++ [CAccounts]) u
  else with_wp u.(wp) (add_alert (showAlert "MetaMask is not installed. Please install MetaMask extension." "error") u.(wd)) u.

(** The [catch] of [connectWallet], lines 74-77. *)
Definition connect_failed (i : nat) (message : string) (u : wpage) : wpage :=
  with_connects (delete i u.(connects))
    (with_wp u.(wp) (add_alert (showAlert ("Failed to connect wallet: " ++ message) "error") u.(wd)) u).

(** Lines 66-72: the wallet view, the alert and the listeners, or the
    [TypeError] of [updateWalletUI] on a connection without an account. *)
Definition connect_done (i : nat) (u : wpage) : wpage :=
  match updateWalletUI u.(wp).(app) with
  | Some _ =>
      mkWPage u.(wp) (add_alert (showAlert "Wallet connected successfully!" "success") (show_wallet u.(wp).(app) u.(wd)))
        (delete i u.(connects)) (S u.(listeners)) u.(balance_calls) u.(submitted)
  | None => connect_failed i slice_error (with_wp u.(wp) (show_wallet u.(wp).(app) u.(wd)) u)
  end.

(** The accounts request settles, lines 49-56. *)
Definition connect_accounts (i : nat) (r : option (list string)) (msg : string) (u : wpage) : wpage :=
  match r with
  | Some accounts => with_connects (<[i := CContract]> u.(connects)) (with_wp (connectWallet_accounts accounts u.(wp)) u.(wd) u)
  | None => connect_failed i msg u
  end.

(** [initializeLOTContract()] settles, lines 155-170: the ABI loaded,
    or the error alert, and the flow goes on. *)
Definition connect_contract (i : nat) (ok : bool) (u : wpage) : wpage :=
  let u1 := if ok then with_wp (initializeLOTContract_done u.(wp)) u.(wd) u
            else with_wp u.(wp) (add_alert (showAlert "Failed to initialize LOT token contract" "error") u.(wd)) u in
  with_connects (<[i := CChain]> u.(connects)) u1.

(** [checkChainId()] settles: [eth_chainId] answered [chainId] (or
    rejected, with [msg]) and the switch request answered [switch];
    then [updateLOTBalance()] calls [eth_call] or returns at once. *)
Definition connect_chain (i : nat) (chainId : option Abi.str) (switch : rpc_answer) (msg : string)
    (u : wpage) : wpage :=
  match chainId with
  | None => connect_failed i msg u
  | Some c =>
      let d := foldl (fun d a => add_alert a d) u.(wd) (checkChainId chain c switch).2 in
      let u1 := with_wp u.(wp) d u in
      if updateLOTBalance_requests u.(wp) then with_connects (<[i := CBalance]> u.(connects)) u1
      else connect_done i u1
  end.

(** [eth_call] settles with [result] ([None]: rejected, caught at line
    206), lines 191-208. *)
Definition balance_answer (result : option Abi.str) (u : wpage) : wpage :=
  match result with
  | Some r => let p := updateLOTBalance_done r u.(wp) in with_wp p (show_balance p.(app) u.(wd)) u
  | None => u
  end.

Definition connect_balance (i : nat) (result : option Abi.str) (u : wpage) : wpage :=
  connect_done i (balance_answer result u).

(** A click on Disconnect Wallet, lines 83-93. *)
Definition disconnect_click (u : wpage) : wpage :=
  let p := disconnectWallet u.(wp) in
  with_wp p (add_alert (showAlert "Wallet disconnected" "info") (show_wallet p.(app) u.(wd))) u.

(** One registered [accountsChanged] listener, lines 98-108. *)
Definition accounts_listener (accounts : list string) (u : wpage) : wpage :=
  match accounts with
  | [] => disconnect_click u
  | a0 :: _ =>
      if bool_decide (Some a0 = u.(wp).(app).(account)) then u
      else
        let p := handleAccountsChanged accounts u.(wp) in
        mkWPage p (show_wallet p.(app) u.(wd)) u.(connects) u.(listeners)
          (if updateLOTBalance_requests p then S u.(balance_calls) else u.(balance_calls)) u.(submitted)
  end.

(** MetaMask's [accountsChanged] event: every registration runs. *)
Definition accounts_changed (accounts : list string) (u : wpage) : wpage :=
  Nat.iter u.(listeners) (accounts_listener accounts) u.

(** A reload ([handleChainChanged], lines 113-115, or the user's). *)
Definition page_reload (selected : bool) (u : wpage) : wpage :=
  initializeApp_page selected (Wallet.reload u.(wp)).

(** A click on the pay button, lines 214-235 and 238-253. *)
Definition payWithLOT_click (u : wpage) : wpage :=
  match payWithLOT_start cfg u.(wp) with
  | (p, Some a) => with_wp p (add_alert (alert_of cost a) u.(wd)) u
  | (p, None) =>
      mkWPage p (set_pay true (spinner "Processing Payment...") u.(wd)) u.(connects) u.(listeners)
        u.(balance_calls) false
  end.

(** The [catch] and [finally] of [payWithLOT], lines 273-282. *)
Definition pay_failed (message : string) (u : wpage) : wpage :=
  mkWPage (payWithLOT_failed u.(wp))
    (set_pay false pay_idle_label (add_alert (showAlert ("Payment failed: " ++ message) "error") u.(wd)))
    u.(connects) u.(listeners) u.(balance_calls) false.

(** [eth_sendTransaction] settles, line 244 and 256. *)
Definition pay_sent (ok : bool) (message : string) (u : wpage) : wpage :=
  if ok then
    mkWPage u.(wp) (add_alert (showAlert "Payment transaction submitted. Waiting for confirmation..." "info") u.(wd))
      u.(connects) u.(listeners) u.(balance_calls) true
  else pay_failed message u.

(** Lines 266-282 after the balance: [showAnnealingPanel()], the alert
    and the [finally]. *)
Definition pay_done (u : wpage) : wpage :=
  mkWPage (payWithLOT_settled u.(wp))
    (set_pay false pay_idle_label
       (add_alert (showAlert "Payment confirmed! You can now run annealing." "success")
          (set_panels (Some true) u.(wd).(progress_shown) u.(wd).(result_shown) u.(wd))))
    u.(connects) u.(listeners) u.(balance_calls) false.

(** One [eth_getTransactionReceipt] answer (lines 292-308; [msg] is an
    RPC error's message): no receipt polls again, a receipt resolves or
    rejects [waitForTransaction]; once resolved, the flag is set (lines
    261-263) and [updateLOTBalance()] calls [eth_call] or returns. *)
Definition pay_receipt (r : receipt_poll) (msg : string) (u : wpage) : wpage :=
  match r with
  | RNull => u
  | RStatus true =>
      let u1 := with_wp (payWithLOT_confirmed u.(wp)) u.(wd) u in
      if updateLOTBalance_requests u1.(wp) then u1 else pay_done u1
  | RStatus false => pay_failed "Transaction failed" u
  | RError => pay_failed msg u
  end.

(** The payment's [eth_call] settles. *)
Definition pay_balance (result : option Abi.str) (u : wpage) : wpage :=
  pay_done (balance_answer result u).

(** The [finally] of [runAnnealing], lines 439-452. *)
Definition run_finally (d : wdom) : wdom :=
  set_run false run_idle_label (set_panels d.(panel_shown) (Some false) d.(result_shown) d).

(** A click on the run button, lines 358-411 up to [await annealAsync]:
    the guards before the [try] return bare, the validations inside it
    run the [finally]; [new VirtualAnnealer] throws after the alert. *)
Definition runAnnealing_click (sc : option Z) (t r n : jsnum) (u : wpage) : wpage :=
  let started d := add_alert (showAlert "Starting annealing computation..." "info")
                     (set_panels d.(panel_shown) (Some true) (Some false)
                        (set_run true (spinner "Running Annealing...") d)) in
  match runAnnealing_start u.(wp) sc t r n with
  | (p, RunRejected a) =>
      let d := add_alert (alert_of cost a) u.(wd) in
      with_wp p (match a with BadSpinCount | BadCoolingRate => run_finally d | _ => d end) u
  | (p, RunThrew) =>
      with_wp p (run_finally (add_alert (showAlert ("Annealing failed: " ++ array_error) "error") (started u.(wd)))) u
  | (p, RunStarted _ _ _ _) => with_wp p (started u.(wd)) u
  end.

(** The progress callback, line 401. *)
Definition run_progress (pr : Annealer.progress) (u : wpage) : wpage :=
  with_wp u.(wp) (set_progress (updateProgress pr) u.(wd)) u.

(** [annealAsync] resolves with [res], lines 414-434 and the [finally]. *)
Definition run_finished (res : Annealer.result) (u : wpage) : wpage :=
  with_wp (runAnnealing_finish u.(wp) res)
    (run_finally (add_alert (showAlert "Annealing completed successfully!" "success")
       (set_panels (Some false) u.(wd).(progress_shown) (Some true) (set_results (displayResults res) u.(wd))))) u.

(** [displayResults] threw with [message] (a result element missing):
    the [catch] and [finally]; what it wrote before the throw is not
    modelled. *)
Definition run_threw (res : Annealer.result) (message : string) (u : wpage) : wpage :=
  with_wp (runAnnealing_finish_throw u.(wp) res)
    (run_finally (add_alert (showAlert ("Annealing failed: " ++ message) "error") u.(wd))) u.

Inductive wpage_step : wpage -> wpage -> Prop :=
  | ws_connect u v : u.(wd).(wallet_shown) = Some v -> v.(connect_onclick) = OnConnect ->
      wpage_step u (connectWallet_click u)
  | ws_disconnect u v : u.(wd).(wallet_shown) = Some v -> v.(connect_onclick) = OnDisconnect ->
      wpage_step u (disconnect_click u)
  | ws_accounts u i r msg : u.(connects) !! i = Some CAccounts -> wpage_step u (connect_accounts i r msg u)
  | ws_contract u i ok : u.(connects) !! i = Some CContract -> wpage_step u (connect_contract i ok u)
  | ws_chain u i c sw msg : u.(connects) !! i = Some CChain -> wpage_step u (connect_chain i c sw msg u)
  | ws_connect_balance u i r : u.(connects) !! i = Some CBalance -> wpage_step u (connect_balance i r u)
  | ws_balance u r : 0 < u.(balance_calls) ->
      wpage_step u (mkWPage (balance_answer r u).(wp) (balance_answer r u).(wd) u.(connects) u.(listeners)
                      (pred u.(balance_calls)) u.(submitted))
  | ws_accounts_changed u accounts : wpage_step u (accounts_changed accounts u)
  | ws_chain_changed u selected : 0 < u.(listeners) -> wpage_step u (page_reload selected u)
  | ws_reload u selected : wpage_step u (page_reload selected u)
  | ws_pay u : u.(wd).(pay_busy) = false -> wpage_step u (payWithLOT_click u)
  | ws_pay_sent u ok msg : u.(wp).(pay) = PaySending -> u.(submitted) = false -> wpage_step u (pay_sent ok msg u)
  | ws_receipt u r msg : u.(wp).(pay) = PaySending -> u.(submitted) = true -> wpage_step u (pay_receipt r msg u)
  | ws_pay_balance u r : u.(wp).(pay) = PaySettling -> wpage_step u (pay_balance r u)
  | ws_run u sc t r n : u.(wd).(run_busy) = false -> wpage_step u (runAnnealing_click sc t r n u)
  | ws_progress u pr : u.(wp).(app).(isAnnealing) = true -> wpage_step u (run_progress pr u)
  | ws_finished u res : u.(wp).(app).(isAnnealing) = true -> wpage_step u (run_finished res u)
  | ws_threw u res msg : u.(wp).(app).(isAnnealing) = true -> wpage_step u (run_threw res msg u).

(** A first visit: an empty [sessionStorage]. *)
Inductive wpage_reachable : wpage -> Prop :=
  | wr_init selected : wpage_reachable (initializeApp_page selected init_page)
  | wr_step u u' : wpage_reachable u -> wpage_step u u' -> wpage_reachable u'.

(** ** The buttons' invariant *)

(** The pay button is disabled with its spinner exactly while a
    [payWithLOT()] is in flight, and the run button exactly while
    [isAnnealing]. *)
Definition wpage_inv (u : wpage) : Prop :=
  u.(wd).(pay_busy) = negb (bool_decide (u.(wp).(pay) = PayIdle)) /\
  u.(wd).(run_busy) = u.(wp).(app).(isAnnealing) /\
  (u.(wd).(pay_busy) = true -> u.(wd).(pay_label) = spinner "Processing Payment...") /\
  (u.(wd).(run_busy) = true -> u.(wd).(run_label) = spinner "Running Annealing...").

Lemma accounts_listener_wp accounts u :
  (accounts_listener accounts u).(wp) = handleAccountsChanged accounts u.(wp).
Proof. destruct accounts; [reflexivity|]. cbn. case_bool_decide; reflexivity. Qed.

Lemma accounts_listener_listeners accounts u :
  (accounts_listener accounts u).(listeners) = u.(listeners).
Proof. destruct accounts; [reflexivity|]. cbn. case_bool_decide; reflexivity. Qed.

Lemma accounts_changed_wp accounts n u :
  (Nat.iter n (accounts_listener accounts) u).(wp) = Nat.iter n (handleAccountsChanged accounts) u.(wp).
Proof.
  induction n as [|n IH]; [reflexivity|]. rewrite !Nat.iter_succ. by rewrite accounts_listener_wp, IH.
Qed.

Lemma handleAccountsChanged_idem accounts p :
  handleAccountsChanged accounts (handleAccountsChanged accounts p) = handleAccountsChanged accounts p.
Proof.
  destruct accounts as [|a0 rest]; [reflexivity|]. cbn.
  destruct (bool_decide (Some a0 = p.(app).(account))) eqn:E; cbn; [by rewrite E|].
  by rewrite bool_decide_eq_true_2.
Qed.

(** What a listener does to the state and to the pending balance
    requests depends on nothing else, and a second run does nothing. *)
Lemma accounts_listener_frame accounts u v :
  u.(wp) = v.(wp) -> u.(balance_calls) = v.(balance_calls) ->
  (accounts_listener accounts u).(wp) = (accounts_listener accounts v).(wp) /\
  (accounts_listener accounts u).(balance_calls) = (accounts_listener accounts v).(balance_calls).
Proof. intros Hw Hb. destruct accounts; cbn; rewrite Hw, ?Hb; [done|]. by case_bool_decide. Qed.

Lemma accounts_listener_twice accounts u :
  (accounts_listener accounts (accounts_listener accounts u)).(balance_calls) =
  (accounts_listener accounts u).(balance_calls).
Proof.
  destruct accounts as [|a0 ?]; [reflexivity|]. cbn.
  destruct (bool_decide (Some a0 = u.(wp).(app).(account))) eqn:E; cbn; rewrite ?E; [done|].
  by rewrite bool_decide_eq_true_2.
Qed.

Lemma accounts_changed_balance_calls accounts n u :
  (Nat.iter (S n) (accounts_listener accounts) u).(balance_calls) = (accounts_listener accounts u).(balance_calls).
Proof.
  induction n as [|n IH]; [reflexivity|].
  assert (Hw : (Nat.iter (S n) (accounts_listener accounts) u).(wp) = (accounts_listener accounts u).(wp)).
  { rewrite accounts_changed_wp, accounts_listener_wp. apply iter_idempotent, handleAccountsChanged_idem. }
  rewrite Nat.iter_succ, (proj2 (accounts_listener_frame _ _ _ Hw IH)). apply accounts_listener_twice.
Qed.

Lemma wpage_inv_listener accounts u : wpage_inv u -> wpage_inv (accounts_listener accounts u).
Proof.
  unfold wpage_inv. destruct accounts as [|a0 ?]; cbn; [done|].
  destruct (bool_decide (Some a0 = u.(wp).(app).(account))); cbn; intros Hi; exact Hi.
Qed.

Lemma wpage_inv_init selected : wpage_inv (initializeApp_page selected init_page).
Proof. unfold wpage_inv. cbn. split_and!; done. Qed.

Lemma wpage_inv_reload selected u : wpage_inv (page_reload selected u).
Proof. unfold wpage_inv, page_reload. cbn. destruct (session_paid (wp u)); cbn; split_and!; done. Qed.

Lemma wpage_inv_balance r u :
  wpage_inv u -> wpage_inv (balance_answer r u) /\ (balance_answer r u).(wp).(pay) = u.(wp).(pay).
Proof. unfold wpage_inv. destruct r; cbn; done. Qed.

Lemma wpage_inv_pay_done u :
  wpage_inv u -> wpage_inv (pay_done u).
Proof. unfold wpage_inv. cbn. intros (_ & ? & _ & ?). split_and!; done. Qed.

Lemma wpage_inv_pay_failed msg u :
  wpage_inv u -> wpage_inv (pay_failed msg u).
Proof. unfold wpage_inv. cbn. intros (_ & ? & _ & ?). split_and!; done. Qed.

Lemma foldl_add_alert (l : list alert) (d : wdom) :
  foldl (fun d a => add_alert a d) d l =
  mkWDom (d.(alerts) ++ l) d.(wallet_shown) d.(balance_shown) d.(pay_busy) d.(pay_label)
    d.(run_busy) d.(run_label) d.(panel_shown) d.(progress_shown) d.(result_shown)
    d.(progress_texts) d.(results_texts).
Proof.
  revert d. induction l as [|a l IH]; intros d; cbn.
  - rewrite app_nil_r. by destruct d.
  - rewrite IH. cbn. by rewrite <- app_assoc.
Qed.

Lemma payWithLOT_start_outcome p p' o :
  payWithLOT_start cfg p = (p', o) ->
  match o with
  | None => p' = mkPage p.(app) p.(session_paid) PaySending p.(payments) p.(jobs_done)
  | Some _ => p' = p
  end.
Proof. unfold payWithLOT_start. repeat case_match; intros; simplify_eq; done. Qed.

Lemma runAnnealing_start_outcome p sc t r n p' o :
  runAnnealing_start p sc t r n = (p', o) ->
  match o with
  | RunStarted _ _ _ _ => p' = with_annealing true p /\ p.(app).(isAnnealing) = false
  | _ => p' = p
  end.
Proof.
  unfold runAnnealing_start.
  destruct (isAnnealing (app p)) eqn:?; cbn; repeat case_match; intros; simplify_eq; auto.
Qed.

Lemma wpage_inv_connect_done i u : wpage_inv u -> wpage_inv (connect_done i u).
Proof.
  unfold connect_done, connect_failed. destruct (updateWalletUI _); cbn; intros Hi; exact Hi.
Qed.

Lemma wpage_step_inv u u' : wpage_inv u -> wpage_step u u' -> wpage_inv u'.
Proof.
  intros Hi Hs. destruct Hs as [u v ? ?|u v ? ?|u i r msg ?|u i ok ?|u i c sw msg ?|u i r ?|u r ?
    |u accounts|u selected ?|u selected|u Hb|u ok msg ? ?|u r msg Hpay ?|u r ?|u sc t r n Hb|u pr ?|u res ?|u res msg ?].
  - unfold connectWallet_click. by destruct metamask.
  - exact Hi.
  - destruct r; exact Hi.
  - unfold connect_contract. by destruct ok.
  - unfold connect_chain. destruct c as [c|]; [|exact Hi]. rewrite foldl_add_alert.
    destruct (updateLOTBalance_requests _); [exact Hi|]. apply wpage_inv_connect_done. exact Hi.
  - apply wpage_inv_connect_done, wpage_inv_balance, Hi.
  - apply (wpage_inv_balance r u Hi).
  - unfold accounts_changed. apply Nat.iter_invariant; [apply wpage_inv_listener|exact Hi].
  - apply wpage_inv_reload.
  - apply wpage_inv_reload.
  - unfold payWithLOT_click. destruct (payWithLOT_start cfg (wp u)) as [p [a|]] eqn:E;
      apply payWithLOT_start_outcome in E; subst p; [exact Hi|].
    destruct Hi as (_ & ? & _ & ?). unfold wpage_inv; cbn. split_and!; done.
  - destruct ok; [exact Hi|]. by apply wpage_inv_pay_failed.
  - destruct r as [|[]|]; cbn; [exact Hi| |by apply wpage_inv_pay_failed..].
    destruct Hi as (Hp & ? & ? & ?). rewrite Hpay in Hp.
    destruct (updateLOTBalance_requests _); [|apply wpage_inv_pay_done];
      unfold wpage_inv; cbn; split_and!; done.
  - apply wpage_inv_pay_done, wpage_inv_balance, Hi.
  - destruct Hi as (Hp & Hr & Hpl & Hrl). rewrite Hb in Hr.
    unfold runAnnealing_click. destruct (runAnnealing_start _ _ _ _ _) as [p o] eqn:E.
    apply runAnnealing_start_outcome in E.
    destruct o as [a| |]; [subst p; destruct a|subst p|destruct E as [-> Ha]];
      unfold wpage_inv; cbn; split_and!; intros; auto; congruence.
  - exact Hi.
  - destruct Hi as (? & ? & ? & ?). unfold wpage_inv; cbn. split_and!; done.
  - destruct Hi as (? & ? & ? & ?). unfold wpage_inv; cbn. split_and!; done.
Qed.

(** ** Refinement of [Wallet.step] *)

Lemma connect_done_wp i u : (connect_done i u).(wp) = u.(wp).
Proof. unfold connect_done. by destruct (updateWalletUI _). Qed.

Lemma balance_answer_rtc r u : rtc (step cfg) u.(wp) (balance_answer r u).(wp).
Proof. destruct r; [apply rtc_once, st_balance|apply rtc_refl]. Qed.

Lemma balance_answer_pay r u : (balance_answer r u).(wp).(pay) = u.(wp).(pay).
Proof. by destruct r. Qed.

Lemma reachable_rtc p p' : reachable cfg p -> rtc (step cfg) p p' -> reachable cfg p'.
Proof. intros Hr Hs. induction Hs; [done|]. eauto using reach_step. Qed.

Lemma wpage_step_refines u u' : wpage_inv u -> wpage_step u u' -> rtc (step cfg) u.(wp) u'.(wp).
Proof.
  intros Hi Hs. destruct Hs as [u v ? ?|u v ? ?|u i r msg ?|u i ok ?|u i c sw msg ?|u i r ?|u r ?
    |u accounts|u selected ?|u selected|u Hb|u ok msg Hpay ?|u r msg Hpay ?|u r Hpay|u sc t r n Hb|u pr ?
    |u res Ha|u res msg Ha].
  - unfold connectWallet_click. destruct metamask; apply rtc_refl.
  - apply rtc_once, st_disconnect.
  - destruct r; [apply rtc_once, st_connect|apply rtc_refl].
  - destruct ok; [apply rtc_once, st_contract|apply rtc_refl].
  - unfold connect_chain. destruct c as [c|]; [|apply rtc_refl]. rewrite foldl_add_alert.
    destruct (updateLOTBalance_requests _); [|rewrite connect_done_wp]; apply rtc_refl.
  - unfold connect_balance. rewrite connect_done_wp. apply balance_answer_rtc.
  - apply balance_answer_rtc.
  - unfold accounts_changed. rewrite accounts_changed_wp. apply rtc_iter. intros x; apply st_accounts.
  - apply rtc_once, st_reload.
  - apply rtc_once, st_reload.
  - unfold payWithLOT_click. destruct (payWithLOT_start cfg (wp u)) as [p [a|]] eqn:E;
      [apply payWithLOT_start_outcome in E; subst p; apply rtc_refl|].
    apply rtc_once, (st_pay_start _ _ p); [|done].
    destruct Hi as (Hp & _). rewrite Hb in Hp. symmetry in Hp.
    apply negb_false_iff, bool_decide_eq_true in Hp. exact Hp.
  - destruct ok; [apply rtc_refl|apply rtc_once, st_pay_failed, Hpay].
  - destruct r as [|[]|]; cbn; [apply rtc_refl| |apply rtc_once, st_pay_failed, Hpay..].
    eapply rtc_l; [apply st_pay_confirmed, Hpay|].
    destruct (updateLOTBalance_requests _); [apply rtc_refl|apply rtc_once, st_pay_settled; done].
  - eapply rtc_r; [apply balance_answer_rtc|]. apply st_pay_settled. by rewrite balance_answer_pay.
  - unfold runAnnealing_click. destruct (runAnnealing_start _ _ _ _ _) as [p o] eqn:E.
    apply rtc_once. destruct o; cbn; eapply st_run_start; exact E.
  - apply rtc_refl.
  - apply rtc_once, st_run_finish, Ha.
  - apply rtc_once, st_run_throw, Ha.
Qed.

Lemma wpage_reachable_inv u : wpage_reachable u -> reachable cfg u.(wp) /\ wpage_inv u.
Proof.
  induction 1 as [selected|u u' _ [Hr Hi] Hs]; [split; [apply reach_init|apply wpage_inv_init]|].
  split; [eapply reachable_rtc, wpage_step_refines|eapply wpage_step_inv]; eauto.
Qed.

Lemma accounts_changed_disconnect_alerts n u :
  (Nat.iter n (accounts_listener []) u).(wd).(alerts) =
  u.(wd).(alerts) ++ replicate n (showAlert "Wallet disconnected" "info").
Proof.
  induction n as [|n IH]; [cbn; by rewrite app_nil_r|].
  rewrite Nat.iter_succ, replicate_S_end, app_assoc, <- IH. reflexivity.
Qed.

Lemma checkChainId_expected sw : checkChainId chain (expectedChainId chain) sw = ([], []).
Proof. unfold checkChainId. by rewrite bool_decide_eq_true_2. Qed.

(** Runs a connection flow whose answers are given: [Hm] and [Hc] fix
    [isMetaMaskInstalled()] and the pending flows. *)
Ltac flow_simpl Hm Hc :=
  unfold connectWallet_click, connect_balance, connect_chain, connect_contract, connect_accounts;
  rewrite ?Hm, ?Hc, ?checkChainId_expected; cbn.

(** ** Theorems *)

(** (C12) Refinement: every step of a page the user can reach is a path
    of [Wallet.step]s of its [Wallet.page], and that page is reachable
    in [Wallet]: the handlers with their DOM and awaits implement the
    state machine of [Wallet]. *)
Theorem wpage_refines u u' :
  wpage_reachable u -> wpage_step u u' ->
  rtc (step cfg) u.(wp) u'.(wp) /\ reachable cfg u'.(wp).
Proof.
  intros Hr Hs. destruct (wpage_reachable_inv u Hr) as [Hw Hi].
  pose proof (wpage_step_refines u u' Hi Hs). split; [done|]. by eapply reachable_rtc.
Qed.

(** (C13) On every reachable page the pay button is disabled exactly
    while a payment is in flight and the run button exactly while
    [isAnnealing], and a disabled button shows its spinner. *)
Theorem buttons_track_handlers u :
  wpage_reachable u ->
  (u.(wd).(pay_busy) = true <-> u.(wp).(pay) <> PayIdle) /\
  u.(wd).(run_busy) = u.(wp).(app).(isAnnealing) /\
  (u.(wd).(pay_busy) = true -> u.(wd).(pay_label) = spinner "Processing Payment...") /\
  (u.(wd).(run_busy) = true -> u.(wd).(run_label) = spinner "Running Annealing...").
Proof.
  intros Hr. destruct (wpage_reachable_inv u Hr) as [_ (Hp & Hrun & Hpl & Hrl)].
  split_and!; [|done..]. rewrite Hp, negb_true_iff, bool_decide_eq_false. done.
Qed.

(** (C17) Each completed connection registers [handleAccountsChanged]
    again (lines 71-72); with [k >= 1] registrations an
    [accountsChanged] event changes the state exactly as one call and
    makes the [eth_call] balance requests of one call. *)
Theorem accounts_changed_once accounts u :
  0 < u.(listeners) ->
  (accounts_changed accounts u).(wp) = handleAccountsChanged accounts u.(wp) /\
  (accounts_changed accounts u).(balance_calls) = (accounts_listener accounts u).(balance_calls).
Proof.
  intros Hk. unfold accounts_changed. rewrite accounts_changed_wp.
  destruct (listeners u) as [|k]; [lia|].
  split; [apply iter_idempotent, handleAccountsChanged_idem|apply accounts_changed_balance_calls].
Qed.

(** (C18) An [accountsChanged] event with no account shows the
    'Wallet disconnected' alert once per registration of the listener. *)
Theorem disconnect_alert_per_listener u :
  (accounts_changed [] u).(wd).(alerts) =
  u.(wd).(alerts) ++ replicate u.(listeners) (showAlert "Wallet disconnected" "info").
Proof. apply accounts_changed_disconnect_alerts. Qed.

(** (C15) A click on Connect Wallet whose requests all succeed on the
    expected chain runs to its end: five page steps connect the first
    account, read its balance, show the connected view and its balance,
    register the listeners once and end with the success alert. *)
Theorem connect_flow_connects u v a rest sw result msg :
  metamask = true -> u.(connects) = [] ->
  u.(wd).(wallet_shown) = Some v -> v.(connect_onclick) = OnConnect ->
  let u' := connect_balance 0 (Some result)
              (connect_chain 0 (Some (expectedChainId chain)) sw msg
                 (connect_contract 0 true (connect_accounts 0 (Some (a :: rest)) msg (connectWallet_click u)))) in
  rtc wpage_step u u' /\ u'.(connects) = [] /\ u'.(listeners) = S u.(listeners) /\
  u'.(wp).(app).(account) = Some a /\ u'.(wp).(app).(isConnected) = true /\
  u'.(wp) = updateLOTBalance_done result (initializeLOTContract_done (connectWallet_accounts (a :: rest) u.(wp))) /\
  (exists w, updateWalletUI u'.(wp).(app) = Some w /\ u'.(wd).(wallet_shown) = Some w /\
             w.(connect_onclick) = OnDisconnect) /\
  u'.(wd).(balance_shown) = Some (balance_text u'.(wp).(app).(lotBalance)) /\
  last u'.(wd).(alerts) = Some (showAlert "Wallet connected successfully!" "success").
Proof.
  intros Hm Hc Hv Ho u'.
  split.
  { eapply rtc_l; [by eapply ws_connect|].
    eapply rtc_l; [apply (ws_accounts _ 0 (Some (a :: rest)) msg); flow_simpl Hm Hc; done|].
    eapply rtc_l; [apply (ws_contract _ 0 true); flow_simpl Hm Hc; done|].
    eapply rtc_l; [apply (ws_chain _ 0 (Some (expectedChainId chain)) sw msg); flow_simpl Hm Hc; done|].
    apply rtc_once, ws_connect_balance. flow_simpl Hm Hc; done. }
  unfold u'. flow_simpl Hm Hc. split_and!; try done.
  - eexists; split_and!; done.
  - by rewrite last_snoc.
Qed.

(** (C16) Error path: an [eth_requestAccounts] answer with no account
    leaves [isConnected] set with [account] undefined; [updateWalletUI]
    then throws after turning the button into Disconnect Wallet, so the
    flow ends in 'Failed to connect wallet' with the page connected, no
    account and no listener registered. *)
Theorem connect_empty_accounts u v c sw ok msg :
  metamask = true -> u.(connects) = [] ->
  u.(wd).(wallet_shown) = Some v -> v.(connect_onclick) = OnConnect ->
  let u' := connect_chain 0 (Some c) sw msg
              (connect_contract 0 ok (connect_accounts 0 (Some []) msg (connectWallet_click u))) in
  rtc wpage_step u u' /\ u'.(connects) = [] /\ u'.(listeners) = u.(listeners) /\
  u'.(wp).(app).(isConnected) = true /\ u'.(wp).(app).(account) = None /\
  (exists w, u'.(wd).(wallet_shown) = Some w /\ w.(connect_text) = "Disconnect Wallet" /\
             w.(connect_onclick) = OnDisconnect) /\
  last u'.(wd).(alerts) = Some (showAlert ("Failed to connect wallet: " ++ slice_error) "error").
Proof.
  intros Hm Hc Hv Ho u'.
  split.
  { eapply rtc_l; [by eapply ws_connect|].
    eapply rtc_l; [apply (ws_accounts _ 0 (Some []) msg); flow_simpl Hm Hc; done|].
    eapply rtc_l; [apply (ws_contract _ 0 ok); flow_simpl Hm Hc; done|].
    apply rtc_once, ws_chain. flow_simpl Hm Hc. by destruct ok. }
  unfold u'. flow_simpl Hm Hc. rewrite foldl_add_alert. unfold connect_done, connect_failed.
  destruct ok; cbn; rewrite Hv; split_and!; try done; try (eexists; split_and!; done); by rewrite last_snoc.
Qed.

(** (C14) A payment the guards accept, whose transaction is mined with
    status 0x1 and whose balance is read, runs to its end in four page
    steps: the payment is recorded in [appState] and [sessionStorage],
    the annealing panel is shown, the button is enabled again with its
    label, and the page shows the two alerts in order. *)
Theorem pay_flow_completes u result msg :
  u.(wd).(pay_busy) = false -> (payWithLOT_start cfg u.(wp)).2 = None ->
  updateLOTBalance_requests u.(wp) = true ->
  let u' := pay_balance (Some result) (pay_receipt (RStatus true) msg (pay_sent true msg (payWithLOT_click u))) in
  rtc wpage_step u u' /\
  u'.(wp).(app).(isPaid) = true /\ u'.(wp).(session_paid) = true /\ u'.(wp).(pay) = PayIdle /\
  u'.(wp).(payments) = S u.(wp).(payments) /\
  u'.(wd).(pay_busy) = false /\ u'.(wd).(pay_label) = pay_idle_label /\ u'.(wd).(panel_shown) = Some true /\
  u'.(wd).(balance_shown) = Some (balance_text u'.(wp).(app).(lotBalance)) /\
  u'.(wd).(alerts) = u.(wd).(alerts) ++
    [showAlert "Payment transaction submitted. Waiting for confirmation..." "info";
     showAlert "Payment confirmed! You can now run annealing." "success"].
Proof.
  intros Hb Hs Hreq u'.
  destruct (payWithLOT_start cfg (wp u)) as [p o] eqn:E. cbn in Hs. subst o.
  pose proof (payWithLOT_start_outcome _ _ _ E) as Hp. cbn in Hp.
  assert (Hreq' : updateLOTBalance_requests (payWithLOT_confirmed p) = true) by (subst p; exact Hreq).
  assert (H1 : payWithLOT_click u = mkWPage p (set_pay true (spinner "Processing Payment...") u.(wd))
                 u.(connects) u.(listeners) u.(balance_calls) false)
    by (unfold payWithLOT_click; by rewrite E).
  split.
  { unfold u'. eapply rtc_l; [apply ws_pay, Hb|]. rewrite H1.
    eapply rtc_l; [apply (ws_pay_sent _ true msg); by subst p|].
    eapply rtc_l; [apply (ws_receipt _ (RStatus true) msg); by subst p|].
    apply rtc_once, ws_pay_balance. cbn -[updateLOTBalance_requests]. by rewrite Hreq'. }
  unfold u', pay_receipt. rewrite H1. cbn -[updateLOTBalance_requests]. rewrite Hreq'.
  subst p. cbn. split_and!; try done. by rewrite <- !app_assoc.
Qed.

End Page.

(** ** Witnesses

    [demo_config] (a recipient set, 10 LOT per job), [CONFIG_chain],
    MetaMask present, a first visit without [selectedAddress]. *)

Definition demo_cost : string := "10".
Definition demo_account : string := "0x1234567890abcdef1234567890abcdef12345678".

Definition demo_load : wpage := initializeApp_page true "" "" false init_page.

(** The page after Connect Wallet with every request answered. *)
Definition demo_connected : wpage :=
  connect_balance 0 (Some balance_100_LOT)
    (connect_chain CONFIG_chain 0 (Some (expectedChainId CONFIG_chain)) RpcOk ""
       (connect_contract 0 true (connect_accounts 0 (Some [demo_account]) "" (connectWallet_click true demo_load)))).

Definition demo_paying : wpage := payWithLOT_click demo_config demo_cost demo_connected.

Lemma demo_connected_reachable :
  wpage_reachable demo_config CONFIG_chain demo_cost true "" "" demo_connected.
Proof.
  unfold demo_connected.
  eapply wr_step; [|apply ws_connect_balance; reflexivity].
  eapply wr_step; [|apply ws_chain; reflexivity].
  eapply wr_step; [|apply ws_contract; reflexivity].
  eapply wr_step; [|apply ws_accounts; reflexivity].
  eapply wr_step; [apply wr_init|eapply ws_connect; reflexivity].
Qed.

Lemma wpage_refines_witness :
  wpage_step demo_config CONFIG_chain demo_cost true "" "" demo_connected demo_paying /\
  rtc (step demo_config) demo_connected.(wp) demo_paying.(wp) /\ reachable demo_config demo_paying.(wp).
Proof.
  assert (Hs : wpage_step demo_config CONFIG_chain demo_cost true "" "" demo_connected demo_paying)
    by (apply ws_pay; reflexivity).
  split; [exact Hs|]. exact (wpage_refines _ _ _ _ _ _ _ _ demo_connected_reachable Hs).
Defined.

Lemma buttons_track_handlers_witness :
  demo_paying.(wd).(pay_busy) = true /\ demo_paying.(wp).(pay) <> PayIdle /\
  demo_paying.(wd).(pay_label) = spinner "Processing Payment...".
Proof.
  assert (Hr : wpage_reachable demo_config CONFIG_chain demo_cost true "" "" demo_paying)
    by (eapply wr_step; [exact demo_connected_reachable|apply ws_pay; reflexivity]).
  destruct (buttons_track_handlers _ _ _ _ _ _ _ Hr) as ([Hp _] & _ & Hl & _).
  assert (Hb : demo_paying.(wd).(pay_busy) = true) by reflexivity.
  split; [exact Hb|]. split; [exact (Hp Hb)|exact (Hl Hb)].
Defined.

Lemma accounts_changed_once_witness :
  0 < demo_connected.(listeners) /\
  (accounts_changed ["0xdef"] demo_connected).(wp) = handleAccountsChanged ["0xdef"] demo_connected.(wp).
Proof.
  assert (Hk : 0 < demo_connected.(listeners)) by (vm_compute; lia).
  split; [exact Hk|]. exact (proj1 (accounts_changed_once _ _ Hk)).
Defined.

Lemma connect_flow_connects_witness :
  rtc (wpage_step demo_config CONFIG_chain demo_cost true "" "") demo_load demo_connected /\
  demo_connected.(listeners) = 1 /\ demo_connected.(wp).(app).(account) = Some demo_account.
Proof.
  destruct (connect_flow_connects demo_config CONFIG_chain demo_cost true "" "" demo_load
              (mkWalletView "Connect Wallet" OnConnect false None
                 ("<span class=" ++ dq ++ "status-dot" ++ dq ++ "></span> Disconnected")
                 "status-badge status-disconnected" false)
              demo_account [] RpcOk balance_100_LOT "" eq_refl eq_refl eq_refl eq_refl)
    as (Hs & _ & Hl & Ha & _).
  split; [exact Hs|]. split; [exact Hl|exact Ha].
Defined.

Lemma connect_empty_accounts_witness :
  let u' := connect_chain CONFIG_chain 0 (Some (Abi.lit "0x1")) RpcOk ""
              (connect_contract 0 true (connect_accounts 0 (Some []) "" (connectWallet_click true demo_load))) in
  u'.(wp).(app).(isConnected) = true /\ u'.(wp).(app).(account) = None /\ u'.(listeners) = 0.
Proof.
  destruct (connect_empty_accounts demo_config CONFIG_chain demo_cost true "" "" demo_load
              (mkWalletView "Connect Wallet" OnConnect false None
                 ("<span class=" ++ dq ++ "status-dot" ++ dq ++ "></span> Disconnected")
                 "status-badge status-disconnected" false)
              (Abi.lit "0x1") RpcOk true "" eq_refl eq_refl eq_refl eq_refl)
    as (_ & _ & Hl & Hc & Ha & _).
  split; [exact Hc|]. split; [exact Ha|exact Hl].
Defined.

Lemma pay_flow_completes_witness :
  let u' := pay_balance demo_cost (Some balance_100_LOT)
              (pay_receipt demo_cost (RStatus true) "" (pay_sent demo_cost true "" demo_paying)) in
  u'.(wp).(app).(isPaid) = true /\ u'.(wp).(pay) = PayIdle /\ u'.(wd).(pay_busy) = false.
Proof.
  destruct (pay_flow_completes demo_config CONFIG_chain demo_cost true "" "" demo_connected balance_100_LOT ""
              eq_refl ltac:(vm_compute; reflexivity) ltac:(vm_compute; reflexivity))
    as (_ & Hp & _ & Hi & _ & Hb & _).
  split; [exact Hp|]. split; [exact Hi|exact Hb].
Defined.

End WalletPage.
