(* ===== verification/Polling.v ===== *)
(** * Polling LNbits for an invoice's payment

    Two pollers of the repository ask LNbits, one request at a time,
    whether an invoice is paid ([data.paid === true]):
    - [LNbitsAPI.pollPayment] (src/lightning-unlock/js/lnbits.js, lines
      101-151, with [checkPayment], lines 61-91), used by the
      pay-to-unlock page;
    - [waitForPayment] (src/app.js, lines 210-219, with
      [checkInvoiceStatus], lines 193-201), used by the gateway.
    The server's answers are a function [ans] from the attempt number
    (from 1) to a [check]: an answer with its [paid] flag, or a failed
    request.  Both loops are structural recursion on a fuel that the
    refinement theorems show to be enough.  The common contract,
    [poller_correct], says a poller returns whether one of the first
    [budget m] answers is paid and the number of requests made; both
    implement it, with different budgets. *)

From Stdlib Require Import Wellfounded.
From stdpp Require Import base list.
From S2P Require Import Prelude.

Module Polling.

(** What one status request gives: a response with [data.paid === true]
    ([Answer true]) or not ([Answer false]), or a failure (a network
    error or a non-ok status, which [checkPayment] rethrows). *)
Inductive check := Answer (paid : bool) | Failed.

#[export] Instance check_eq_dec : EqDecision check.
Proof. solve_decision. Defined.

(** ** LNbitsAPI.pollPayment *)

(** [checkPayment(paymentHash)], lines 61-91: the [paid] flag, or a throw. *)
Definition checkPayment (c : check) : option bool :=
  match c with Answer b => Some b | Failed => None end.

(** The object passed to [onUpdate], lines 113-118 ([status] omitted). *)
Record poll_update := mkUpdate {
  u_attempts : nat;
  u_maxAttempts : nat;
  u_paid : bool
}.

(** One call of [poll], lines 105-146, after [attempts] earlier calls
    that reported [updates]: it resolves the promise ([inl]: the result,
    the attempts made, the updates reported) or schedules the next call
    with [setTimeout] ([inr]: the attempts and updates so far).  A paid
    answer resolves [true]; an unpaid one resolves [false] once
    [attempts >= maxAttempts] and schedules otherwise; a failure
    schedules while [attempts < maxAttempts]. *)
Definition poll_call (attempts maxAttempts : nat) (ans : nat -> check)
    (updates : list poll_update) : (bool * nat * list poll_update) + (nat * list poll_update) :=
  let attempts := S attempts in
  match checkPayment (ans attempts) with
  | Some paid =>
      let updates := updates ++ [mkUpdate attempts maxAttempts paid] in
      if paid then inl (true, attempts, updates)
      else if Nat.leb maxAttempts attempts then inl (false, attempts, updates)
      else inr (attempts, updates)
  | None =>
      if Nat.ltb attempts maxAttempts then inr (attempts, updates)
      else inl (false, attempts, updates)
  end.

(** The chain of [poll] calls, at most [fuel] of them. *)
Fixpoint poll_loop (fuel attempts maxAttempts : nat) (ans : nat -> check)
    (updates : list poll_update) : option (bool * nat * list poll_update) :=
  match fuel with
  | O => None
  | S f =>
      match poll_call attempts maxAttempts ans updates with
      | inl r => Some r
      | inr (attempts', updates') => poll_loop f attempts' maxAttempts ans updates'
      end
  end.

(** [pollPayment(paymentHash, onUpdate, maxAttempts)]: the first call is
    made unconditionally, so [max 1 maxAttempts] calls bound the loop. *)
Definition pollPayment (maxAttempts : nat) (ans : nat -> check)
    : option (bool * nat * list poll_update) :=
  poll_loop (Nat.max 1 maxAttempts) 0 maxAttempts ans [].

(** The [setTimeout(poll, interval)] edges of the closure: from the
    state [(attempts, updates)] before a call to the state before the
    call it schedules.  No fuel bounds the JavaScript; its termination
    is the well-foundedness of this relation. *)
Definition poll_next (maxAttempts : nat) (ans : nat -> check)
    (s' s : nat * list poll_update) : Prop :=
  poll_call s.1 maxAttempts ans s.2 = inr s'.

(** ** The gateway's waitForPayment *)

(** [checkInvoiceStatus(paymentHash)], lines 193-201: a failure is
    caught and reads as unpaid. *)
Definition checkInvoiceStatus (c : check) : bool :=
  match c with Answer b => b | Failed => false end.

(** [for (let i = 0; i < maxAttempts; i++)], lines 211-217, from [i]:
    the result and the number of requests made. *)
Fixpoint wait_loop (fuel i maxAttempts : nat) (ans : nat -> check) : option (bool * nat) :=
  match fuel with
  | O => None
  | S f =>
      if Nat.ltb i maxAttempts then
        if checkInvoiceStatus (ans (S i)) then Some (true, S i)
        else wait_loop f (S i) maxAttempts ans
      else Some (false, i)
  end.

(** [waitForPayment(paymentHash, maxAttempts)], lines 210-219. *)
Definition waitForPayment (maxAttempts : nat) (ans : nat -> check) : option (bool * nat) :=
  wait_loop (S maxAttempts) 0 maxAttempts ans.

(** ** The contract *)

(** The first of the answers [1 .. budget] that says paid. *)
Definition first_paid (budget : nat) (ans : nat -> check) : option nat :=
  List.find (fun k => bool_decide (ans k = Answer true)) (seq 1 budget).

(** What a poller with [budget] requests promises: paid at the first
    paid answer, otherwise not paid after all [budget] requests. *)
Definition poll_spec (budget : nat) (ans : nat -> check) : bool * nat :=
  match first_paid budget ans with
  | Some k => (true, k)
  | None => (false, budget)
  end.

(** A poller: its request budget for a [maxAttempts] argument, and its
    run as the result and the number of requests. *)
Record poller := mkPoller {
  budget : nat -> nat;
  run : nat -> (nat -> check) -> option (bool * nat)
}.

Definition poller_correct (p : poller) : Prop :=
  forall m ans, p.(run) m ans = Some (poll_spec (p.(budget) m) ans).

Definition lnbits_poller : poller :=
  mkPoller (Nat.max 1) (fun m ans => option_map fst (pollPayment m ans)).

Definition gateway_poller : poller := mkPoller id waitForPayment.

(** ** Refinement proofs *)

(** The contract from request [a + 1] on, with [budget] requests in all. *)
Definition spec_from (a budget : nat) (ans : nat -> check) : bool * nat :=
  match List.find (fun k => bool_decide (ans k = Answer true)) (seq (S a) (budget - a)) with
  | Some k => (true, k)
  | None => (false, budget)
  end.

(** The updates [onUpdate] receives for requests [ks]: one per answer. *)
Definition answered_updates (m : nat) (ans : nat -> check) (ks : list nat) : list poll_update :=
  omap (fun k => match ans k with Answer b => Some (mkUpdate k m b) | Failed => None end) ks.

Lemma answered_updates_cons m ans k ks :
  answered_updates m ans (k :: ks) =
    match ans k with
    | Answer b => mkUpdate k m b :: answered_updates m ans ks
    | Failed => answered_updates m ans ks
    end.
Proof. unfold answered_updates. cbn. now destruct (ans k). Qed.

Lemma poll_spec_from budget ans : poll_spec budget ans = spec_from 0 budget ans.
Proof. unfold poll_spec, first_paid, spec_from. now rewrite Nat.sub_0_r. Qed.

Lemma spec_from_step a budget ans :
  a < budget ->
  spec_from a budget ans =
    if bool_decide (ans (S a) = Answer true) then (true, S a) else spec_from (S a) budget ans.
Proof.
  intros H. unfold spec_from. replace (budget - a) with (S (budget - S a)) by lia.
  cbn [seq List.find]. now destruct (bool_decide _).
Qed.

Lemma spec_from_end a ans : spec_from a a ans = (false, a).
Proof. unfold spec_from. now rewrite Nat.sub_diag. Qed.

Lemma spec_from_range a budget ans :
  a < budget -> S a <= (spec_from a budget ans).2 <= budget.
Proof.
  remember (budget - a) as d eqn:Ed. revert a Ed.
  induction d as [|d IH]; intros a Ed Ha; [lia|].
  rewrite spec_from_step by lia. destruct (bool_decide _); cbn; [lia|].
  destruct (decide (S a = budget)) as [<-|Hne]; [rewrite spec_from_end; cbn; lia|].
  specialize (IH (S a) ltac:(lia) ltac:(lia)). lia.
Qed.

Lemma checkInvoiceStatus_paid c : checkInvoiceStatus c = bool_decide (c = Answer true).
Proof. destruct c as [[]|]; reflexivity. Qed.

Lemma wait_loop_spec fuel i m ans :
  i <= m -> m - i < fuel -> wait_loop fuel i m ans = Some (spec_from i m ans).
Proof.
  revert i. induction fuel as [|f IH]; intros i Hi Hf; [lia|]. cbn [wait_loop].
  destruct (Nat.ltb_spec i m) as [Hlt|Hge].
  - rewrite spec_from_step, checkInvoiceStatus_paid by exact Hlt.
    destruct (bool_decide _); [reflexivity|]. apply IH; lia.
  - replace i with m by lia. now rewrite spec_from_end.
Qed.

Lemma poll_loop_spec fuel a m ans ups :
  a < Nat.max 1 m -> Nat.max 1 m - a <= fuel ->
  poll_loop fuel a m ans ups =
    Some (spec_from a (Nat.max 1 m) ans,
          ups ++ answered_updates m ans (seq (S a) ((spec_from a (Nat.max 1 m) ans).2 - a))).
Proof.
  revert a ups. induction fuel as [|f IH]; intros a ups Ha Hf; [lia|].
  cbn [poll_loop]. unfold poll_call. rewrite (spec_from_step a) by exact Ha.
  destruct (ans (S a)) as [[]|] eqn:Eans; cbn [checkPayment]; cbv zeta.
  - rewrite bool_decide_eq_true_2 by reflexivity. cbn [snd].
    replace (S a - a) with 1 by lia. cbn [seq].
      rewrite answered_updates_cons, Eans. unfold answered_updates. cbn. now rewrite ?app_nil_r.
  - rewrite bool_decide_eq_false_2 by discriminate.
    destruct (Nat.leb_spec m (S a)) as [Hle|Hgt]; cbv beta iota.
    + replace (Nat.max 1 m) with (S a) by lia. rewrite spec_from_end. cbn [snd].
      replace (S a - a) with 1 by lia. cbn [seq].
      rewrite answered_updates_cons, Eans. unfold answered_updates. cbn. now rewrite ?app_nil_r.
    + rewrite IH by lia. pose proof (spec_from_range (S a) (Nat.max 1 m) ans ltac:(lia)).
      replace ((spec_from (S a) (Nat.max 1 m) ans).2 - a)
        with (S ((spec_from (S a) (Nat.max 1 m) ans).2 - S a)) by lia.
      cbn [seq]. rewrite answered_updates_cons, Eans. now rewrite <- app_assoc.
  - rewrite bool_decide_eq_false_2 by discriminate.
    destruct (Nat.ltb_spec (S a) m) as [Hlt|Hge]; cbv beta iota.
    + rewrite IH by lia. pose proof (spec_from_range (S a) (Nat.max 1 m) ans ltac:(lia)).
      replace ((spec_from (S a) (Nat.max 1 m) ans).2 - a)
        with (S ((spec_from (S a) (Nat.max 1 m) ans).2 - S a)) by lia.
      cbn [seq]. now rewrite answered_updates_cons, Eans.
    + replace (Nat.max 1 m) with (S a) by lia. rewrite spec_from_end. cbn [snd].
      replace (S a - a) with 1 by lia. cbn [seq].
      rewrite answered_updates_cons, Eans. unfold answered_updates. cbn. now rewrite ?app_nil_r.
Qed.

(** What the contract means: a paid result names the first paid answer
    within the budget; an unpaid one means no answer within the budget
    was paid, and all [budget] requests were made. *)
Lemma spec_from_paid a budget ans n :
  spec_from a budget ans = (true, n) ->
  ans n = Answer true /\ S a <= n <= budget /\ forall j, S a <= j < n -> ans j <> Answer true.
Proof.
  remember (budget - a) as d eqn:Ed. revert a Ed.
  induction d as [|d IH]; intros a Ed.
  - unfold spec_from. rewrite <- Ed. cbn. discriminate.
  - rewrite spec_from_step by lia.
    destruct (bool_decide_reflect (ans (S a) = Answer true)) as [Hp|Hp].
    + intros [= <-]. split; [exact Hp|]. split; [lia|]. intros j Hj. lia.
    + intros Hs. destruct (IH (S a) ltac:(lia) Hs) as (Hn & Hr & Hfirst).
      split; [exact Hn|]. split; [lia|]. intros j Hj.
      destruct (decide (j = S a)) as [->|Hne]; [exact Hp|]. apply Hfirst. lia.
Qed.

Lemma spec_from_unpaid a budget ans n :
  a <= budget -> spec_from a budget ans = (false, n) ->
  n = budget /\ forall j, S a <= j <= budget -> ans j <> Answer true.
Proof.
  remember (budget - a) as d eqn:Ed. revert a Ed.
  induction d as [|d IH]; intros a Ed Ha.
  - replace budget with a by lia. rewrite spec_from_end. intros [= <-].
    split; [reflexivity|]. intros j Hj. lia.
  - rewrite spec_from_step by lia.
    destruct (bool_decide_reflect (ans (S a) = Answer true)) as [Hp|Hp]; [discriminate|].
    intros Hs. destruct (IH (S a) ltac:(lia) ltac:(lia) Hs) as (-> & Hnone).
    split; [reflexivity|]. intros j Hj.
    destruct (decide (j = S a)) as [->|Hne]; [exact Hp|]. apply Hnone. lia.
Qed.

Lemma poll_spec_paid budget ans n :
  poll_spec budget ans = (true, n) ->
  ans n = Answer true /\ 1 <= n <= budget /\ forall j, 1 <= j < n -> ans j <> Answer true.
Proof. rewrite poll_spec_from. apply spec_from_paid. Qed.

Lemma poll_spec_unpaid budget ans n :
  poll_spec budget ans = (false, n) ->
  n = budget /\ forall j, 1 <= j <= budget -> ans j <> Answer true.
Proof. rewrite poll_spec_from. apply spec_from_unpaid. lia. Qed.

Lemma lnbits_poller_correct : poller_correct lnbits_poller.
Proof.
  intros m ans. cbn [run budget lnbits_poller]. unfold pollPayment.
  rewrite poll_loop_spec by lia. cbn. now rewrite poll_spec_from.
Qed.

Lemma gateway_poller_correct : poller_correct gateway_poller.
Proof.
  intros m ans. cbn [run budget gateway_poller]. unfold waitForPayment.
  rewrite wait_loop_spec by lia. now rewrite poll_spec_from.
Qed.

(** A call schedules another only when it was not the [maxAttempts]-th,
    and the next one is the following attempt. *)
Lemma poll_call_schedules a m ans ups s' :
  poll_call a m ans ups = inr s' -> s'.1 = S a /\ S a < m.
Proof.
  unfold poll_call. destruct (checkPayment (ans (S a))) as [[]|]; cbv zeta.
  - discriminate.
  - destruct (Nat.leb_spec m (S a)); [discriminate|]. intros [= <-]. cbn. lia.
  - destruct (Nat.ltb_spec (S a) m); [|discriminate]. intros [= <-]. cbn. lia.
Qed.

(** ** Theorems *)

(** (C20) [pollPayment] terminates and implements the contract with a
    budget of [max 1 maxAttempts] requests: it resolves [true] at the
    first paid answer, [false] once the budget is spent, and reports one
    update per answered request, in order, failures skipped. *)
Theorem pollPayment_refines m ans :
  pollPayment m ans =
    Some (poll_spec (Nat.max 1 m) ans,
          answered_updates m ans (seq 1 (poll_spec (Nat.max 1 m) ans).2)).
Proof.
  unfold pollPayment. rewrite poll_loop_spec by lia.
  now rewrite poll_spec_from, Nat.sub_0_r.
Qed.

(** (C21) [waitForPayment] terminates and implements the contract with a
    budget of [maxAttempts] requests, a failed request counting as
    unpaid. *)
Theorem waitForPayment_refines m ans : waitForPayment m ans = Some (poll_spec m ans).
Proof. unfold waitForPayment. rewrite wait_loop_spec by lia. now rewrite poll_spec_from. Qed.

(** (C22) The two pollers agree whenever [maxAttempts >= 1]: same result
    after the same number of requests.  With [maxAttempts = 0] they part:
    [waitForPayment] reports unpaid without asking, while [pollPayment]
    still asks once and reports that answer. *)
Theorem pollers_agree :
  (forall m ans, 1 <= m -> lnbits_poller.(run) m ans = gateway_poller.(run) m ans) /\
  (forall ans, gateway_poller.(run) 0 ans = Some (false, 0) /\
     lnbits_poller.(run) 0 ans = Some (bool_decide (ans 1 = Answer true), 1)).
Proof.
  split.
  - intros m ans Hm. rewrite lnbits_poller_correct, gateway_poller_correct. cbn.
    now rewrite Nat.max_r by exact Hm.
  - intros ans. rewrite lnbits_poller_correct, gateway_poller_correct. cbn.
    split; [reflexivity|]. unfold poll_spec, first_paid. cbn.
    now destruct (bool_decide _).
Qed.

(** (C23) The polling closure of [pollPayment] terminates for every
    [maxAttempts] and every sequence of answers, with no bound imposed
    from outside: the relation "this call schedules that one" is
    well-founded, since each scheduled call is the next attempt and one
    is scheduled only while the attempts made are below [maxAttempts];
    hence at most [max 1 maxAttempts] calls are made. *)
Theorem poll_chain_terminates m ans :
  well_founded (poll_next m ans) /\
  forall a ups s', poll_next m ans s' (a, ups) -> s'.1 = S a /\ S a < m.
Proof.
  split; [|intros a ups s'; apply poll_call_schedules].
  apply (wf_incl _ _ (fun s' s => m - s'.1 < m - s.1)).
  - intros s' s Hn. destruct (poll_call_schedules _ _ _ _ _ Hn). lia.
  - apply (wf_inverse_image _ nat lt (fun s => m - s.1)), lt_wf.
Qed.

(** ** Witnesses *)

Definition paid_at_third (k : nat) : check := if Nat.eqb k 3 then Answer true else Failed.

Lemma pollers_agree_witness :
  1 <= 5 /\ lnbits_poller.(run) 5 paid_at_third = gateway_poller.(run) 5 paid_at_third.
Proof. split; [lia | exact (proj1 pollers_agree 5 paid_at_third ltac:(lia))]. Defined.

Lemma poll_chain_terminates_witness :
  poll_next 3 (fun _ => Answer false) (1, [mkUpdate 1 3 false]) (0, []) /\ 1 = 1 /\ 1 < 3.
Proof.
  split; [reflexivity|].
  exact (proj2 (poll_chain_terminates 3 (fun _ => Answer false)) 0 [] _ eq_refl).
Defined.

End Polling.
