(* ===== verification/Http.v ===== *)
(** * The LNbits HTTP layer and the QR-code URL

    Both Lightning pages talk to LNbits over [fetch]:
    - the [LNbitsAPI] class of src/lightning-unlock/js/lnbits.js (its
      constructor, [createInvoice], [checkPayment] and
      [generateQRCodeUrl], lines 7-62 and 152-162), used by the
      pay-to-unlock page;
    - [lnbitsRequest], [createInvoice] and [checkInvoiceStatus] of
      src/app.js (lines 121-146, 163-201) and the QR-code URL of its
      [displayInvoice] (line 408), used by the gateway.
    A request is the record [fetch] receives (URL, method, headers in
    property order, the body before [JSON.stringify]); what [fetch]
    gives back is a network failure or a response with its [ok],
    [status], text and parsed body ([response.json()] may reject).
    A thrown [Error] is [Err] with its message.  The [polled] answers
    that [Polling] takes as given are obtained here from responses.
    [encodeURIComponent] is modelled on strings of code points below
    256 (the Latin-1 range of [ascii]): unreserved characters are kept,
    every other one is written as the percent-escapes of its UTF-8
    bytes, upper-case hex. *)

From Stdlib Require Import NArith Ascii String.
From stdpp Require Import base list strings pretty sets.
From S2P Require Import Prelude Abi Polling.

Module Http.
Local Open Scope N_scope.
Local Set Warnings "-register-all".
Import Polling.

(** ** JSON values, requests and responses *)

(** The values [JSON.parse] yields and [JSON.stringify] takes; numbers
    are the naturals the pages send and read. *)
Inductive json :=
  | JNull
  | JBool (b : bool)
  | JNum (n : N)
  | JStr (s : string)
  | JArr (l : list json)
  | JObj (fields : list (string * json)).

(** [data.name]: [None] is [undefined] (no such field, or not an object). *)
Definition get (name : string) (v : json) : option json :=
  match v with
  | JObj fs => snd <$> List.find (fun f => bool_decide (f.1 = name)) fs
  | _ => None
  end.

(** What [fetch(url, init)] is called with. *)
Record request := mkRequest {
  url : Abi.str;
  method : string;
  headers : list (string * string);
  body : option json                    (** before [JSON.stringify] *)
}.

(** A [Response]: [response.ok], [response.status], [response.text()],
    and [response.json()], which rejects with a [SyntaxError] message
    on a body that is not JSON. *)
Record response := mkResponse {
  ok : bool;
  status : N;
  text : string;
  parsed : json + string
}.

(** [await fetch(...)]: a rejection ([TypeError], with its message) or a
    response. *)
Inductive fetched := NetworkError (message : string) | Got (r : response).

(** The outcome of an [async] function: its value, or the message of
    the [Error] it throws. *)
Inductive result (A : Type) := Ok (a : A) | Err (message : string).
Arguments Ok {A}. Arguments Err {A}.

Definition dec (n : N) : string := pretty n.

(** [v === true] for a field read [v] ([undefined] included). *)
Definition is_true (v : option json) : bool :=
  match v with Some (JBool true) => true | _ => false end.

(** [`${v}`] for a field read [v]: [undefined] when it is missing,
    and [String(v)] otherwise (arrays joined with commas, their [null]s
    empty). *)
Fixpoint elem_text (v : json) : string :=
  match v with
  | JNull => ""
  | JBool b => if b then "true" else "false"
  | JNum n => dec n
  | JStr s => s
  | JArr l =>
      (fix go (l : list json) : string :=
         match l with
         | [] => ""
         | [x] => elem_text x
         | x :: r => elem_text x +:+ "," +:+ go r
         end) l
  | JObj _ => "[object Object]"
  end.

Definition js_text (v : option json) : string :=
  match v with
  | None => "undefined"
  | Some JNull => "null"
  | Some v => elem_text v
  end.

(** ** LNbitsAPI (lnbits.js) *)

Module LNbitsAPI.

(** [new LNbitsAPI(baseUrl, invoiceKey)], lines 8-11. *)
Record LNbitsAPI := mkLNbitsAPI { baseUrl : string; invoiceKey : string }.

Definition json_headers (api : LNbitsAPI) : list (string * string) :=
  [("X-Api-Key", api.(invoiceKey)); ("Content-Type", "application/json")].

(** The invoice object [createInvoice] resolves with, lines 42-48: the
    server's fields ([undefined] when absent) and the arguments. *)
Record created := mkCreated {
  payment_hash : option json;
  payment_request : option json;
  checking_id : option json;
  amount : N;
  memo : string
}.

(** [createInvoice(amount, memo)], lines 21-33: the request.  [memo ||
    'Lightning Payment'] replaces an empty memo. *)
Definition createInvoice_request (api : LNbitsAPI) (amount : N) (memo : string) : request :=
  mkRequest (Abi.lit (api.(baseUrl) +:+ "/api/v1/payments")) "POST" (json_headers api)
    (Some (JObj [("out", JBool false); ("amount", JNum amount);
                 ("memo", JStr (if bool_decide (memo = "") then "Lightning Payment" else memo));
                 ("unit", JStr "sat")])).

(** Lines 35-53: what [createInvoice] makes of the answer. *)
Definition createInvoice_response (amount : N) (memo : string) (f : fetched) : result created :=
  match f with
  | NetworkError m => Err m
  | Got r =>
      if r.(ok) then
        match r.(parsed) with
        | inl data =>
            Ok (mkCreated (get "payment_hash" data) (get "payment_request" data)
                  (get "checking_id" data) amount memo)
        | inr m => Err m
        end
      else Err ("Failed to create invoice: " +:+ dec r.(status) +:+ " - " +:+ r.(text))
  end.

(** [checkPayment(paymentHash)], lines 61-91: the request, then the
    status ([paid: data.paid === true]; the other fields are copied). *)
Definition checkPayment_request (api : LNbitsAPI) (paymentHash : string) : request :=
  mkRequest (Abi.lit (api.(baseUrl) +:+ "/api/v1/payments/" +:+ paymentHash)) "GET"
    (json_headers api) None.

Definition checkPayment_response (f : fetched) : result bool :=
  match f with
  | NetworkError m => Err m
  | Got r =>
      if r.(ok) then
        match r.(parsed) with
        | inl data => Ok (is_true (get "paid" data))
        | inr m => Err m
        end
      else Err ("Failed to check payment: " +:+ dec r.(status) +:+ " - " +:+ r.(text))
  end.

End LNbitsAPI.

(** The [check] that [Polling.poll_loop] is given for one request: the
    [paid] flag of a resolved [checkPayment], [Failed] for a throw. *)
Definition check_of (r : result bool) : check :=
  match r with Ok b => Answer b | Err _ => Failed end.

(** ** The gateway's requests (src/app.js) *)

(** [CONFIG.LNBITS_URL] and [CONFIG.LNBITS_INVOICE_KEY], src/config.js
    lines 15 and 20, as shipped. *)
Definition LNBITS_URL : string := "https://legend.lnbits.com".
Definition LNBITS_INVOICE_KEY : string := "YOUR_INVOICE_KEY_HERE".

(** The [options] of [lnbitsRequest]: [method], [body] and [headers]. *)
Record options := mkOptions {
  opt_method : option string;
  opt_body : option json;
  opt_headers : list (string * string)
}.

Definition no_options : options := mkOptions None None [].

(** Object spread [{...a, ...b}] on string-keyed properties: a key of
    [b] already in [a] keeps its place and takes [b]'s value, a new key
    is appended. *)
Definition spread (a b : list (string * string)) : list (string * string) :=
  foldl (fun acc kv =>
           if bool_decide (kv.1 ∈ acc.*1) then (fun kv' => if bool_decide (kv'.1 = kv.1)
                                                            then kv else kv') <$> acc
           else acc ++ [kv]) a b.

(** [lnbitsRequest(endpoint, apiKey, options)], lines 121-128: the
    request; [fetch]'s method defaults to [GET]. *)
Definition lnbitsRequest_request (endpoint apiKey : string) (o : options) : request :=
  mkRequest (Abi.lit (LNBITS_URL +:+ endpoint)) (default "GET" o.(opt_method))
    (spread [("X-Api-Key", apiKey); ("Content-Type", "application/json")] o.(opt_headers))
    o.(opt_body).

(** Lines 130-145: the parsed body, or the error thrown. *)
Definition lnbitsRequest_response (f : fetched) : result json :=
  match f with
  | NetworkError m => Err m
  | Got r =>
      if r.(ok) then
        match r.(parsed) with inl data => Ok data | inr m => Err m end
      else Err ("LNbits API error: " +:+ dec r.(status) +:+ " - " +:+ r.(text))
  end.

(** [createInvoice(amount, memo)], lines 169-186: the options it passes;
    an empty memo becomes [`Qubitchain Gateway - ${amount} sats`]. *)
Definition createInvoice_options (amount : N) (memo : string) : options :=
  mkOptions (Some "POST")
    (Some (JObj [("out", JBool false); ("amount", JNum amount);
                 ("memo", JStr (if bool_decide (memo = "")
                                then "Qubitchain Gateway - " +:+ dec amount +:+ " sats"
                                else memo));
                 ("unit", JStr "sat")])) [].

Definition createInvoice_request (amount : N) (memo : string) : request :=
  lnbitsRequest_request "/api/v1/payments" LNBITS_INVOICE_KEY (createInvoice_options amount memo).

(** [checkInvoiceStatus(paymentHash)], lines 193-201: [data.paid ===
    true], and [false] when the request throws. *)
Definition checkInvoiceStatus_request (paymentHash : string) : request :=
  lnbitsRequest_request ("/api/v1/payments/" +:+ paymentHash) LNBITS_INVOICE_KEY no_options.

Definition checkInvoiceStatus_response (f : fetched) : bool :=
  match lnbitsRequest_response f with
  | Ok data => is_true (get "paid" data)
  | Err _ => false
  end.

(** ** encodeURIComponent and the QR-code URL *)

(** The characters [encodeURIComponent] keeps: [A-Z a-z 0-9 - _ . ! ~ * ' ( )]. *)
Definition uri_unreserved (c : ascii) : bool :=
  let n := N_of_ascii c in
  ((65 <=? n) && (n <=? 90)) || ((97 <=? n) && (n <=? 122)) || ((48 <=? n) && (n <=? 57))
  || bool_decide (c ∈ Abi.lit "-_.!~*'()").

(** An upper-case hex digit of the escape. *)
Definition hex_upper (d : N) : ascii := ascii_of_N (if d <? 10 then 48 + d else 55 + d).

(** [%XY] for the byte [b]. *)
Definition pct (b : N) : Abi.str := ["%"%char; hex_upper (b / 16); hex_upper (b `mod` 16)].

(** The UTF-8 bytes of a code point below 256. *)
Definition utf8_bytes (c : ascii) : list N :=
  let n := N_of_ascii c in
  if n <? 128 then [n] else [192 + n / 64; 128 + n `mod` 64].

Definition encode_char (c : ascii) : Abi.str :=
  if uri_unreserved c then [c] else utf8_bytes c ≫= pct.

(** [encodeURIComponent(s)]: no lone surrogates below 256, so it never
    throws a [URIError]. *)
Definition encodeURIComponent (s : Abi.str) : Abi.str := s ≫= encode_char.

(** [CONFIG.QR_CODE_API], src/lightning-unlock/config.js line 27. *)
Definition QR_CODE_API : string := "https://api.qrserver.com/v1/create-qr-code/".

(** [generateQRCodeUrl(paymentRequest, size)], lnbits.js lines 159-162:
    [CONFIG.QR_CODE_API] is a non-empty string, so [||] keeps it. *)
Definition generateQRCodeUrl (paymentRequest : Abi.str) (size : N) : Abi.str :=
  let qrApiUrl := if bool_decide (QR_CODE_API = "") then "https://api.qrserver.com/v1/create-qr-code/"
                  else QR_CODE_API in
  Abi.lit (qrApiUrl +:+ "?size=" +:+ dec size +:+ "x" +:+ dec size +:+ "&data=")
    ++ encodeURIComponent paymentRequest.

(** The QR-code URL of the gateway's [displayInvoice], src/app.js line 408. *)
Definition displayInvoice_qrCodeUrl (payment_request : Abi.str) : Abi.str :=
  Abi.lit "https://api.qrserver.com/v1/create-qr-code/?size=300x300&data="
    ++ encodeURIComponent payment_request.

(** *** How the QR server reads the URL

    The reference reading of a query string: the parameters after [?]
    split at [&], the value of [name=...], then percent-decoding
    ([+] is a space in a form-encoded query) and UTF-8 decoding. *)

Definition hex_value (c : ascii) : option N :=
  let n := N_of_ascii c in
  if (48 <=? n) && (n <=? 57) then Some (n - 48)
  else if (65 <=? n) && (n <=? 70) then Some (n - 55)
  else if (97 <=? n) && (n <=? 102) then Some (n - 87)
  else None.

Fixpoint percent_decode (s : Abi.str) : option (list N) :=
  match s with
  | [] => Some []
  | c :: rest =>
      if bool_decide (c = "%"%char) then
        match rest with
        | h :: l :: rest' =>
            d1 ← hex_value h; d2 ← hex_value l; bs ← percent_decode rest';
            Some (16 * d1 + d2 :: bs)
        | _ => None
        end
      else if bool_decide (c = "+"%char) then (32 ::.) <$> percent_decode rest
      else (N_of_ascii c ::.) <$> percent_decode rest
  end.

Fixpoint utf8_decode (bs : list N) : option Abi.str :=
  match bs with
  | [] => Some []
  | b :: rest =>
      if b <? 128 then (ascii_of_N b ::.) <$> utf8_decode rest
      else if (b =? 194) || (b =? 195) then
        match rest with
        | b2 :: rest' =>
            if (128 <=? b2) && (b2 <? 192)
            then (ascii_of_N ((b - 192) * 64 + (b2 - 128)) ::.) <$> utf8_decode rest'
            else None
        | [] => None
        end
      else None
  end.

Definition decode_component (s : Abi.str) : option Abi.str := percent_decode s ≫= utf8_decode.

(** [s.split(sep)] on a character. *)
Fixpoint split_at (sep : ascii) (s : Abi.str) : list Abi.str :=
  match s with
  | [] => [[]]
  | c :: rest =>
      if bool_decide (c = sep) then [] :: split_at sep rest
      else match split_at sep rest with
           | w :: ws => (c :: w) :: ws
           | [] => [[c]]
           end
  end.

(** The raw value of parameter [name] in [url]'s query: the last one. *)
Definition query_param (url : Abi.str) (name : Abi.str) : option Abi.str :=
  match split_at "?"%char url with
  | [_; query] =>
      last (omap (fun p => match split_at "="%char p with
                           | [k; v] => if bool_decide (k = name) then Some v else None
                           | _ => None
                           end) (split_at "&"%char query))
  | _ => None
  end.

(** ** Lemmas *)

(** [t] contains [s]: the substring relation on strings. *)
Definition infix (s t : string) : Prop := exists pre post, t = (pre ++ s ++ post)%string.

Lemma string_app_assoc (a b c : string) : ((a ++ b) ++ c)%string = (a ++ b ++ c)%string.
Proof.
  induction a as [|x a IH]; [done|].
  change (String x ((a ++ b) ++ c) = String x (a ++ b ++ c))%string. by rewrite IH.
Qed.

Lemma string_app_nil_r (a : string) : (a ++ "")%string = a.
Proof.
  induction a as [|x a IH]; [done|]. change (String x (a ++ "") = String x a)%string. by rewrite IH.
Qed.

Lemma infix_refl s : infix s s.
Proof. exists "", "". by rewrite string_app_nil_r. Qed.

Lemma infix_trans s m t : infix s m -> infix m t -> infix s t.
Proof.
  intros (a & b & ->) (c & d & ->). exists (c ++ a)%string, (b ++ d)%string.
  by rewrite !string_app_assoc.
Qed.

Lemma infix_app_l s a t : infix s t -> infix s (a ++ t)%string.
Proof. intros (p & q & ->). exists (a ++ p)%string, q. by rewrite string_app_assoc. Qed.

Lemma infix_app_r s t b : infix s t -> infix s (t ++ b)%string.
Proof. intros (p & q & ->). exists p, (q ++ b)%string. by rewrite !string_app_assoc. Qed.

Lemma infix_here s b : infix s (s ++ b)%string.
Proof. apply infix_app_r, infix_refl. Qed.

(** Decoding an escape [%XY] written by [pct] gives its byte back. *)
Lemma hex_value_upper d : d < 16 -> hex_value (hex_upper d) = Some d.
Proof.
  intros Hd. rewrite <- (N2Nat.id d). assert (N.to_nat d < 16)%nat as Hk by lia.
  remember (N.to_nat d) as k eqn:Ek; clear Ek Hd.
  do 16 (destruct k as [|k]; [reflexivity|]). lia.
Qed.

Lemma percent_decode_pct b r :
  b < 256 -> percent_decode (pct b ++ r) = (b ::.) <$> percent_decode r.
Proof.
  intros Hb. cbn [pct app percent_decode]. rewrite bool_decide_true by done.
  rewrite !hex_value_upper by (apply N.mod_upper_bound || apply N.Div0.div_lt_upper_bound; lia).
  cbn. destruct (percent_decode r); cbn; [|done].
  rewrite (N.div_mod b 16) at 3 by done. done.
Qed.

Lemma percent_decode_pcts bs r :
  Forall (fun b => b < 256) bs ->
  percent_decode ((bs ≫= pct) ++ r) = (bs ++.) <$> percent_decode r.
Proof.
  induction 1 as [|b bs Hb _ IH]; cbn [mbind list_bind]; [cbn; by destruct (percent_decode r)|].
  rewrite <- app_assoc, percent_decode_pct, IH by done. by destruct (percent_decode r).
Qed.

(** The unreserved characters are ASCII and neither [%] nor [+]
    (checked on all 256 code points). *)
Lemma unreserved_plain c :
  uri_unreserved c = true -> c <> "%"%char /\ c <> "+"%char /\ N_of_ascii c < 128.
Proof.
  destruct c as [[] [] [] [] [] [] [] []]; vm_compute; intros H;
    try discriminate H; repeat split; (discriminate || reflexivity).
Qed.

Lemma utf8_bytes_bounded c : Forall (fun b => b < 256) (utf8_bytes c).
Proof.
  pose proof (N_ascii_bounded c). unfold utf8_bytes.
  destruct (N.ltb_spec (N_of_ascii c) 128); repeat constructor; try lia.
  - assert (N_of_ascii c / 64 < 4) by (apply N.Div0.div_lt_upper_bound; lia). lia.
  - assert (N_of_ascii c `mod` 64 < 64) by (apply N.mod_upper_bound; lia). lia.
Qed.

Lemma percent_decode_encode_char c r :
  percent_decode (encode_char c ++ r) = (utf8_bytes c ++.) <$> percent_decode r.
Proof.
  unfold encode_char. destruct (uri_unreserved c) eqn:E.
  - destruct (unreserved_plain c E) as (H1 & H2 & H3).
    unfold utf8_bytes. rewrite (proj2 (N.ltb_lt _ _) H3).
    cbn. rewrite !bool_decide_false by done. done.
  - apply percent_decode_pcts, utf8_bytes_bounded.
Qed.

Lemma utf8_decode_bytes c bs :
  utf8_decode (utf8_bytes c ++ bs) = (c ::.) <$> utf8_decode bs.
Proof.
  destruct c as [[] [] [] [] [] [] [] []]; reflexivity.
Qed.

Lemma bind_cons {A B} (f : A -> list B) x l : (x :: l) ≫= f = f x ++ (l ≫= f).
Proof. done. Qed.

Lemma percent_decode_encode s :
  percent_decode (encodeURIComponent s) = Some (s ≫= utf8_bytes).
Proof.
  unfold encodeURIComponent. induction s as [|c s IH]; [done|].
  by rewrite !bind_cons, percent_decode_encode_char, IH.
Qed.

Lemma utf8_decode_encode s : utf8_decode (s ≫= utf8_bytes) = Some s.
Proof.
  induction s as [|c s IH]; [done|]. by rewrite bind_cons, utf8_decode_bytes, IH.
Qed.

(** The escapes never contain a separator of the query string. *)
Lemma encode_char_no_sep c : Forall (fun x => x ∉ Abi.lit "&=?#") (encode_char c).
Proof.
  apply (bool_decide_unpack _). destruct c as [[] [] [] [] [] [] [] []]; vm_compute; exact I.
Qed.

Lemma encodeURIComponent_no_sep s sep :
  sep ∈ Abi.lit "&=?#" -> sep ∉ encodeURIComponent s.
Proof.
  intros Hsep. unfold encodeURIComponent. induction s as [|c s IH]; [set_solver|].
  rewrite bind_cons, elem_of_app. intros [Hc|?]; [|done].
  pose proof (encode_char_no_sep c) as Hf. rewrite Forall_forall in Hf. by apply (Hf sep).
Qed.

(** Appending a string with no separator extends the last piece. *)
Fixpoint app_last (ws : list Abi.str) (b : Abi.str) : list Abi.str :=
  match ws with
  | [] => [b]
  | [w] => [w ++ b]
  | w :: ws => w :: app_last ws b
  end.

Lemma split_at_no_sep sep b : sep ∉ b -> split_at sep b = [b].
Proof.
  induction b as [|c b IH]; intros Hb; [done|].
  cbn. rewrite bool_decide_false by set_solver. rewrite IH by set_solver. done.
Qed.

Lemma split_at_cons_ne sep c a :
  c <> sep -> exists w ws, split_at sep a = w :: ws /\ split_at sep (c :: a) = (c :: w) :: ws.
Proof.
  intros Hc. cbn. rewrite bool_decide_false by done.
  destruct a as [|c' a]; cbn; [by eexists _, _|].
  case_bool_decide; [by eexists _, _|].
  destruct (split_at sep a); by eexists _, _.
Qed.

Lemma split_at_nonempty sep a : split_at sep a <> [].
Proof.
  destruct a as [|c a]; cbn; [done|]. case_bool_decide; [done|]. by destruct (split_at sep a).
Qed.

Lemma split_at_app sep a b :
  sep ∉ b -> split_at sep (a ++ b) = app_last (split_at sep a) b.
Proof.
  intros Hb. induction a as [|c a IH]; cbn [app]; [by apply split_at_no_sep|].
  destruct (decide (c = sep)) as [->|Hc].
  - cbn. rewrite bool_decide_true, IH by done.
    destruct (split_at sep a) as [|w ws] eqn:E; [by apply split_at_nonempty in E|]. done.
  - destruct (split_at_cons_ne sep c a Hc) as (w & ws & Ea & Eca).
    rewrite Eca. cbn. rewrite bool_decide_false, IH, Ea by done.
    by destruct ws.
Qed.

Lemma decode_component_encode s : decode_component (encodeURIComponent s) = Some s.
Proof.
  unfold decode_component. rewrite percent_decode_encode. apply utf8_decode_encode.
Qed.

(** At the default size the two pages build the same QR-code URL. *)
Lemma generateQRCodeUrl_300 pr : generateQRCodeUrl pr 300 = displayInvoice_qrCodeUrl pr.
Proof. unfold generateQRCodeUrl, displayInvoice_qrCodeUrl. f_equal; vm_compute; reflexivity. Qed.

Definition qr_prefix : Abi.str :=
  Abi.lit "https://api.qrserver.com/v1/create-qr-code/?size=300x300&data=".

(** A value with no separator is read back whole as [data]. *)
Lemma query_param_qr enc :
  (forall sep, sep ∈ Abi.lit "&=?#" -> sep ∉ enc) ->
  query_param (qr_prefix ++ enc) (Abi.lit "data") = Some enc.
Proof.
  intros Henc. unfold query_param.
  rewrite split_at_app by (apply Henc; apply list_elem_of_In; cbn; tauto).
  change (split_at "?" qr_prefix) with
    [Abi.lit "https://api.qrserver.com/v1/create-qr-code/"; Abi.lit "size=300x300&data="].
  cbv beta iota. cbn [app_last].
  rewrite split_at_app by (apply Henc; apply list_elem_of_In; cbn; tauto).
  change (split_at "&" (Abi.lit "size=300x300&data="))
    with [Abi.lit "size=300x300"; Abi.lit "data="].
  cbn [app_last]. unfold omap, list_omap. cbv beta iota fix.
  rewrite split_at_app by (apply Henc; apply list_elem_of_In; cbn; tauto).
  change (split_at "=" (Abi.lit "data=")) with [Abi.lit "data"; []].
  change (split_at "=" (Abi.lit "size=300x300")) with [Abi.lit "size"; Abi.lit "300x300"].
  cbn [app_last app]. rewrite bool_decide_false, bool_decide_true by done. done.
Qed.

(** ** Theorems *)

(** (C24) The QR code shows exactly the invoice: for every payment
    request, the QR-code URL of [LNbitsAPI.generateQRCodeUrl] at its
    default size 300 and the one of the gateway's [displayInvoice] have
    one [data] parameter, and reading it back (splitting the query at
    [&] and [=], percent- and UTF-8-decoding) gives the payment request,
    whatever characters it holds. *)
Theorem qr_url_roundtrip (pr : Abi.str) :
  query_param (generateQRCodeUrl pr 300) (Abi.lit "data") ≫= decode_component = Some pr /\
  query_param (displayInvoice_qrCodeUrl pr) (Abi.lit "data") ≫= decode_component = Some pr.
Proof.
  rewrite generateQRCodeUrl_300.
  change (displayInvoice_qrCodeUrl pr) with (qr_prefix ++ encodeURIComponent pr).
  rewrite query_param_qr by (intros; by apply encodeURIComponent_no_sep).
  cbn. rewrite decode_component_encode. done.
Qed.

End Http.
