(* ===== verification/Unlock.v ===== *)
(** * The Lightning pay-to-unlock page

    src/lightning-unlock/js/app.js with the catalogue of
    src/lightning-unlock/config.js: [appState] (lines 7-13) and the DOM
    state the handlers change that matters for payment (the generate
    button's [disabled], the download button's [href] and [download]),
    the pending [createInvoice] request and the pending [pollPayment].
    Each [async] handler is split at its [await]s, and [step]
    interleaves them.  The poller is any [Polling.poller]; the theorems
    of the page are proved in a Section that assumes only its contract
    [Polling.poller_correct] and are then applied to
    [Polling.lnbits_poller], the [pollPayment] the page calls.  A ghost
    list [confirmed] records the payment hashes for which a status
    request was answered paid. *)

From Stdlib Require Import Ascii String.
From stdpp Require Import base list strings gmap.
From S2P Require Import Prelude Polling Http.

Module Unlock.
Import Polling.

(** One entry of [CONFIG.PRODUCTS]. *)
Record product := mkProduct {
  id : string;
  name : string;
  description : string;
  price : nat;
  fileUrl : string;
  fileType : string;
  fileSize : string
}.

(** [CONFIG.PRODUCTS], config.js lines 31-68, a JS object keyed by id. *)
Definition PRODUCTS : gmap string product :=
  list_to_map [
    ("ai-art-pack-01", mkProduct "ai-art-pack-01" "AI Art Pack #01"
       "Collection of 10 unique AI-generated artworks in high resolution" 200
       "private/ai_art_pack_01_f8a3c9d2.zip" "ZIP" "15 MB");
    ("sat-study-guide", mkProduct "sat-study-guide" "SAT Study Guide 2025"
       "Comprehensive SAT preparation materials and practice tests" 150
       "private/sat_guide_2025_b4e7f1a9.pdf" "PDF" "8 MB");
    ("trading-bot-config", mkProduct "trading-bot-config" "Trading Bot Configuration"
       "Pre-configured trading bot settings for cryptocurrency markets" 500
       "private/bot_config_v2_9c3d8f7b.json" "JSON" "2 KB");
    ("nft-collection", mkProduct "nft-collection" "Digital NFT Collection"
       "Exclusive collection of 5 digital NFT artworks" 1000
       "private/nft_collection_a1b2c3d4.zip" "ZIP" "25 MB")].

(** The members of [Object.prototype] (with Annex B's accessors):
    [CONFIG.PRODUCTS[k]] finds them on the object literal too. *)
Definition object_prototype_keys : list string :=
  ["constructor"; "hasOwnProperty"; "isPrototypeOf"; "propertyIsEnumerable";
   "toLocaleString"; "toString"; "valueOf"; "__proto__";
   "__defineGetter__"; "__defineSetter__"; "__lookupGetter__"; "__lookupSetter__"].

(** What [CONFIG.PRODUCTS[k]] is: a catalogued product, an inherited
    member of [Object.prototype] (a function or the prototype itself,
    truthy), or [undefined]. *)
Inductive lookup := Own (pr : product) | Inherited | Undefined.

Definition PRODUCTS_get (k : string) : lookup :=
  match PRODUCTS !! k with
  | Some pr => Own pr
  | None => if bool_decide (k ∈ object_prototype_keys) then Inherited else Undefined
  end.

Definition DEFAULT_PRODUCT : string := "ai-art-pack-01".
Definition APP_NAME : string := "Qubit Chain Hong Kong".
Definition POLL_MAX_ATTEMPTS : nat := 100.

(** The object [createInvoice] returns, lnbits.js lines 42-48: the
    server's [payment_hash] and [payment_request], the amount and memo
    that were requested. *)
Record invoice := mkInvoice {
  payment_hash : string;
  payment_request : string;
  amount : nat;
  memo : string
}.

Record appState := mkAppState {
  currentProduct : option product;
  inv : option invoice;                 (** [appState.invoice] *)
  isPolling : bool;
  isPaid : bool
}.

Record page := mkPage {
  app : appState;
  generate_disabled : bool;             (** [generate-invoice-btn].disabled *)
  download_href : option string;        (** [download-btn].href *)
  download_name : option string;        (** [download-btn].download *)
  pending_invoice : option (nat * string);  (** [createInvoice(amount, memo)] in flight *)
  polling_hash : option string;         (** [pollPayment(hash)] in flight *)
  confirmed : list string               (** ghost: hashes answered paid *)
}.

Definition with_app (s : appState) (p : page) : page :=
  mkPage s p.(generate_disabled) p.(download_href) p.(download_name)
    p.(pending_invoice) p.(polling_hash) p.(confirmed).

(** [String.prototype.toLowerCase] on ASCII. *)
Definition ascii_lower (c : ascii) : ascii :=
  let n := nat_of_ascii c in
  if (65 <=? n)%nat && (n <=? 90)%nat then ascii_of_nat (n + 32) else c.

Definition to_lower (s : string) : string :=
  string_of_list_ascii (map ascii_lower (list_ascii_of_string s)).

(** ** Handlers *)

(** [loadProduct(productId)], lines 40-58.  An inherited member would
    become the page's product (a function with no price); [reachable]
    starts only from the other pages, so that case is left as it is. *)
Definition loadProduct (productId : string) (p : page) : page :=
  match PRODUCTS_get productId with
  | Own pr =>
      let s := p.(app) in with_app (mkAppState (Some pr) s.(inv) s.(isPolling) s.(isPaid)) p
  | Inherited | Undefined => p
  end.

(** [urlParams.get('product') || CONFIG.DEFAULT_PRODUCT], line 26: an
    absent or empty parameter gives the default. *)
Definition product_param (param : option string) : string :=
  match param with
  | Some s => if String.eqb s "" then DEFAULT_PRODUCT else s
  | None => DEFAULT_PRODUCT
  end.

Definition empty_page : page :=
  mkPage (mkAppState None None false false) false None None None None [].

(** [initApp()], lines 18-35. *)
Definition initApp (param : option string) : page := loadProduct (product_param param) empty_page.

(** [handleGenerateInvoice()], lines 83-100, up to [await createInvoice]:
    without a product it stops; otherwise the button is disabled and
    the invoice is requested for the product's price. *)
Definition handleGenerateInvoice_click (p : page) : page :=
  match p.(app).(currentProduct) with
  | None => p
  | Some pr =>
      mkPage p.(app) true p.(download_href) p.(download_name)
        (Some (pr.(price), (APP_NAME ++ " - " ++ pr.(name))%string))
        p.(polling_hash) p.(confirmed)
  end.

(** [startPaymentPolling(paymentHash)], lines 142-157, up to [await
    pollPayment]: a second call while polling returns at once. *)
Definition startPaymentPolling (hash : string) (p : page) : page :=
  if p.(app).(isPolling) then p
  else
    let s := p.(app) in
    mkPage (mkAppState s.(currentProduct) s.(inv) true s.(isPaid))
      p.(generate_disabled) p.(download_href) p.(download_name)
      p.(pending_invoice) (Some hash) p.(confirmed).

(** Lines 101-112, once the server created the invoice [hash]/[request]. *)
Definition handleGenerateInvoice_created (hash request : string) (p : page) : page :=
  match p.(pending_invoice) with
  | None => p
  | Some (amt, m) =>
      let s := p.(app) in
      let p1 := mkPage (mkAppState s.(currentProduct) (Some (mkInvoice hash request amt m))
                          s.(isPolling) s.(isPaid))
                  p.(generate_disabled) p.(download_href) p.(download_name)
                  None p.(polling_hash) p.(confirmed) in
      startPaymentPolling hash p1
  end.

(** Lines 116-121: [createInvoice] threw; the button is enabled again. *)
Definition handleGenerateInvoice_failed (p : page) : page :=
  mkPage p.(app) false p.(download_href) p.(download_name) None p.(polling_hash) p.(confirmed).

(** [revealDownloadLink()], lines 209-223. *)
Definition revealDownloadLink (p : page) : page :=
  match p.(app).(currentProduct) with
  | Some pr =>
      if p.(app).(isPaid) then
        mkPage p.(app) p.(generate_disabled) (Some pr.(fileUrl))
          (Some (pr.(name) ++ "." ++ to_lower pr.(fileType))%string)
          p.(pending_invoice) p.(polling_hash) p.(confirmed)
      else p
  | None => p
  end.

(** [handlePaymentConfirmed()], lines 184-204. *)
Definition handlePaymentConfirmed (p : page) : page :=
  let s := p.(app) in
  revealDownloadLink (with_app (mkAppState s.(currentProduct) s.(inv) s.(isPolling) true) p).

(** Lines 168-178, once [pollPayment] resolves with [paid]. *)
Definition startPaymentPolling_done (paid : bool) (p : page) : page :=
  let s := p.(app) in
  let p1 := mkPage (mkAppState s.(currentProduct) s.(inv) false s.(isPaid))
              p.(generate_disabled) p.(download_href) p.(download_name)
              p.(pending_invoice) None p.(confirmed) in
  if paid then handlePaymentConfirmed p1 else p1.

(** Ghost: record [hash] when one of the [n] answers was paid. *)
Definition record_answers (hash : string) (ans : nat -> check) (n : nat) (p : page) : page :=
  if existsb (fun k => bool_decide (ans k = Answer true)) (seq 1 n)
  then mkPage p.(app) p.(generate_disabled) p.(download_href) p.(download_name)
         p.(pending_invoice) p.(polling_hash) (hash :: p.(confirmed))
  else p.

(** ** Alerts and the invoice display *)

(** What [showAlert(message, type)] adds to [#alert-container], lines
    280-295: the [className] and the [innerHTML] of the new element.
    The message is spliced into the HTML as it is. *)
Record alert := mkAlert { className : string; innerHTML : string }.

Definition alert_icon (type : string) : string :=
  if String.eqb type "success" then "✅"
  else if String.eqb type "error" then "❌"
  else if String.eqb type "warning" then "⚠️" else "ℹ️".

Definition showAlert (message type : string) : alert :=
  let icon := alert_icon type in
  mkAlert ("alert alert-" ++ type)
    (nl ++ "    <span class=" ++ dq ++ "alert-icon" ++ dq ++ ">" ++ icon ++ "</span>" ++ nl ++
     "    <span class=" ++ dq ++ "alert-text" ++ dq ++ ">" ++ message ++ "</span>" ++ nl ++ "  ").

(** [showSuccess] and [showError], lines 266-275. *)
Definition showSuccess (message : string) : alert := showAlert message "success".
Definition showError (message : string) : alert := showAlert message "error".

(** The alert of [loadProduct(productId)], lines 43-46: an id that is
    not in the catalogue is reported by name. *)
Definition loadProduct_alert (productId : string) : option alert :=
  match PRODUCTS_get productId with
  | Own _ | Inherited => None
  | Undefined => Some (showError ("Product " ++ dq ++ productId ++ dq ++ " not found"))
  end.

(** The alert of [initApp] (lines 25-29): the product parameter of the
    page's URL goes to [loadProduct]. *)
Definition initApp_alert (param : option string) : option alert :=
  loadProduct_alert (product_param param).

(** The rest of [CONFIG], config.js lines 10-27 (the QR-code API is
    [Http.QR_CODE_API]). *)
Definition LNBITS_URL : string := "https://legend.lnbits.com".
Definition LNBITS_INVOICE_KEY : string := "YOUR_INVOICE_KEY_HERE".
Definition APP_SUBTITLE : string := "Lightning Pay-To-Unlock Store".
Definition POLL_INTERVAL : nat := 3000.

(** The check of config.js lines 75-77: whether the placeholder key
    triggers the console warning. *)
Definition config_warns (invoiceKey : string) : bool :=
  String.eqb invoiceKey "YOUR_INVOICE_KEY_HERE".

(** [appState.lnbits], line 22: [new LNbitsAPI(CONFIG.LNBITS_URL,
    CONFIG.LNBITS_INVOICE_KEY)]. *)
Definition lnbits : Http.LNbitsAPI.LNbitsAPI :=
  Http.LNbitsAPI.mkLNbitsAPI LNBITS_URL LNBITS_INVOICE_KEY.

(** The alert of [handleGenerateInvoice] when [createInvoice] throws
    with [message], line 118. *)
Definition handleGenerateInvoice_error (message : string) : alert :=
  showError ("Failed to generate invoice: " ++ message).

(** That alert, lines 116-118, for what [fetch] gave. *)
Definition handleGenerateInvoice_alert (amount : N) (memo : string) (f : Http.fetched) : option alert :=
  match Http.LNbitsAPI.createInvoice_response amount memo f with
  | Http.Ok _ => None
  | Http.Err m => Some (handleGenerateInvoice_error m)
  end.

(** [handleDownload()], lines 228-238. *)
Definition handleDownload (p : page) : alert :=
  if p.(app).(isPaid) then showSuccess "Download started! Thank you for your purchase."
  else showError "Please complete payment first".

(** What [displayInvoice(invoice)] writes, lines 127-137: the QR image's
    [src], the invoice text box, and the amount. *)
Record invoice_view := mkInvoiceView { qr_src : list ascii; invoice_text : string; amount_text : string }.

Definition displayInvoice (i : invoice) : invoice_view :=
  mkInvoiceView (Http.generateQRCodeUrl (list_ascii_of_string i.(payment_request)) 300)
    i.(payment_request) (Http.dec (N.of_nat i.(amount)) ++ " sats").

(** ** Transitions *)

Section Steps.
Variable poll : poller.

Inductive step : page -> page -> Prop :=
  | st_click p :
      p.(generate_disabled) = false -> step p (handleGenerateInvoice_click p)
  | st_created p hash request :
      is_Some p.(pending_invoice) -> step p (handleGenerateInvoice_created hash request p)
  | st_failed p :
      is_Some p.(pending_invoice) -> step p (handleGenerateInvoice_failed p)
  | st_polled p hash ans paid n :
      p.(polling_hash) = Some hash -> poll.(run) POLL_MAX_ATTEMPTS ans = Some (paid, n) ->
      step p (startPaymentPolling_done paid (record_answers hash ans n p)).

Inductive reachable : page -> Prop :=
  | reach_init param : PRODUCTS_get (product_param param) <> Inherited -> reachable (initApp param)
  | reach_step p p' : reachable p -> step p p' -> reachable p'.
End Steps.

(** ** The page invariant *)

Definition catalogued (pr : product) : Prop := exists k, PRODUCTS !! k = Some pr.

Record page_ok (p : page) : Prop := {
  ok_product : forall pr, p.(app).(currentProduct) = Some pr -> catalogued pr;
  ok_href : forall url, p.(download_href) = Some url ->
    exists pr, p.(app).(currentProduct) = Some pr /\ url = pr.(fileUrl) /\ p.(app).(isPaid) = true;
  ok_paid : p.(app).(isPaid) = true ->
    exists i, p.(app).(inv) = Some i /\ i.(payment_hash) ∈ p.(confirmed);
  ok_polling : forall h, p.(polling_hash) = Some h ->
    exists i, p.(app).(inv) = Some i /\ i.(payment_hash) = h;
  ok_inv : forall i, p.(app).(inv) = Some i ->
    p.(generate_disabled) = true /\ p.(pending_invoice) = None /\
    exists pr, p.(app).(currentProduct) = Some pr /\ i.(amount) = pr.(price);
  ok_pending : forall a m, p.(pending_invoice) = Some (a, m) ->
    p.(generate_disabled) = true /\ p.(app).(inv) = None /\
    exists pr, p.(app).(currentProduct) = Some pr /\ a = pr.(price)
}.

Lemma initApp_ok param : page_ok (initApp param).
Proof.
  unfold initApp, loadProduct, PRODUCTS_get.
  destruct (PRODUCTS !! product_param param) as [pr|] eqn:E; [|case_bool_decide];
    constructor; cbn; try discriminate; intros; simplify_eq; eexists; eauto.
Qed.

Lemma click_ok p : page_ok p -> p.(generate_disabled) = false ->
  page_ok (handleGenerateInvoice_click p).
Proof.
  intros Hok Hd. unfold handleGenerateInvoice_click.
  destruct (currentProduct (app p)) as [pr|] eqn:Ec; [|exact Hok].
  assert (Hinv : inv (app p) = None).
  { destruct (inv (app p)) as [i|] eqn:Ei; [|reflexivity].
    destruct (ok_inv p Hok i Ei) as [Hd' _]. congruence. }
  constructor; cbn.
  - exact (ok_product p Hok).
  - exact (ok_href p Hok).
  - exact (ok_paid p Hok).
  - exact (ok_polling p Hok).
  - intros i Ei. congruence.
  - intros a m [= <- _]. split; [reflexivity|]. split; [exact Hinv|]. eauto.
Qed.

Lemma created_ok p hash request : page_ok p -> is_Some p.(pending_invoice) ->
  page_ok (handleGenerateInvoice_created hash request p).
Proof.
  intros Hok [[a m] Epend]. unfold handleGenerateInvoice_created.
  rewrite Epend. destruct (ok_pending p Hok a m Epend) as (Hdis & Hinv & pr & Ec & ->).
  assert (Hpoll : polling_hash p = None).
  { destruct (polling_hash p) as [h|] eqn:Eh; [|reflexivity].
    destruct (ok_polling p Hok h Eh) as (i & Ei & _). congruence. }
  assert (Hpaid : isPaid (app p) = false).
  { destruct (isPaid (app p)) eqn:Ep; [|reflexivity].
    destruct (ok_paid p Hok Ep) as (i & Ei & _). congruence. }
  assert (Hprod := ok_product p Hok). assert (Hhref := ok_href p Hok).
  unfold startPaymentPolling. cbn.
  destruct (isPolling (app p)); constructor; cbn; rewrite ?Hpoll, ?Hpaid;
    try discriminate; auto; intros; simplify_eq; eauto;
    solve [edestruct Hhref as (? & ? & ? & ?); [eassumption | congruence]].
Qed.

Lemma failed_ok p : page_ok p -> is_Some p.(pending_invoice) ->
  page_ok (handleGenerateInvoice_failed p).
Proof.
  intros Hok [[a m] Epend].
  destruct (ok_pending p Hok a m Epend) as (_ & Hinv & _).
  constructor; cbn.
  - exact (ok_product p Hok).
  - exact (ok_href p Hok).
  - exact (ok_paid p Hok).
  - exact (ok_polling p Hok).
  - intros i Ei. congruence.
  - discriminate.
Qed.

Section Reveal.
Variable poll : poller.
Hypothesis poll_ok : poller_correct poll.

Lemma polled_paid_recorded ans paid n :
  poll.(run) POLL_MAX_ATTEMPTS ans = Some (paid, n) -> paid = true ->
  existsb (fun k => bool_decide (ans k = Answer true)) (seq 1 n) = true.
Proof.
  rewrite poll_ok. intros [= E] ->.
  destruct (poll_spec_paid _ _ _ E) as (Hn & Hr & _).
  apply existsb_exists. exists n. split.
  - apply in_seq. lia.
  - now apply bool_decide_eq_true_2.
Qed.

Lemma polled_ok p hash ans paid n :
  page_ok p -> p.(polling_hash) = Some hash ->
  poll.(run) POLL_MAX_ATTEMPTS ans = Some (paid, n) ->
  page_ok (startPaymentPolling_done paid (record_answers hash ans n p)).
Proof.
  intros Hok Eh Hrun.
  destruct (ok_polling p Hok hash Eh) as (i & Ei & Hhash).
  destruct (ok_inv p Hok i Ei) as (Hdis & Hpend & pr & Ec & Hamt).
  assert (Hpr := ok_product p Hok). assert (Hh := ok_href p Hok). assert (Hp := ok_paid p Hok).
  assert (Hrec : paid = true -> hash ∈ confirmed (record_answers hash ans n p)).
  { intros Hpaid. unfold record_answers.
    rewrite (polled_paid_recorded ans paid n Hrun Hpaid). cbn. left. }
  assert (Hmono : forall x, x ∈ confirmed p -> x ∈ confirmed (record_answers hash ans n p)).
  { intros x Hx. unfold record_answers. destruct (existsb _ _); cbn; [right|]; exact Hx. }
  assert (Happ : app (record_answers hash ans n p) = app p)
    by (unfold record_answers; now destruct (existsb _ _)).
  assert (Hhref : download_href (record_answers hash ans n p) = download_href p)
    by (unfold record_answers; now destruct (existsb _ _)).
  assert (Hpe' : pending_invoice (record_answers hash ans n p) = pending_invoice p)
    by (unfold record_answers; now destruct (existsb _ _)).
  assert (Hdis' : generate_disabled (record_answers hash ans n p) = generate_disabled p)
    by (unfold record_answers; now destruct (existsb _ _)).
  unfold startPaymentPolling_done, handlePaymentConfirmed, revealDownloadLink.
  rewrite Happ, Hhref, Hpe', Hdis'. rewrite Ec, Ei.
  destruct paid; cbn; constructor; cbn; rewrite ?Ec, ?Ei, ?Hpend;
    try discriminate; intros; simplify_eq; eauto.
  - destruct (Hh _ H) as (pr' & Ec' & -> & Hp'). rewrite Ec in Ec'. eauto.
  - destruct (Hp H) as (i' & Ei' & Hc). rewrite Ei in Ei'.
    exists i'. split; [exact Ei' | apply Hmono, Hc].
Qed.

Lemma reachable_ok p : reachable poll p -> page_ok p.
Proof.
  induction 1 as [param _|p p' _ IH Hs]; [apply initApp_ok|].
  destruct Hs as [p Hd | p h r Hpend | p Hpend | p h ans paid n Eh Hrun].
  - exact (click_ok p IH Hd).
  - exact (created_ok p h r IH Hpend).
  - exact (failed_ok p IH Hpend).
  - exact (polled_ok p h ans paid n IH Eh Hrun).
Qed.
End Reveal.

Lemma page_stuck_after_poll poll p i :
  page_ok p -> p.(app).(inv) = Some i -> p.(polling_hash) = None ->
  forall p', ~ step poll p p'.
Proof.
  intros Hok Ei Hpoll p' Hs. destruct (ok_inv p Hok i Ei) as (Hdis & Hpend & _).
  destruct Hs as [q Hd | q h r [x Hx] | q [x Hx] | q h ans paid n Eh _]; congruence.
Qed.

(** An alert's HTML contains its message as it was given. *)
Lemma showAlert_infix message type : Http.infix message (showAlert message type).(innerHTML).
Proof.
  unfold showAlert. cbv zeta. cbn [innerHTML].
  repeat (apply Http.infix_here || apply Http.infix_app_l).
Qed.

(** ** Theorems *)

(** (C25) The pay-to-unlock page reveals a download link only for a
    paid invoice: on every page reachable with [pollPayment], a
    download [href] is the [fileUrl] of the product loaded from
    [CONFIG.PRODUCTS], the page holds an invoice for that product's
    price, and LNbits answered a status request for that invoice's
    payment hash with [paid]. *)
Theorem download_revealed_only_after_payment p url :
  reachable lnbits_poller p -> p.(download_href) = Some url ->
  exists pr i, p.(app).(currentProduct) = Some pr /\ url = pr.(fileUrl) /\
    p.(app).(inv) = Some i /\ i.(amount) = pr.(price) /\
    i.(payment_hash) ∈ p.(confirmed) /\ catalogued pr.
Proof.
  intros Hr Hh. pose proof (reachable_ok lnbits_poller lnbits_poller_correct p Hr) as Hok.
  destruct (ok_href p Hok url Hh) as (pr & Ec & -> & Hpaid).
  destruct (ok_paid p Hok Hpaid) as (i & Ei & Hc).
  destruct (ok_inv p Hok i Ei) as (_ & _ & pr' & Ec' & Hamt).
  rewrite Ec in Ec'. injection Ec' as <-.
  exists pr, i. repeat split; auto. exact (ok_product p Hok pr Ec).
Qed.

(** (C26) A payment that [pollPayment] does not see in time is never
    honoured by the page: once a poll has ended without payment, the
    page has an invoice, no pending request and a disabled button, and
    no handler can run again, so the link stays hidden until a reload,
    which drops the invoice. *)
Theorem unpaid_poll_is_final p i :
  reachable lnbits_poller p -> p.(app).(inv) = Some i -> p.(polling_hash) = None ->
  p.(app).(isPaid) = false ->
  p.(download_href) = None /\ forall p', ~ step lnbits_poller p p'.
Proof.
  intros Hr Ei Hpoll Hpaid. pose proof (reachable_ok lnbits_poller lnbits_poller_correct p Hr) as Hok.
  split.
  - destruct (download_href p) as [url|] eqn:Eh; [|reflexivity].
    destruct (ok_href p Hok url Eh) as (_ & _ & _ & Hp). congruence.
  - exact (page_stuck_after_poll lnbits_poller p i Hok Ei Hpoll).
Qed.

(** (C27) The unlock page writes untrusted text into the DOM as HTML: a
    [product] parameter of the page's URL for which
    [CONFIG.PRODUCTS[productId]] is [undefined] (neither a catalogue id
    nor a member of [Object.prototype]) appears verbatim in the [innerHTML] of the error alert [initApp]
    shows, and so does the body of a failed LNbits [createInvoice]
    response in the alert of [handleGenerateInvoice]; neither is
    escaped, so markup in either is rendered by the browser. *)
Theorem alerts_splice_unescaped (param : string) (amount : N) (memo : string)
    (status : N) (text : string) (body : Http.json + string) :
  param <> "" -> PRODUCTS_get param = Undefined ->
  (exists a, initApp_alert (Some param) = Some a /\ Http.infix param a.(innerHTML)) /\
  (exists a, handleGenerateInvoice_alert amount memo
               (Http.Got (Http.mkResponse false status text body)) = Some a /\
             Http.infix text a.(innerHTML)).
Proof.
  intros Hp Hnone. split.
  - unfold initApp_alert, product_param. rewrite (proj2 (String.eqb_neq _ _) Hp).
    unfold loadProduct_alert. rewrite Hnone. eexists; split; [reflexivity|].
    eapply Http.infix_trans; [|apply showAlert_infix].
    apply Http.infix_app_l, Http.infix_app_l, Http.infix_here.
  - eexists; split; [reflexivity|]. eapply Http.infix_trans; [|apply showAlert_infix].
    repeat apply Http.infix_app_l. apply Http.infix_refl.
Qed.

(** ** Witnesses *)

Definition page_invoiced : page :=
  handleGenerateInvoice_created "hash1" "lnbc2000n1" (handleGenerateInvoice_click (initApp None)).

Definition page_unlocked : page :=
  startPaymentPolling_done true (record_answers "hash1" (fun _ => Answer true) 1 page_invoiced).

Definition page_timed_out : page :=
  startPaymentPolling_done false
    (record_answers "hash1" (fun _ => Answer false) POLL_MAX_ATTEMPTS page_invoiced).

Lemma page_invoiced_reachable : reachable lnbits_poller page_invoiced.
Proof.
  eapply reach_step; [eapply reach_step; [apply (reach_init _ None); vm_compute; discriminate | apply st_click; reflexivity]|].
  apply st_created. eexists. reflexivity.
Qed.

Lemma page_unlocked_reachable : reachable lnbits_poller page_unlocked.
Proof.
  eapply reach_step; [exact page_invoiced_reachable|].
  apply (st_polled _ _ "hash1"); vm_compute; reflexivity.
Qed.

Lemma page_timed_out_reachable : reachable lnbits_poller page_timed_out.
Proof.
  eapply reach_step; [exact page_invoiced_reachable|].
  apply (st_polled _ _ "hash1"); vm_compute; reflexivity.
Qed.

Lemma download_revealed_only_after_payment_witness :
  reachable lnbits_poller page_unlocked /\
  page_unlocked.(download_href) = Some "private/ai_art_pack_01_f8a3c9d2.zip" /\
  exists pr i, page_unlocked.(app).(currentProduct) = Some pr /\ page_unlocked.(app).(inv) = Some i /\
    i.(payment_hash) ∈ page_unlocked.(confirmed).
Proof.
  assert (Hh : page_unlocked.(download_href) = Some "private/ai_art_pack_01_f8a3c9d2.zip")
    by reflexivity.
  split; [exact page_unlocked_reachable|]. split; [exact Hh|].
  destruct (download_revealed_only_after_payment _ _ page_unlocked_reachable Hh)
    as (pr & i & Ec & _ & Ei & _ & Hc & _).
  exists pr, i. auto.
Defined.

Lemma unpaid_poll_is_final_witness :
  reachable lnbits_poller page_timed_out /\ page_timed_out.(app).(isPaid) = false /\
  page_timed_out.(download_href) = None.
Proof.
  split; [exact page_timed_out_reachable|]. split; [reflexivity|].
  exact (proj1 (unpaid_poll_is_final page_timed_out
                  (mkInvoice "hash1" "lnbc2000n1" 200 "Qubit Chain Hong Kong - AI Art Pack #01")
                  page_timed_out_reachable eq_refl eq_refl eq_refl)).
Defined.

Definition injected_param : string := "<img src=x onerror=alert(document.cookie)>".

Lemma alerts_splice_unescaped_witness :
  PRODUCTS_get injected_param = Undefined /\
  exists a, initApp_alert (Some injected_param) = Some a /\ Http.infix injected_param a.(innerHTML).
Proof.
  split; [vm_compute; reflexivity|].
  exact (proj1 (alerts_splice_unescaped injected_param 0 "" 500 "" (inr "")
                  ltac:(discriminate) ltac:(vm_compute; reflexivity))).
Defined.

End Unlock.
