(* ===== verification/UnlockPage.v ===== *)
(** * The pay-to-unlock page as a user sees it

    src/lightning-unlock/js/app.js with the parts of the DOM its
    handlers write beside [Unlock.page]: the alerts, the generate
    button's text, the product's details (lines 51-55), the hidden
    state of the product, invoice and unlock sections, the invoice
    display and the payment status line.  Each handler of
    [setupEventListeners] (lines 62-81) and each settled [await] is a
    step: [handleGenerateInvoice] (lines 83-122) with what [createInvoice]
    answered, the progress callback of [startPaymentPolling] (lines
    158-163), its end (lines 168-178) with [handlePaymentConfirmed]
    (lines 184-204), [handleDownload] (lines 228-238) and
    [handleCopyInvoice] (lines 243-261).  Every step is an
    [Unlock.step] of the page's state or leaves it alone (refinement),
    and the unlock section and the confirmation line are shown exactly
    when the page is paid, with the download link set. *)

From Stdlib Require Import String Ascii.
From stdpp Require Import base list strings gmap.
From S2P Require Import Prelude Polling Http Unlock.

Module UnlockPage.
Import Polling Unlock.

(** ** The DOM *)

(** What [loadProduct] writes, lines 51-55. *)
Record product_view := mkProductView {
  pv_name : string; pv_description : string; pv_price : string; pv_type : string; pv_size : string
}.

Definition product_view_of (pr : product) : product_view :=
  mkProductView pr.(name) pr.(description) (Http.dec (N.of_nat pr.(price)) ++ " sats")
    pr.(fileType) pr.(fileSize).

(** [None] is the page as loaded. *)
Record ui := mkUi {
  alerts : list alert;                      (** [#alert-container], oldest first *)
  generate_label : option string;           (** [generate-invoice-btn].textContent *)
  product_shown : option product_view;
  product_hidden : option bool;             (** [product-section] has [hidden] *)
  invoice_hidden : option bool;             (** [invoice-section] *)
  unlock_hidden : option bool;              (** [unlock-section] *)
  invoice_shown : option invoice_view;
  status_text : option string;              (** [payment-status].textContent *)
  status_class : option string              (** its className *)
}.

Definition add_alert (a : alert) (u : ui) : ui :=
  mkUi (u.(alerts) ++ [a]) u.(generate_label) u.(product_shown) u.(product_hidden)
    u.(invoice_hidden) u.(unlock_hidden) u.(invoice_shown) u.(status_text) u.(status_class).

Definition set_label (l : string) (u : ui) : ui :=
  mkUi u.(alerts) (Some l) u.(product_shown) u.(product_hidden)
    u.(invoice_hidden) u.(unlock_hidden) u.(invoice_shown) u.(status_text) u.(status_class).

Definition set_status_text (t : string) (u : ui) : ui :=
  mkUi u.(alerts) u.(generate_label) u.(product_shown) u.(product_hidden)
    u.(invoice_hidden) u.(unlock_hidden) u.(invoice_shown) (Some t) u.(status_class).

Definition set_status (t c : string) (u : ui) : ui :=
  mkUi u.(alerts) u.(generate_label) u.(product_shown) u.(product_hidden)
    u.(invoice_hidden) u.(unlock_hidden) u.(invoice_shown) (Some t) (Some c).

(** Lines 104-109: the invoice displayed, the product section hidden
    and the invoice section shown. *)
Definition show_invoice (v : option invoice_view) (u : ui) : ui :=
  mkUi u.(alerts) u.(generate_label) u.(product_shown) (Some true)
    (Some false) u.(unlock_hidden) v u.(status_text) u.(status_class).

(** Lines 194-198: the invoice section hidden, the unlock section shown. *)
Definition show_unlock (u : ui) : ui :=
  mkUi u.(alerts) u.(generate_label) u.(product_shown) u.(product_hidden)
    (Some true) (Some false) u.(invoice_shown) u.(status_text) u.(status_class).

Definition confirmed_text : string := "Payment confirmed! ✅".

Record upage := mkUPage { pg : page; dom : ui }.

(** ** The handlers *)

(** [initApp()], lines 18-35: the product of the URL's parameter, or
    the alert that it is unknown. *)
Definition initApp_page (param : option string) : upage :=
  mkUPage (initApp param)
    (mkUi (match initApp_alert param with Some a => [a] | None => [] end) None
       (product_view_of <$> PRODUCTS !! product_param param) None None None None None None).

(** [handleGenerateInvoice()] up to [await createInvoice], lines 83-100. *)
Definition handleGenerateInvoice_page (u : upage) : upage :=
  match u.(pg).(app).(currentProduct) with
  | None => mkUPage u.(pg) (add_alert (showError "No product selected") u.(dom))
  | Some _ => mkUPage (handleGenerateInvoice_click u.(pg)) (set_label "Generating..." u.(dom))
  end.

(** [startPaymentPolling(hash)] up to [await pollPayment], lines
    142-157: the status line, unless a poll is already running. *)
Definition startPaymentPolling_ui (p : page) (u : ui) : ui :=
  if p.(app).(isPolling) then u else set_status "Waiting for payment..." "payment-status waiting" u.

(** [createInvoice] settles from what [fetch] gave (lines 97-121): the
    invoice is stored, shown, polled and announced, or the error is
    reported and the button restored. *)
Definition handleGenerateInvoice_settled (f : Http.fetched) (u : upage) : upage :=
  match u.(pg).(pending_invoice) with
  | None => u
  | Some (a, m) =>
      match Http.LNbitsAPI.createInvoice_response (N.of_nat a) m f with
      | Http.Ok c =>
          let q := handleGenerateInvoice_created (Http.js_text c.(Http.LNbitsAPI.payment_hash))
                     (Http.js_text c.(Http.LNbitsAPI.payment_request)) u.(pg) in
          let d := show_invoice (displayInvoice <$> q.(app).(inv)) u.(dom) in
          mkUPage q (add_alert (showSuccess "Invoice generated! Please pay to unlock your file.")
                       (startPaymentPolling_ui u.(pg) d))
      | Http.Err msg =>
          mkUPage (handleGenerateInvoice_failed u.(pg))
            (set_label "⚡ Generate Invoice" (add_alert (handleGenerateInvoice_error msg) u.(dom)))
      end
  end.

(** The [onUpdate] callback, lines 158-163, for the [k]-th check. *)
Definition poll_progress (k : nat) (u : upage) : upage :=
  mkUPage u.(pg) (set_status_text ("Checking payment... (" ++ Http.dec (N.of_nat k) ++ "/" ++
                                   Http.dec (N.of_nat POLL_MAX_ATTEMPTS) ++ ")") u.(dom)).

(** [handlePaymentConfirmed()], lines 184-204, on the DOM. *)
Definition handlePaymentConfirmed_ui (u : ui) : ui :=
  add_alert (showSuccess "🎉 Payment confirmed! Your file is now unlocked.")
    (show_unlock (set_status confirmed_text "payment-status success" u)).

(** [pollPayment] resolves with [paid] after the answers [ans] (lines
    168-178). *)
Definition startPaymentPolling_settled (hash : string) (ans : nat -> check) (paid : bool) (n : nat)
    (u : upage) : upage :=
  let q := startPaymentPolling_done paid (record_answers hash ans n u.(pg)) in
  if paid then mkUPage q (handlePaymentConfirmed_ui u.(dom))
  else mkUPage q (add_alert (showError "Payment confirmation timeout. Please check your payment and refresh the page.")
                    (set_status "Payment timeout. Please try again." "payment-status error" u.(dom))).

(** [handleDownload()], lines 228-238. *)
Definition handleDownload_page (u : upage) : upage :=
  mkUPage u.(pg) (add_alert (handleDownload u.(pg)) u.(dom)).

(** [handleCopyInvoice()], lines 243-261: [document.execCommand('copy')]
    returns, or throws and the clipboard API settles with [clip_ok]. *)
Definition handleCopyInvoice (exec_ok clip_ok : bool) (u : upage) : upage :=
  mkUPage u.(pg) (add_alert (if exec_ok || clip_ok then showSuccess "Invoice copied to clipboard!"
                             else showError "Failed to copy invoice") u.(dom)).

Section Steps.
Variable poll : poller.

(** The listeners of [setupEventListeners] and the settled awaits. *)
Inductive upage_step : upage -> upage -> Prop :=
  | us_generate u : u.(pg).(generate_disabled) = false -> upage_step u (handleGenerateInvoice_page u)
  | us_invoice u f : is_Some u.(pg).(pending_invoice) -> upage_step u (handleGenerateInvoice_settled f u)
  | us_progress u k : is_Some u.(pg).(polling_hash) -> 1 <= k <= POLL_MAX_ATTEMPTS ->
      upage_step u (poll_progress k u)
  | us_polled u hash ans paid n :
      u.(pg).(polling_hash) = Some hash -> poll.(run) POLL_MAX_ATTEMPTS ans = Some (paid, n) ->
      upage_step u (startPaymentPolling_settled hash ans paid n u)
  | us_download u : upage_step u (handleDownload_page u)
  | us_copy u exec_ok clip_ok : upage_step u (handleCopyInvoice exec_ok clip_ok u).

Inductive upage_reachable : upage -> Prop :=
  | ur_init param : PRODUCTS_get (product_param param) <> Inherited -> upage_reachable (initApp_page param)
  | ur_step u u' : upage_reachable u -> upage_step u u' -> upage_reachable u'.

End Steps.

(** ** Refinement *)

Section Refinement.
Variable poll : poller.

Lemma upage_step_refines u u' :
  upage_step poll u u' -> step poll u.(pg) u'.(pg) \/ u'.(pg) = u.(pg).
Proof.
  destruct 1 as [u Hd|u f Hp|u k _ _|u hash ans paid n Hh Hrun|u|u e c]; try (right; reflexivity).
  - unfold handleGenerateInvoice_page. destruct (currentProduct _); [left; by apply st_click|by right].
  - unfold handleGenerateInvoice_settled. destruct (pending_invoice (pg u)) as [[a m]|] eqn:Ep; [|by right].
    destruct (Http.LNbitsAPI.createInvoice_response _ _ f); left;
      [apply st_created|apply st_failed]; by rewrite Ep.
  - left. unfold startPaymentPolling_settled. destruct paid; eapply st_polled; eassumption.
Qed.

(** The page's state on every page reachable through the listeners of
    [setupEventListeners] and the settled [createInvoice] and
    [pollPayment] calls is reachable by [Unlock.step]. *)
Lemma upage_reachable_pg u : upage_reachable poll u -> reachable poll u.(pg).
Proof.
  induction 1 as [param Hp|u u' Hr IH Hs]; [by apply reach_init|].
  destruct (upage_step_refines u u' Hs) as [Hg| ->]; [exact (reach_step _ _ _ IH Hg)|exact IH].
Qed.

End Refinement.

(** ** The unlock section *)

Definition ui_inv (u : upage) : Prop :=
  (u.(dom).(unlock_hidden) = Some false <-> u.(pg).(app).(isPaid) = true) /\
  (u.(dom).(status_text) = Some confirmed_text <-> u.(pg).(app).(isPaid) = true) /\
  (u.(pg).(app).(isPaid) = true -> u.(pg).(polling_hash) = None /\
     exists pr, u.(pg).(app).(currentProduct) = Some pr /\ u.(pg).(download_href) = Some pr.(fileUrl)).

Lemma ui_inv_unpaid u :
  u.(pg).(app).(isPaid) = false -> u.(dom).(unlock_hidden) <> Some false ->
  u.(dom).(status_text) <> Some confirmed_text -> ui_inv u.
Proof. intros Hp Hu Hs. unfold ui_inv. rewrite Hp. split_and!; try done; intros; congruence. Qed.

Lemma created_isPaid h r p : (handleGenerateInvoice_created h r p).(app).(isPaid) = p.(app).(isPaid).
Proof.
  unfold handleGenerateInvoice_created, startPaymentPolling.
  destruct (pending_invoice p) as [[a m]|]; [|done]. cbn. by destruct (isPolling (app p)).
Qed.

(** A page with an invoice requested or awaited is not paid. *)
Lemma unpaid_of_ok p :
  page_ok p -> p.(generate_disabled) = false \/ is_Some p.(pending_invoice) -> p.(app).(isPaid) = false.
Proof.
  intros Hok Hc. destruct (isPaid (app p)) eqn:Ep; [|done].
  destruct (ok_paid p Hok Ep) as (i & Ei & _). destruct (ok_inv p Hok i Ei) as (Hd & Hpend & _).
  destruct Hc as [Hc|[x Hx]]; congruence.
Qed.

Section Shown.
Variable poll : poller.
Hypothesis poll_ok : poller_correct poll.

Lemma upage_step_inv u u' :
  reachable poll u.(pg) -> ui_inv u -> upage_step poll u u' -> ui_inv u'.
Proof.
  intros Hr Hi Hs. pose proof (reachable_ok poll poll_ok _ Hr) as Hok.
  destruct Hi as (Hu & Hst & Hpaid).
  destruct Hs as [u Hd|u f Hp|u k Hp _|u hash ans paid n Hh Hrun|u|u e c].
  - pose proof (unpaid_of_ok _ Hok (or_introl Hd)) as E. rewrite E in Hu, Hst.
    unfold handleGenerateInvoice_page, handleGenerateInvoice_click.
    destruct (currentProduct _); apply ui_inv_unpaid; cbn;
      first [exact E | intros H; apply Hu in H; discriminate | intros H; apply Hst in H; discriminate].
  - pose proof (unpaid_of_ok _ Hok (or_intror Hp)) as E. rewrite E in Hu, Hst.
    unfold handleGenerateInvoice_settled. destruct (pending_invoice (pg u)) as [[a m]|]; [|done].
    destruct (Http.LNbitsAPI.createInvoice_response _ _ f) as [c|msg].
    + unfold startPaymentPolling_ui. destruct (isPolling (app (pg u))); apply ui_inv_unpaid; cbn;
        try (by rewrite created_isPaid); try discriminate;
        intros H; first [apply Hu in H | apply Hst in H]; discriminate.
    + apply ui_inv_unpaid; cbn; [exact E|intros H; apply Hu in H; discriminate|].
      intros H; apply Hst in H; discriminate.
  - assert (E : isPaid (app (pg u)) = false).
    { destruct (isPaid _) eqn:E; [|done]. destruct (Hpaid eq_refl) as [Hn _]. rewrite Hn in Hp. by destruct Hp. }
    rewrite E in Hu. apply ui_inv_unpaid; cbn; [exact E|intros H; apply Hu in H; discriminate|discriminate].
  - assert (E : isPaid (app (pg u)) = false).
    { destruct (isPaid _) eqn:E; [|done]. destruct (Hpaid eq_refl) as [Hn _]. congruence. }
    rewrite E in Hu, Hst.
    assert (Er : app (record_answers hash ans n (pg u)) = app (pg u) /\
                 download_href (record_answers hash ans n (pg u)) = download_href (pg u))
      by (unfold record_answers; destruct (existsb _ _); done).
    unfold startPaymentPolling_settled. destruct paid.
    + destruct (ok_polling _ Hok hash Hh) as (i & Ei & _).
      destruct (ok_inv _ Hok i Ei) as (_ & _ & pr & Epr & _).
      unfold ui_inv. cbn. unfold handlePaymentConfirmed, startPaymentPolling_done, revealDownloadLink.
      rewrite (proj1 Er). cbn. rewrite Epr. cbn. split_and!; try done. eauto.
    + apply ui_inv_unpaid; cbn; [rewrite (proj1 Er); exact E|intros H; apply Hu in H; discriminate|discriminate].
  - split_and!; assumption.
  - split_and!; assumption.
Qed.

(** (C28) On every reachable pay-to-unlock page the unlock section is
    shown, and the status line reads [Payment confirmed! ✅], exactly
    when the page is paid; a paid page has stopped polling and its
    download button carries the product's [fileUrl]. *)
Theorem unlock_shown_iff_paid u :
  upage_reachable poll u ->
  (u.(dom).(unlock_hidden) = Some false <-> u.(pg).(app).(isPaid) = true) /\
  (u.(dom).(status_text) = Some confirmed_text <-> u.(pg).(app).(isPaid) = true) /\
  (u.(pg).(app).(isPaid) = true -> u.(pg).(polling_hash) = None /\
     exists pr, u.(pg).(app).(currentProduct) = Some pr /\ u.(pg).(download_href) = Some pr.(fileUrl)).
Proof.
  intros Hr. cut (ui_inv u); [done|].
  induction Hr as [param _|u u' Hr IH Hs].
  - apply ui_inv_unpaid; cbn; [|done|done]. unfold initApp, loadProduct.
    by destruct (PRODUCTS_get _).
  - exact (upage_step_inv u u' (upage_reachable_pg poll u Hr) IH Hs).
Qed.

End Shown.

(** ** Witnesses *)

(** The default product, its invoice created by LNbits, and the first
    status check answered paid. *)
Definition up_loaded : upage := initApp_page None.
Definition up_clicked : upage := handleGenerateInvoice_page up_loaded.
Definition created_answer : Http.fetched :=
  Http.Got (Http.mkResponse true 201 ""
              (inl (Http.JObj [("payment_hash", Http.JStr "hash1"); ("payment_request", Http.JStr "lnbc10n1")]))).
Definition up_invoiced : upage := handleGenerateInvoice_settled created_answer up_clicked.
Definition up_unlocked : upage := startPaymentPolling_settled "hash1" (fun _ => Answer true) true 1 up_invoiced.

Lemma up_unlocked_reachable : upage_reachable lnbits_poller up_unlocked.
Proof.
  eapply (ur_step _ up_invoiced); [|apply (us_polled _ _ "hash1"); vm_compute; reflexivity].
  eapply (ur_step _ up_clicked); [|apply us_invoice; vm_compute; by eexists].
  eapply (ur_step _ up_loaded); [apply ur_init; vm_compute; discriminate|apply us_generate; vm_compute; reflexivity].
Qed.

Lemma unlock_shown_iff_paid_witness :
  upage_reachable lnbits_poller up_unlocked /\ up_unlocked.(dom).(unlock_hidden) = Some false.
Proof.
  split; [exact up_unlocked_reachable|].
  apply (unlock_shown_iff_paid lnbits_poller lnbits_poller_correct up_unlocked up_unlocked_reachable).
  vm_compute. reflexivity.
Defined.

End UnlockPage.
