(* ===== verification/Gateway.v ===== *)
(** * The Qubitchain gateway page: API keys and paid API calls

    src/app.js.  [generateApiKey] and [generateUUID] (lines 33-55) draw
    from [Math.random] through the prelude's [MathLib]; [| 0] is
    [ToInt32] on 32-bit integers and the UUID variant digit is
    [r & 0x3 | 0x8] with [Z.land] and [Z.lor].  The API-key store
    ([appState.apiKeys] and its [localStorage] copy, lines 15-23 and
    66-86) is a list of records updated as the code updates the array:
    [findIndex]/[splice], [find] and an in-place update of the object
    [find] returns.  [callHelloAPI] (lines 291-329) is split at its
    [await]s and waits through any poller meeting [Polling]'s contract;
    the page runs with [Polling.gateway_poller], its [waitForPayment].
    A ghost counter records the confirmed payments. *)

From Stdlib Require Import QArith Qround ZArith Ascii String.
From stdpp Require Import base list strings.
From S2P Require Import Prelude Abi Polling Annealer.

Module Gateway.
Import Polling.

(** ** Random identifiers *)

(** [ToInt32(x)] for a finite [x]: truncation toward zero, then
    wrap-around to a signed 32-bit integer. *)
Definition ToInt32 (x : Q) : Z :=
  let t := if Qle_bool 0 x then Qfloor x else (- Qfloor (- x))%Z in
  ((t + 2 ^ 31) mod 2 ^ 32 - 2 ^ 31)%Z.

(** [v.toString(16)] for an integer [v]. *)
Definition js_toString16 (v : Z) : Abi.str :=
  if (v <? 0)%Z then "-"%char :: Abi.toString16 (Z.to_N (- v)) else Abi.toString16 (Z.to_N v).

(** [s.charAt(i)]: the one-character string, or [""] out of range. *)
Definition charAt (s : Abi.str) (i : Z) : Abi.str :=
  if (0 <=? i)%Z then match s !! Z.to_nat i with Some c => [c] | None => [] end else [].

Definition chars : Abi.str :=
  Abi.lit "ABCDEFGHIJKLMNOPQRSTUVWXYZabcdefghijklmnopqrstuvwxyz0123456789".

Definition uuid_template : Abi.str := Abi.lit "xxxxxxxx-xxxx-4xxx-yxxx-xxxxxxxxxxxx".

Section Random.
Context {G : Type} `{MathLib G}.

(** The [for] loop of [generateApiKey], lines 38-40, [n] rounds to go. *)
Fixpoint generateApiKey_loop (n : nat) (g : G) (apiKey : Abi.str) : Abi.str * G :=
  match n with
  | O => (apiKey, g)
  | S n' =>
      let (u, g') := math_random g in
      generateApiKey_loop n' g'
        (apiKey ++ charAt chars (Qfloor (u * inject_Z (Z.of_nat (length chars)))))
  end.

(** [generateApiKey()], lines 33-43. *)
Definition generateApiKey (g : G) : Abi.str * G :=
  generateApiKey_loop 32 g (Abi.lit "qbhk_").

(** The callback of [replace(/[xy]/g, ...)], lines 51-53, for the
    matched character [c]. *)
Definition uuid_digit (c : ascii) (g : G) : Abi.str * G :=
  let (u, g') := math_random g in
  let r := ToInt32 (u * 16) in
  let v := if bool_decide (c = "x"%char) then r else Z.lor (Z.land r 3) 8 in
  (js_toString16 v, g').

(** [String.prototype.replace] with a global pattern: left to right,
    the callback once per match, in order. *)
Fixpoint replace_xy (s : Abi.str) (g : G) : Abi.str * G :=
  match s with
  | [] => ([], g)
  | c :: rest =>
      if bool_decide (c = "x"%char) || bool_decide (c = "y"%char) then
        let (d, g1) := uuid_digit c g in
        let (rest', g2) := replace_xy rest g1 in (d ++ rest', g2)
      else
        let (rest', g2) := replace_xy rest g in (c :: rest', g2)
  end.

(** [generateUUID()], lines 49-55. *)
Definition generateUUID (g : G) : Abi.str * G := replace_xy uuid_template g.

End Random.

(** ** The API-key store and the paid call *)

(** One entry of [appState.apiKeys] (lines 231-237). *)
Record keyData := mkKey {
  key : string;
  kid : string;                         (** [id] *)
  createdAt : string;
  usageCount : nat;
  totalCharged : nat
}.

(** [CONFIG.API_COST_SATS], src/config.js line 28. *)
Definition API_COST_SATS : nat := 5.

(** What [localStorage['qbhk_api_keys']] holds: nothing, the JSON of a
    key list, or text [JSON.parse] rejects. *)
Inductive stored := NoKeys | StoredKeys (ks : list keyData) | Corrupt.

Record gateway (G : Type) := mkGateway {
  apiKeys : list keyData;
  walletBalance : Q;
  currentInvoice : option string;       (** [payment_hash] of [appState.currentInvoice] *)
  storage : stored;
  calling : option string;              (** [callHelloAPI(apiKey)] in flight *)
  waiting : option string;              (** its [waitForPayment(hash)] in flight *)
  rng : G;                              (** [Math.random]'s state *)
  paid_calls : nat                      (** ghost: calls LNbits answered paid *)
}.
Arguments mkGateway {G}.
Arguments apiKeys {G}. Arguments walletBalance {G}. Arguments currentInvoice {G}.
Arguments storage {G}. Arguments calling {G}. Arguments waiting {G}. Arguments rng {G}.
Arguments paid_calls {G}.

Section Store.
Context {G : Type} `{MathLib G}.

Definition with_keys (ks : list keyData) (st : gateway G) : gateway G :=
  mkGateway ks st.(walletBalance) st.(currentInvoice) st.(storage) st.(calling)
    st.(waiting) st.(rng) st.(paid_calls).

(** [saveApiKeys()], lines 69-71. *)
Definition saveApiKeys (st : gateway G) : gateway G :=
  mkGateway st.(apiKeys) st.(walletBalance) st.(currentInvoice) (StoredKeys st.(apiKeys))
    st.(calling) st.(waiting) st.(rng) st.(paid_calls).

(** [loadApiKeys()], lines 76-86. *)
Definition loadApiKeys (st : gateway G) : gateway G :=
  match st.(storage) with
  | NoKeys => st
  | StoredKeys ks => with_keys ks st
  | Corrupt => with_keys [] st
  end.

(** [createNewApiKey()], lines 229-244: a key and an id from the
    generators, the date as given. *)
Definition createNewApiKey (created : string) (st : gateway G) : gateway G :=
  let (k, g1) := generateApiKey st.(rng) in
  let (id, g2) := generateUUID g1 in
  let kd := mkKey (string_of_list_ascii k) (string_of_list_ascii id) created 0 0 in
  saveApiKeys (mkGateway (st.(apiKeys) ++ [kd]) st.(walletBalance) st.(currentInvoice)
                 st.(storage) st.(calling) st.(waiting) g2 st.(paid_calls)).

(** [deleteApiKey(keyId)], lines 250-257: [findIndex], then [splice]. *)
Definition deleteApiKey (keyId : string) (st : gateway G) : gateway G :=
  match list_find (fun kd => kd.(kid) = keyId) st.(apiKeys) with
  | Some (i, _) => saveApiKeys (with_keys (delete i st.(apiKeys)) st)
  | None => st
  end.

(** [validateApiKey(apiKey)], lines 264-266. *)
Definition validateApiKey (apiKey : string) (st : gateway G) : option keyData :=
  snd <$> list_find (fun kd => kd.(key) = apiKey) st.(apiKeys).

(** [updateApiKeyUsage(apiKey, charged)], lines 273-280: the object
    [find] returns is updated in place. *)
Definition updateApiKeyUsage (apiKey : string) (charged : nat) (st : gateway G) : gateway G :=
  match list_find (fun kd => kd.(key) = apiKey) st.(apiKeys) with
  | Some (i, kd) =>
      saveApiKeys (with_keys (<[i := mkKey kd.(key) kd.(kid) kd.(createdAt)
                                        (S kd.(usageCount)) (kd.(totalCharged) + charged)]>
                                st.(apiKeys)) st)
  | None => st
  end.

(** [getWalletBalance()], lines 152-161: the balance in msat over 1000,
    or 0 when the request fails. *)
Definition getWalletBalance (answer : option Q) : Q :=
  match answer with Some b => (b / 1000)%Q | None => 0%Q end.

Definition with_balance (b : Q) (st : gateway G) : gateway G :=
  mkGateway st.(apiKeys) b st.(currentInvoice) st.(storage) st.(calling)
    st.(waiting) st.(rng) st.(paid_calls).

(** [callHelloAPI(apiKey)], lines 291-300, up to [await createInvoice]:
    an unknown key throws before any change ([None]). *)
Definition callHelloAPI_start (apiKey : string) (st : gateway G) : option (gateway G) :=
  match validateApiKey apiKey st with
  | Some _ =>
      Some (mkGateway st.(apiKeys) st.(walletBalance) st.(currentInvoice) st.(storage)
              (Some apiKey) st.(waiting) st.(rng) st.(paid_calls))
  | None => None
  end.

(** Lines 302-310, once the invoice [hash] exists: stored, then
    [waitForPayment]. *)
Definition callHelloAPI_invoice (hash : string) (st : gateway G) : gateway G :=
  mkGateway st.(apiKeys) st.(walletBalance) (Some hash) st.(storage)
    st.(calling) (Some hash) st.(rng) st.(paid_calls).

(** [createInvoice] threw: the call ends. *)
Definition callHelloAPI_invoice_failed (st : gateway G) : gateway G :=
  mkGateway st.(apiKeys) st.(walletBalance) st.(currentInvoice) st.(storage)
    None st.(waiting) st.(rng) st.(paid_calls).

(** Lines 312-328, once [waitForPayment] resolves with [paid]. *)
Definition callHelloAPI_done (paid : bool) (st : gateway G) : gateway G :=
  let st1 := mkGateway st.(apiKeys) st.(walletBalance) st.(currentInvoice) st.(storage)
               None None st.(rng) st.(paid_calls) in
  match st.(calling) with
  | Some apiKey => if paid then updateApiKeyUsage apiKey API_COST_SATS st1 else st1
  | None => st1
  end.

(** JavaScript's white space and line terminators below 256: tab, LF,
    VT, FF, CR, space and no-break space (U+00A0). *)
Definition js_space (c : ascii) : bool :=
  bool_decide (N_of_ascii c ∈ [9; 10; 11; 12; 13; 32; 160]%N).

Fixpoint drop_space (s : Abi.str) : Abi.str :=
  match s with
  | c :: rest => if js_space c then drop_space rest else s
  | [] => []
  end.

(** [String.prototype.trim]. *)
Definition trim (s : Abi.str) : Abi.str := reverse (drop_space (reverse (drop_space s))).

(** [apiKeyInput?.value?.trim()], line 513: the value of
    [#test-api-key] trimmed, [undefined] (falsy, as [""]) when the
    input is missing. *)
Definition test_key (input : option string) : string :=
  default "" (string_of_list_ascii ∘ trim ∘ list_ascii_of_string <$> input).

(** [handleTestAPI()], lines 511-529, up to [callHelloAPI]'s [await
    createInvoice]: an empty key is refused with a warning, an unknown
    one with [API error: Invalid API Key]; the alert is [inl]. *)
Definition handleTestAPI_start (input : option string) (st : gateway G) : string + gateway G :=
  let apiKey := test_key input in
  if String.eqb apiKey "" then inl "Please enter an API Key"
  else match callHelloAPI_start apiKey st with
       | Some st' => inr st'
       | None => inl "API error: Invalid API Key"
       end.

(** Ghost: count the call when one of the [n] answers was paid. *)
Definition count_paid (ans : nat -> check) (n : nat) (st : gateway G) : gateway G :=
  if existsb (fun k => bool_decide (ans k = Answer true)) (seq 1 n)
  then mkGateway st.(apiKeys) st.(walletBalance) st.(currentInvoice) st.(storage)
         st.(calling) st.(waiting) st.(rng) (S st.(paid_calls))
  else st.

(** A page load: a fresh [appState], [initializeApp]'s [loadApiKeys]
    (lines 571-590); [localStorage] and the generator survive. *)
Definition reload (st : gateway G) : gateway G :=
  loadApiKeys (mkGateway [] 0 None st.(storage) None None st.(rng) st.(paid_calls)).

End Store.

Section Steps.
Context {G : Type} `{MathLib G}.
Variable poll : poller.

Inductive step : gateway G -> gateway G -> Prop :=
  | st_create st created : step st (createNewApiKey created st)
  | st_delete st keyId : step st (deleteApiKey keyId st)
  | st_call st input st' :
      st.(calling) = None -> handleTestAPI_start input st = inr st' -> step st st'
  | st_invoice st hash :
      is_Some st.(calling) -> st.(waiting) = None -> step st (callHelloAPI_invoice hash st)
  | st_invoice_failed st :
      is_Some st.(calling) -> st.(waiting) = None -> step st (callHelloAPI_invoice_failed st)
  | st_paid st hash ans paid n :
      st.(waiting) = Some hash -> poll.(run) 60 ans = Some (paid, n) ->
      step st (callHelloAPI_done paid (count_paid ans n st))
  | st_balance st answer : step st (with_balance (getWalletBalance answer) st)
  | st_reload st : step st (reload st).

Definition first_visit (g : G) : gateway G := mkGateway [] 0 None NoKeys None None g 0.

Inductive reachable : gateway G -> Prop :=
  | reach_init g : reachable (first_visit g)
  | reach_step st st' : reachable st -> step st st' -> reachable st'.
End Steps.

(** ** Generator lemmas *)

Definition hex_digits : Abi.str := Abi.lit "0123456789abcdef".

(** What a UUID character must be for template character [t]. *)
Definition uuid_char_ok (t c : ascii) : bool :=
  if bool_decide (t = "x"%char) then bool_decide (c ∈ hex_digits)
  else if bool_decide (t = "y"%char) then bool_decide (c ∈ Abi.lit "89ab")
  else bool_decide (c = t).

(** ** The type of a stored key *)

(** The shape [generateApiKey] gives: ["qbhk_"] and 32 characters of
    [chars]. *)
Definition apikey_typed (k : Abi.str) : bool :=
  bool_decide (take 5 k = Abi.lit "qbhk_") && bool_decide (length k = 37%nat) &&
  forallb (fun c => bool_decide (c ∈ chars)) (drop 5 k).

(** The shape [generateUUID] gives: the template with its [x] and [y]
    filled in. *)
Definition uuid_typed (u : Abi.str) : bool :=
  bool_decide (Forall2 (fun t c => uuid_char_ok t c = true) uuid_template u).

(** The type of an entry of [appState.apiKeys]: its [key] and [id] as
    the generators make them ([usageCount] and [totalCharged] are
    naturals by construction). *)
Definition key_typed (kd : keyData) : bool :=
  apikey_typed (list_ascii_of_string kd.(key)) && uuid_typed (list_ascii_of_string kd.(kid)).

Definition keys_typed (ks : list keyData) : Prop := Forall (fun kd => key_typed kd = true) ks.

(** The key list and the [localStorage] copy are well typed. *)
Definition store_typed {G} (st : gateway G) : Prop :=
  keys_typed st.(apiKeys) /\
  match st.(storage) with StoredKeys ks => keys_typed ks | _ => True end.

Lemma ToInt32_small x : (0 <= x)%Q -> (Qfloor x < 2 ^ 31)%Z -> ToInt32 x = Qfloor x.
Proof.
  intros Hx Hlt. unfold ToInt32. rewrite (proj2 (Qle_bool_iff 0 x) Hx).
  assert (H0 : (0 <= Qfloor x)%Z) by (change 0%Z with (Qfloor 0); now apply Qfloor_resp_le).
  rewrite Z.mod_small by lia. lia.
Qed.

(** [Math.random() * 16 | 0] is a digit [0 .. 15]. *)
Lemma digit_draw `{MathLibLaws G} g : (0 <= ToInt32 ((math_random g).1 * 16) < 16)%Z.
Proof.
  pose proof (random_range g) as Hu.
  change 16%Q with (inject_Z 16).
  pose proof (floor_scaled_draw _ 16 Hu ltac:(lia)) as Hr.
  rewrite ToInt32_small; [lia| |lia].
  apply Qmult_le_0_compat; [apply Hu | discriminate].
Qed.

Lemma uuid_digit_ok `{MathLibLaws G} c g :
  c = "x"%char \/ c = "y"%char ->
  exists c', (uuid_digit c g).1 = [c'] /\ uuid_char_ok c c' = true.
Proof.
  intros Hc. pose proof (digit_draw g) as Hr. unfold uuid_digit.
  destruct (math_random g) as [u g']. cbn [fst] in *.
  destruct (Z_of_nat_complete_inf (ToInt32 (u * 16)) ltac:(lia)) as [k Ek].
  rewrite Ek in *. cbn [fst].
  assert (Hk : (k < 16)%nat) by lia. clear -Hc Hk.
  destruct Hc as [-> | ->];
    do 16 (destruct k as [|k]; [eexists; split; reflexivity|]); lia.
Qed.

Lemma uuid_char_ok_refl t :
  t <> "x"%char -> t <> "y"%char -> uuid_char_ok t t = true.
Proof.
  intros Hx Hy. unfold uuid_char_ok.
  rewrite !bool_decide_eq_false_2 by assumption. now apply bool_decide_eq_true_2.
Qed.

Lemma replace_xy_ok `{MathLibLaws G} s g :
  Forall2 (fun t c => uuid_char_ok t c = true) s (replace_xy s g).1.
Proof.
  revert g. induction s as [|t s IH]; intros g; cbn [replace_xy]; [constructor|].
  destruct (bool_decide (t = "x"%char)) eqn:Ex, (bool_decide (t = "y"%char)) eqn:Ey; cbn [orb].
  1-3: destruct (uuid_digit_ok t g) as (c' & Ed & Hok);
    [first [left; now apply bool_decide_eq_true_1 in Ex | right; now apply bool_decide_eq_true_1 in Ey]|];
    destruct (uuid_digit t g) as [d g1]; cbn [fst] in Ed; subst d;
    specialize (IH g1); destruct (replace_xy s g1) as [rest g2]; cbn; constructor; auto.
  apply bool_decide_eq_false_1 in Ex, Ey.
  specialize (IH g); destruct (replace_xy s g) as [rest g2]; cbn; constructor; auto.
  now apply uuid_char_ok_refl.
Qed.

Lemma charAt_chars (u : Q) :
  (0 <= u < 1)%Q ->
  exists c, charAt chars (Qfloor (u * inject_Z (Z.of_nat (length chars)))) = [c] /\ c ∈ chars.
Proof.
  intros Hu. pose proof (floor_scaled_draw u (Z.of_nat (length chars)) Hu ltac:(cbn; lia)) as Hi.
  set (i := Qfloor _) in *. unfold charAt.
  rewrite (proj2 (Z.leb_le 0 i)) by lia.
  destruct (lookup_lt_is_Some_2 chars (Z.to_nat i) ltac:(lia)) as [c Hc].
  rewrite Hc. exists c. split; [reflexivity|]. exact (list_elem_of_lookup_2 _ _ _ Hc).
Qed.

Lemma generateApiKey_loop_ok `{MathLibLaws G} n g acc :
  exists cs, (generateApiKey_loop n g acc).1 = acc ++ cs /\ length cs = n /\
    Forall (fun c => c ∈ chars) cs.
Proof.
  revert g acc. induction n as [|n IH]; intros g acc; cbn [generateApiKey_loop].
  - exists []. rewrite app_nil_r. auto.
  - pose proof (random_range g) as Hu. destruct (math_random g) as [u g']. cbn [fst] in Hu.
    destruct (charAt_chars u Hu) as (c & Ec & Hc). rewrite Ec.
    destruct (IH g' (acc ++ [c])) as (cs & E & L & F).
    exists (c :: cs). rewrite E, <- app_assoc. cbn. auto.
Qed.

Lemma generateApiKey_typed `{MathLibLaws G} (g : G) : apikey_typed (generateApiKey g).1 = true.
Proof.
  unfold generateApiKey. destruct (generateApiKey_loop_ok 32 g (Abi.lit "qbhk_")) as (cs & E & L & F).
  rewrite E. unfold apikey_typed. rewrite take_app_length', drop_app_length', length_app, L by done.
  rewrite !bool_decide_eq_true_2 by done. cbn [andb].
  apply forallb_forall. intros c Hc. apply bool_decide_eq_true_2.
  rewrite Forall_forall in F. apply F, list_elem_of_In, Hc.
Qed.

Lemma generateUUID_typed `{MathLibLaws G} (g : G) : uuid_typed (generateUUID g).1 = true.
Proof. apply bool_decide_eq_true_2, replace_xy_ok. Qed.

(** ** Trimming *)

Lemma drop_space_spaces pre s :
  Forall (fun c => js_space c = true) pre -> drop_space (pre ++ s) = drop_space s.
Proof. induction 1 as [|c pre Hc _ IH]; [done|]. cbn. by rewrite Hc. Qed.

Lemma drop_space_keep c s : js_space c = false -> drop_space (c :: s) = c :: s.
Proof. intros Hc. cbn. by rewrite Hc. Qed.

(** No character of a generated key is white space. *)
Lemma apikey_no_space k :
  apikey_typed k = true -> Forall (fun c => js_space c = false) k /\ k <> [].
Proof.
  unfold apikey_typed. intros Hk. apply andb_true_iff in Hk as [Hk Hd].
  apply andb_true_iff in Hk as [Ht Hl]. apply bool_decide_eq_true_1 in Ht, Hl.
  split; [|intros ->; discriminate].
  rewrite <- (take_drop 5 k), Ht. apply Forall_app. split; [repeat constructor|].
  apply Forall_forall. intros c Hc. rewrite forallb_forall in Hd.
  specialize (Hd c (proj1 (list_elem_of_In _ _) Hc)). apply bool_decide_eq_true_1 in Hd.
  assert (Hall : Forall (fun c => js_space c = false) chars) by (apply (bool_decide_unpack _); vm_compute; exact I).
  rewrite Forall_forall in Hall. exact (Hall c Hd).
Qed.

(** [trim] gives back a generated key from around any white space. *)
Lemma trim_apikey k pre post :
  apikey_typed k = true ->
  Forall (fun c => js_space c = true) pre -> Forall (fun c => js_space c = true) post ->
  trim (pre ++ k ++ post) = k.
Proof.
  intros Hk Hpre Hpost. destruct (apikey_no_space k Hk) as [Hns Hne].
  unfold trim. rewrite drop_space_spaces by exact Hpre.
  destruct k as [|c k']; [done|]. inversion Hns as [|? ? Hc Hk']; subst.
  cbn [app]. rewrite drop_space_keep by exact Hc.
  rewrite reverse_cons, reverse_app, <- app_assoc, drop_space_spaces
    by (by apply Forall_reverse).
  destruct (reverse k') as [|d r] eqn:Er.
  - cbn [app]. rewrite drop_space_keep by exact Hc.
    apply (f_equal reverse) in Er. rewrite reverse_involutive in Er. by subst k'.
  - assert (Hd : js_space d = false).
    { assert (d ∈ k') as Hin by (rewrite <- elem_of_reverse, Er; left).
      rewrite Forall_forall in Hk'. exact (Hk' d Hin). }
    cbn [app]. rewrite drop_space_keep by exact Hd.
    change (d :: r ++ [c]) with ((d :: r) ++ [c]).
    by rewrite <- Er, reverse_app, reverse_involutive.
Qed.

(** ** Store lemmas *)

Definition sum_usage (ks : list keyData) : nat := sum_list_with usageCount ks.

Definition charged_ok (ks : list keyData) : Prop :=
  Forall (fun kd => kd.(totalCharged) = kd.(usageCount) * API_COST_SATS) ks.

Definition keys_ok (ks : list keyData) (paid : nat) : Prop :=
  charged_ok ks /\ sum_usage ks <= paid.

Definition store_ok {G} (st : gateway G) : Prop :=
  keys_ok st.(apiKeys) st.(paid_calls) /\
  match st.(storage) with StoredKeys ks => keys_ok ks st.(paid_calls) | _ => True end.

Lemma sum_usage_delete_le ks i : sum_usage (delete i ks) <= sum_usage ks.
Proof.
  unfold sum_usage. revert i.
  induction ks as [|x ks IH]; intros [|i]; [reflexivity | reflexivity | |].
  - change (delete 0 (x :: ks)) with ks. cbn [sum_list_with]. lia.
  - change (delete (S i) (x :: ks)) with (x :: delete i ks). cbn [sum_list_with].
    specialize (IH i). lia.
Qed.

Lemma sum_usage_insert ks i kd x :
  ks !! i = Some kd -> sum_usage (<[i := x]> ks) + kd.(usageCount) = sum_usage ks + x.(usageCount).
Proof.
  unfold sum_usage. revert i.
  induction ks as [|y ks IH]; intros [|i] Hi; cbn in Hi; try discriminate.
  - injection Hi as ->. change (<[0 := x]> (kd :: ks)) with (x :: ks). cbn [sum_list_with]. lia.
  - change (<[S i := x]> (y :: ks)) with (y :: <[i := x]> ks). cbn [sum_list_with].
    specialize (IH i Hi). lia.
Qed.

Lemma keys_ok_delete ks i paid : keys_ok ks paid -> keys_ok (delete i ks) paid.
Proof.
  intros [Hc Hs]. split; [now apply Forall_delete|].
  pose proof (sum_usage_delete_le ks i). lia.
Qed.

Lemma keys_ok_use ks i kd paid :
  ks !! i = Some kd -> keys_ok ks paid ->
  keys_ok (<[i := mkKey kd.(key) kd.(kid) kd.(createdAt) (S kd.(usageCount))
                   (kd.(totalCharged) + API_COST_SATS)]> ks) (S paid).
Proof.
  intros Hi [Hc Hs]. pose proof (sum_usage_insert ks i kd
    (mkKey kd.(key) kd.(kid) kd.(createdAt) (S kd.(usageCount)) (kd.(totalCharged) + API_COST_SATS)) Hi)
    as Hsum.
  cbn in Hsum. split; [|lia]. unfold charged_ok in *.
  apply Forall_insert; [exact Hc|]. cbn.
  rewrite Forall_lookup in Hc. rewrite (Hc i kd Hi). unfold API_COST_SATS. lia.
Qed.

Lemma keys_ok_weaken ks paid paid' : keys_ok ks paid -> paid <= paid' -> keys_ok ks paid'.
Proof. intros [Hc Hs] Hle. split; [exact Hc | lia]. Qed.

Lemma handleTestAPI_start_inv {G} `{MathLib G} input (st st' : gateway G) :
  handleTestAPI_start input st = inr st' -> exists k, callHelloAPI_start k st = Some st'.
Proof.
  unfold handleTestAPI_start. destruct (String.eqb _ _); [discriminate|].
  destruct (callHelloAPI_start _ _) eqn:E; [|discriminate]. intros [= <-]. eauto.
Qed.

Section StoreInvariant.
Context {G : Type} `{MathLib G}.
Variable poll : poller.
Hypothesis poll_ok : poller_correct poll.

Lemma save_ok (st : gateway G) : keys_ok st.(apiKeys) st.(paid_calls) -> store_ok (saveApiKeys st).
Proof. intros Hk. split; exact Hk. Qed.

Lemma update_usage_ok (st : gateway G) apiKey :
  store_ok st ->
  store_ok (updateApiKeyUsage apiKey API_COST_SATS
              (mkGateway st.(apiKeys) st.(walletBalance) st.(currentInvoice) st.(storage)
                 None None st.(rng) (S st.(paid_calls)))) \/
  list_find (fun kd => kd.(key) = apiKey) st.(apiKeys) = None.
Proof.
  intros [Hk Hs]. unfold updateApiKeyUsage. cbn [apiKeys].
  destruct (list_find _ _) as [[i kd]|] eqn:Ef; [left|right; reflexivity].
  apply list_find_Some in Ef as (Hi & _ & _).
  apply save_ok. cbn. exact (keys_ok_use _ i kd _ Hi Hk).
Qed.

(** A run of the poller that resolves paid saw a paid answer among the
    requests it made, so [count_paid] counts the call. *)
Lemma paid_run_counted ans n :
  poll.(run) 60 ans = Some (true, n) ->
  existsb (fun k => bool_decide (ans k = Answer true)) (seq 1 n) = true.
Proof.
  rewrite poll_ok. intros Hrun. injection Hrun as E.
  destruct (poll_spec_paid _ _ _ E) as (Hn & Hr & _).
  apply existsb_exists. exists n. split; [apply in_seq; lia|]. now apply bool_decide_eq_true_2.
Qed.

Lemma step_store_ok (st st' : gateway G) : store_ok st -> step poll st st' -> store_ok st'.
Proof.
  intros Hok Hs. destruct Hs as [st created | st keyId | st apiKey st' Hc Hstart
    | st hash Hc Hw | st Hc Hw | st hash ans paid n Hw Hrun | st answer | st].
  - unfold createNewApiKey. destruct (generateApiKey (rng st)) as [k g1].
    destruct (generateUUID g1) as [id g2]. apply save_ok. cbn.
    destruct Hok as [[Hc Hsum] _]. split.
    + apply Forall_app. split; [exact Hc|]. repeat constructor.
    + unfold sum_usage in *. rewrite sum_list_with_app. cbn. lia.
  - unfold deleteApiKey. destruct (list_find _ _) as [[i kd]|]; [|exact Hok].
    apply save_ok. apply keys_ok_delete, Hok.
  - destruct (handleTestAPI_start_inv _ _ _ Hstart) as [k Hk].
    unfold callHelloAPI_start in Hk. destruct (validateApiKey _ _); [|discriminate].
    injection Hk as <-. exact Hok.
  - exact Hok.
  - exact Hok.
  - unfold count_paid.
    destruct (existsb _ _) eqn:Ex; unfold callHelloAPI_done; cbn [calling].
    + destruct (calling st) as [apiKey|]; [destruct paid|].
      * destruct (update_usage_ok st apiKey Hok) as [Hu|Hnone]; [exact Hu|].
        unfold updateApiKeyUsage. cbn [apiKeys]. rewrite Hnone.
        destruct Hok as [Hk Hs]. split; [apply (keys_ok_weaken _ _ _ Hk); cbn; lia|].
        cbn. destruct (storage st); auto. apply (keys_ok_weaken _ _ _ Hs); lia.
      * destruct Hok as [Hk Hs]. split; [apply (keys_ok_weaken _ _ _ Hk); cbn; lia|].
        cbn. destruct (storage st); auto. apply (keys_ok_weaken _ _ _ Hs); lia.
      * destruct Hok as [Hk Hs]. split; [apply (keys_ok_weaken _ _ _ Hk); cbn; lia|].
        cbn. destruct (storage st); auto. apply (keys_ok_weaken _ _ _ Hs); lia.
    + assert (Hpaid : paid = false).
      { destruct paid; [|reflexivity]. rewrite (paid_run_counted _ _ Hrun) in Ex. discriminate. }
      subst paid. destruct (calling st); exact Hok.
  - exact Hok.
  - unfold reload, loadApiKeys. cbn. destruct Hok as [_ Hs].
    destruct (storage st) as [|ks|]; cbn.
    + split; [split; [constructor | cbn; lia] | exact I].
    + split; exact Hs.
    + split; [split; [constructor | cbn; lia] | exact I].
Qed.

Lemma reachable_store_ok (st : gateway G) : reachable poll st -> store_ok st.
Proof.
  induction 1 as [g|st st' _ IH Hs]; [|exact (step_store_ok st st' IH Hs)].
  split; [split; [constructor | cbn; lia] | exact I].
Qed.
(** (C32) A confirmed payment can be counted on no key: when the key of
    the pending [callHelloAPI] is no longer in the store (deleted while
    [waitForPayment] ran), the paid completion is a step of the page,
    the call is counted as paid, and [updateApiKeyUsage] finds no key to
    charge, so every key keeps its uses and charges. *)
Theorem paid_call_unrecorded (st : gateway G) apiKey hash ans n :
  st.(calling) = Some apiKey -> st.(waiting) = Some hash -> validateApiKey apiKey st = None ->
  poll.(run) 60 ans = Some (true, n) ->
  let st' := callHelloAPI_done true (count_paid ans n st) in
  step poll st st' /\ st'.(paid_calls) = S st.(paid_calls) /\ st'.(apiKeys) = st.(apiKeys) /\
  st'.(calling) = None.
Proof.
  intros Hc Hw Hv Hrun st'. split; [eapply st_paid; eauto|].
  unfold st', count_paid. rewrite (paid_run_counted _ _ Hrun).
  unfold callHelloAPI_done, updateApiKeyUsage, validateApiKey in *. cbn. rewrite Hc. cbn.
  destruct (list_find _ (apiKeys st)); [discriminate|]. done.
Qed.
End StoreInvariant.

Section TypeInvariant.
Context {G : Type} `{MathLibLaws G}.
Variable poll : poller.

Lemma save_typed (st : gateway G) : keys_typed st.(apiKeys) -> store_typed (saveApiKeys st).
Proof. intros Hk. split; exact Hk. Qed.

(** The in-place update of [updateApiKeyUsage] keeps [key] and [id]. *)
Lemma update_usage_typed (st : gateway G) apiKey charged :
  store_typed st -> store_typed (updateApiKeyUsage apiKey charged st).
Proof.
  intros [Hk Hs]. unfold updateApiKeyUsage.
  destruct (list_find _ _) as [[i kd]|] eqn:Ef; [|split; assumption].
  apply list_find_Some in Ef as (Hi & _ & _). apply save_typed. cbn.
  apply Forall_insert; [exact Hk|]. cbn. unfold keys_typed in Hk. rewrite Forall_lookup in Hk.
  exact (Hk i kd Hi).
Qed.

Lemma step_store_typed (st st' : gateway G) : store_typed st -> step poll st st' -> store_typed st'.
Proof.
  intros Hok Hs. destruct Hs as [st created | st keyId | st input st' Hc Hstart
    | st hash Hc Hw | st Hc Hw | st hash ans paid n Hw Hrun | st answer | st].
  - unfold createNewApiKey. pose proof (generateApiKey_typed (rng st)) as Hk.
    destruct (generateApiKey (rng st)) as [k g1]. pose proof (generateUUID_typed g1) as Hu.
    destruct (generateUUID g1) as [id g2]. apply save_typed. cbn.
    apply Forall_app. split; [apply Hok|]. constructor; [|constructor].
    unfold key_typed. cbn. rewrite !list_ascii_of_string_of_list_ascii. cbn in Hk, Hu.
    by rewrite Hk, Hu.
  - unfold deleteApiKey. destruct (list_find _ _) as [[i kd]|]; [|exact Hok].
    apply save_typed, Forall_delete, Hok.
  - destruct (handleTestAPI_start_inv _ _ _ Hstart) as [k Hk].
    unfold callHelloAPI_start in Hk. destruct (validateApiKey _ _); [|discriminate].
    injection Hk as <-. exact Hok.
  - exact Hok.
  - exact Hok.
  - unfold callHelloAPI_done, count_paid.
    destruct (existsb _ _), (calling st) as [apiKey|], paid;
      try apply update_usage_typed; exact Hok.
  - exact Hok.
  - unfold reload, loadApiKeys. destruct Hok as [_ Hs]. cbn.
    destruct (storage st); repeat split; try constructor; exact Hs.
Qed.

Lemma reachable_store_typed (st : gateway G) : reachable poll st -> store_typed st.
Proof.
  induction 1 as [g|st st' _ IH Hs]; [split; [constructor | exact I]|].
  exact (step_store_typed st st' IH Hs).
Qed.
End TypeInvariant.

Lemma filter_keep {A} (f : A -> bool) (l : list A) :
  Forall (fun x => f x = true) l -> List.filter f l = l.
Proof. induction 1 as [|x l Hx _ IH]; cbn; [reflexivity|]. now rewrite Hx, IH. Qed.

(** [findIndex] then [splice] on keys with distinct ids removes the key
    with the given id and nothing else. *)
Lemma delete_found_filter ks keyId :
  NoDup (map kid ks) ->
  match list_find (fun kd => kd.(kid) = keyId) ks with
  | Some (i, _) => delete i ks
  | None => ks
  end = List.filter (fun kd => negb (bool_decide (kd.(kid) = keyId))) ks.
Proof.
  induction ks as [|x ks IH]; intros Hnd; [reflexivity|].
  cbn in Hnd. apply NoDup_cons in Hnd as [Hx Hnd].
  cbn [list_find]. cbn [List.filter].
  destruct (decide (kid x = keyId)) as [<-|Hne].
  - rewrite bool_decide_eq_true_2 by reflexivity. cbn [negb].
    change (delete 0 (x :: ks)) with ks. symmetry. apply filter_keep.
    apply Forall_forall. intros y Hy. rewrite bool_decide_eq_false_2; [reflexivity|].
    intros E. apply Hx. apply list_elem_of_In, in_map_iff.
    exists y. split; [exact E | now apply list_elem_of_In].
  - rewrite bool_decide_eq_false_2 by exact Hne. cbn [negb].
    rewrite <- (IH Hnd). destruct (list_find _ ks) as [[i y]|]; cbn; reflexivity.
Qed.

(** ** Theorems on the store *)

(** (C30) On every reachable state of the gateway page, each key has
    been charged exactly [API_COST_SATS] per use, and the uses counted
    over all keys never exceed the calls LNbits confirmed as paid:
    [callHelloAPI] counts a use only after [waitForPayment] saw a paid
    answer. *)
Theorem reachable_usage_paid {G : Type} `{MathLib G} (st : gateway G) :
  reachable gateway_poller st ->
  charged_ok st.(apiKeys) /\ sum_usage st.(apiKeys) <= st.(paid_calls).
Proof.
  intros Hr. exact (proj1 (reachable_store_ok gateway_poller gateway_poller_correct st Hr)).
Qed.

(** [deleteApiKey] on keys with distinct ids removes exactly the
    key with the given id and saves the list; an unknown id changes
    nothing. *)
Theorem deleteApiKey_spec {G : Type} (st : gateway G) keyId :
  NoDup (map kid st.(apiKeys)) ->
  (deleteApiKey keyId st).(apiKeys) =
    List.filter (fun kd => negb (bool_decide (kd.(kid) = keyId))) st.(apiKeys) /\
  ((exists kd, kd ∈ st.(apiKeys) /\ kd.(kid) = keyId) ->
     (deleteApiKey keyId st).(storage) = StoredKeys (deleteApiKey keyId st).(apiKeys)) /\
  ((forall kd, kd ∈ st.(apiKeys) -> kd.(kid) <> keyId) -> deleteApiKey keyId st = st).
Proof.
  intros Hnd. pose proof (delete_found_filter st.(apiKeys) keyId Hnd) as Hf.
  unfold deleteApiKey. split; [|split].
  - destruct (list_find _ _) as [[i kd]|]; cbn; exact Hf.
  - intros (kd & Hin & Hk).
    destruct (list_find_elem_of (fun kd => kd.(kid) = keyId) _ kd Hin Hk) as [[i y] ->].
    reflexivity.
  - intros Hnone. replace (list_find _ _) with (@None (nat * keyData)); [reflexivity|].
    symmetry. apply list_find_None. apply Forall_forall. intros kd Hin.
    exact (Hnone kd Hin).
Qed.

(** A first visit with a Park-Miller [Math.random], one key created,
    a call started with it, its invoice, and the key deleted while the
    payment is awaited. *)
Definition gw_created : gateway Z :=
  @createNewApiKey Z Annealer.park_miller "2026-01-01T00:00:00.000Z" (first_visit 42%Z).
Definition gw_key : string := default "" (key <$> head gw_created.(apiKeys)).
Definition gw_id : string := default "" (kid <$> head gw_created.(apiKeys)).
Definition gw_calling : gateway Z := default gw_created (callHelloAPI_start gw_key gw_created).
Definition gw_waiting : gateway Z := callHelloAPI_invoice "hash1" gw_calling.
Definition gw_deleted : gateway Z := deleteApiKey gw_id gw_waiting.
Lemma gw_created_reachable : @reachable Z Annealer.park_miller gateway_poller gw_created.
Proof. eapply reach_step; [apply reach_init | apply st_create]. Qed.

Lemma gw_deleted_reachable : @reachable Z Annealer.park_miller gateway_poller gw_deleted.
Proof.
  apply (reach_step _ gw_waiting); [|apply st_delete].
  apply (reach_step _ gw_calling); [|apply st_invoice; vm_compute; [eexists|]; reflexivity].
  apply (reach_step _ gw_created); [exact gw_created_reachable|].
  apply (st_call _ _ (Some gw_key)); vm_compute; reflexivity.
Qed.

(** ** Theorems on the generators *)

(** (C29) Whatever [Math.random] draws in [[0, 1)], [generateUUID]
    returns the template with every [x] replaced by a lower-case hex
    digit and the [y] by one of [8 9 a b]: 36 characters, version digit
    ['4'] at index 14, an RFC 4122 variant digit at index 19. *)
Theorem generateUUID_format `{MathLibLaws G} (g : G) :
  Forall2 (fun t c => uuid_char_ok t c = true) uuid_template (generateUUID g).1 /\
  length (generateUUID g).1 = 36%nat /\
  (generateUUID g).1 !! 14%nat = Some "4"%char /\
  exists c, (generateUUID g).1 !! 19%nat = Some c /\ c ∈ Abi.lit "89ab".
Proof.
  pose proof (replace_xy_ok uuid_template g) as Hf. unfold generateUUID.
  split; [exact Hf|]. split; [rewrite <- (Forall2_length _ _ _ Hf); reflexivity|].
  destruct (Forall2_lookup_l _ _ _ 14 "4"%char Hf eq_refl) as (c4 & E4 & H4).
  destruct (Forall2_lookup_l _ _ _ 19 "y"%char Hf eq_refl) as (c19 & E19 & H19).
  unfold uuid_char_ok in H4, H19. cbn in H4, H19.
  apply bool_decide_eq_true_1 in H4, H19. subst c4.
  split; [exact E4|]. eauto.
Qed.

(** Whatever [Math.random] draws in [[0, 1)], [generateApiKey]
    returns ["qbhk_"] followed by exactly 32 characters of [chars]. *)
Theorem generateApiKey_format `{MathLibLaws G} (g : G) :
  take 5 (generateApiKey g).1 = Abi.lit "qbhk_" /\ length (generateApiKey g).1 = 37%nat /\
  Forall (fun c => c ∈ chars) (drop 5 (generateApiKey g).1).
Proof.
  unfold generateApiKey. destruct (generateApiKey_loop_ok 32 g (Abi.lit "qbhk_")) as (cs & E & L & F).
  rewrite E. split; [|split].
  - rewrite take_app_length'; reflexivity.
  - rewrite length_app, L. reflexivity.
  - rewrite drop_app_length'; [exact F | reflexivity].
Qed.

(** ** Witnesses *)

Lemma generateUUID_format_witness :
  (@generateUUID Z Annealer.park_miller 42%Z).1 !! 14%nat = Some "4"%char /\
  length (@generateUUID Z Annealer.park_miller 42%Z).1 = 36%nat.
Proof.
  destruct (@generateUUID_format Z Annealer.park_miller Annealer.park_miller_laws 42%Z)
    as (_ & L & E & _).
  split; assumption.
Defined.

Lemma generateApiKey_format_witness :
  length (@generateApiKey Z Annealer.park_miller 7%Z).1 = 37%nat.
Proof.
  exact (proj1 (proj2 (@generateApiKey_format Z Annealer.park_miller Annealer.park_miller_laws 7%Z))).
Defined.

Lemma reachable_usage_paid_witness :
  @reachable Z Annealer.park_miller gateway_poller gw_created /\
  sum_usage gw_created.(apiKeys) <= gw_created.(paid_calls).
Proof.
  split; [exact gw_created_reachable|].
  exact (proj2 (@reachable_usage_paid Z Annealer.park_miller gw_created gw_created_reachable)).
Defined.

Lemma deleteApiKey_spec_witness :
  NoDup (map kid gw_created.(apiKeys)) /\ (deleteApiKey gw_id gw_created).(apiKeys) = [].
Proof.
  assert (Hnd : NoDup (map kid gw_created.(apiKeys))).
  { vm_compute. apply NoDup_singleton. }
  split; [exact Hnd|].
  rewrite (proj1 (deleteApiKey_spec gw_created gw_id Hnd)). vm_compute. reflexivity.
Defined.

Lemma paid_call_unrecorded_witness :
  let st' := callHelloAPI_done true (count_paid (fun _ => Answer true) 1 gw_deleted) in
  @reachable Z Annealer.park_miller gateway_poller gw_deleted /\
  @step Z Annealer.park_miller gateway_poller gw_deleted st' /\
  st'.(paid_calls) = S gw_deleted.(paid_calls) /\ st'.(apiKeys) = gw_deleted.(apiKeys).
Proof.
  destruct (@paid_call_unrecorded Z Annealer.park_miller gateway_poller gateway_poller_correct
              gw_deleted gw_key "hash1" (fun _ => Answer true) 1
              ltac:(vm_compute; reflexivity) ltac:(vm_compute; reflexivity)
              ltac:(vm_compute; reflexivity) ltac:(vm_compute; reflexivity))
    as (Hs & Hp & Hk & _).
  split; [exact gw_deleted_reachable|]. split; [exact Hs|]. split; [exact Hp|exact Hk].
Defined.

End Gateway.
