(* ===== verification/GatewayUI.v ===== *)
(** * The gateway page's configuration and rendering

    src/config.js with its [process.env] overrides.  src/app.js:
    [formatSats] (lines 62-64) with [NumberFormat.format_number],
    [renderApiKeys] (lines 338-375), [updateStats] (lines 380-397),
    [displayInvoice] (lines 403-436), [showAlert] (lines 93-108), the
    object [callHelloAPI] resolves with (lines 312-328) and the
    configuration check of [initializeApp] (lines 574-577); the
    handlers that use them are in [GatewayPage].  The HTML that [renderApiKeys] writes is modelled
    by its interpolated parts, row by row: the key, the usage, the
    formatted charge and the two [onclick] handlers, whose string
    arguments are quoted with ['] by the template; the static markup
    and [toLocaleString] of the creation date are left out.  The type
    invariant of the key store ([Gateway.store_typed]) is what makes
    that quoting sound. *)

From Stdlib Require Import QArith Qabs Qround ZArith NArith Ascii String.
From stdpp Require Import base list strings pretty.
From S2P Require Import Prelude Abi NumberFormat Polling Http Annealer Gateway.

Module GatewayUI.
Import Gateway.

(** ** The configuration (src/config.js) *)

Record gateway_config := mkGatewayConfig {
  LNBITS_URL : string;
  LNBITS_INVOICE_KEY : string;
  LNBITS_ADMIN_KEY : string;
  API_COST : nat;                       (** [API_COST_SATS] *)
  PROJECT_NAME : string;
  BASE_URL : string
}.

(** [pathname.replace(/\/$/, '')]: one trailing slash removed. *)
Definition strip_trailing_slash (s : string) : string :=
  let l := list_ascii_of_string s in
  match last l with
  | Some c => if bool_decide (c = "/"%char) then string_of_list_ascii (take (length l - 1) l) else s
  | None => s
  end.

(** The object literal of lines 12-36, for the page's [window.location]. *)
Definition CONFIG_literal (origin pathname : string) : gateway_config :=
  mkGatewayConfig Http.LNBITS_URL Http.LNBITS_INVOICE_KEY "YOUR_ADMIN_KEY_HERE" API_COST_SATS
    "Qubitchain Gateway" (origin ++ strip_trailing_slash pathname).

(** [process.env] at build time: the three variables, each unset
    ([None]) or a string; an empty string is falsy and overrides nothing. *)
Record build_env := mkEnv { env_url : option string; env_invoice : option string; env_admin : option string }.

Definition override (v : option string) (cur : string) : string :=
  match v with Some s => if String.eqb s "" then cur else s | None => cur end.

(** Lines 40-50: with [process] defined ([Some env]), each set variable
    replaces its field. *)
Definition CONFIG (origin pathname : string) (penv : option build_env) : gateway_config :=
  let c := CONFIG_literal origin pathname in
  match penv with
  | None => c
  | Some e => mkGatewayConfig (override e.(env_url) c.(LNBITS_URL))
                (override e.(env_invoice) c.(LNBITS_INVOICE_KEY))
                (override e.(env_admin) c.(LNBITS_ADMIN_KEY))
                c.(API_COST) c.(PROJECT_NAME) c.(BASE_URL)
  end.

(** Lines 53-56: the console warning when either key is a placeholder. *)
Definition config_warns (c : gateway_config) : bool :=
  String.eqb c.(LNBITS_INVOICE_KEY) "YOUR_INVOICE_KEY_HERE" ||
  String.eqb c.(LNBITS_ADMIN_KEY) "YOUR_ADMIN_KEY_HERE".

(** [formatSats(sats)], lines 62-64. *)
Definition formatSats (sats : Q) : Abi.str := NumberFormat.format_number sats ++ Abi.lit " sats".

(** ** renderApiKeys and updateStats *)

(** The interpolated parts of one [.api-key-item], lines 355-373. *)
Record key_row := mkRow {
  row_key : Abi.str;                    (** [${keyData.key}] *)
  row_usage : Abi.str;                  (** [Usage: ${keyData.usageCount}] *)
  row_charged : Abi.str;                (** [formatSats(keyData.totalCharged)] *)
  copy_onclick : Abi.str;               (** [copyApiKey('${keyData.key}')] *)
  delete_onclick : Abi.str              (** [confirmDeleteApiKey('${keyData.id}')] *)
}.

Definition render_row (kd : keyData) : key_row :=
  let k := list_ascii_of_string kd.(key) in
  mkRow k (Abi.lit (pretty (N.of_nat kd.(usageCount))))
    (formatSats (inject_Z (Z.of_nat kd.(totalCharged))))
    (Abi.lit "copyApiKey('" ++ k ++ Abi.lit "')")
    (Abi.lit "confirmDeleteApiKey('" ++ list_ascii_of_string kd.(kid) ++ Abi.lit "')").

(** [renderApiKeys()]: the empty state ([None]) or one row per key, in
    order. *)
Definition renderApiKeys (ks : list keyData) : option (list key_row) :=
  if bool_decide (length ks = 0%nat) then None else Some (render_row <$> ks).

(** The three texts [updateStats()] sets. *)
Record stats := mkStats {
  balance_text : Abi.str;
  keys_count : nat;
  total_usage : nat
}.

(** [updateStats()], lines 380-397; the [reduce] of line 394 is a left
    fold. *)
Definition updateStats {G} (st : gateway G) : stats :=
  mkStats (formatSats st.(walletBalance)) (length st.(apiKeys))
    (foldl (fun sum k => sum + k.(usageCount))%nat 0%nat st.(apiKeys)).

(** What the page shows of a state: the key list and the statistics. *)
Record view := mkView { keys_view : option (list key_row); stats_view : stats }.

Definition render {G} (st : gateway G) : view := mkView (renderApiKeys st.(apiKeys)) (updateStats st).

(** Characters that would end the quoted argument of an [onclick]
    handler or its attribute, or start markup: the double quote (34),
    [&] (38), the apostrophe (39), [<] (60), [>] (62) and the backslash
    (92). *)
Definition char_safe (c : ascii) : bool :=
  negb (bool_decide (N_of_ascii c ∈ [34; 38; 39; 60; 62; 92]%N)).

Definition attr_safe (s : Abi.str) : bool := forallb char_safe s.

(** ** The invoice display *)

(** The gateway's [displayInvoice(invoice)], lines 403-436: the QR image
    [src], the amount ([CONFIG.API_COST_SATS]) and the invoice text. *)
Record invoice_view := mkInvoiceView { qr_src : Abi.str; amount_text : Abi.str; request_text : Abi.str }.

Definition displayInvoice (payment_request : Abi.str) : invoice_view :=
  mkInvoiceView (Http.displayInvoice_qrCodeUrl payment_request)
    (Abi.lit (pretty (N.of_nat API_COST_SATS))) payment_request.

(** [initializeApp()], lines 574-577: the warning shown when the invoice
    key is still the placeholder. *)
Definition initializeApp_warning (invoiceKey : string) : option string :=
  if String.eqb invoiceKey "YOUR_INVOICE_KEY_HERE"
  then Some "⚠️ LNbits API keys are not configured. Please edit config.js" else None.

(** ** Alerts and the result of a call *)

(** What [showAlert(message, type)] adds, lines 93-108: the message is
    the element's [textContent], so it is never read as markup. *)
Record alert := mkAlert { alert_class : string; textContent : string }.

Definition showAlert (message type : string) : alert := mkAlert ("alert alert-" ++ type) message.

(** The object [callHelloAPI] resolves with, lines 318-324 ([message]
    and [timestamp] left out): [api_key_id] is the id of the entry
    [validateApiKey] returned when the call started. *)
Record hello_response := mkHello { success : bool; credits_charged : nat; api_key_id : string }.

(** Lines 312-328: the outcome once [waitForPayment] resolved with [paid]. *)
Definition callHelloAPI_outcome (kd : keyData) (paid : bool) : Http.result hello_response :=
  if paid then Http.Ok (mkHello true API_COST_SATS kd.(kid))
  else Http.Err "Payment timed out. Please try again.".

(** ** Lemmas *)

Lemma chars_safe : forallb char_safe chars = true.
Proof. reflexivity. Qed.

(** Checked for every template character and every code point. *)
Lemma uuid_chars_safe_check :
  forallb (fun t => forallb (fun n => implb (uuid_char_ok t (ascii_of_N n)) (char_safe (ascii_of_N n)))
                      (N.of_nat <$> seq 0 256)) uuid_template = true.
Proof. vm_compute. reflexivity. Qed.

Lemma uuid_char_ok_safe t c : t ∈ uuid_template -> uuid_char_ok t c = true -> char_safe c = true.
Proof.
  intros Ht Hok. pose proof uuid_chars_safe_check as Hc.
  rewrite forallb_forall in Hc. apply list_elem_of_In in Ht. specialize (Hc t Ht).
  rewrite forallb_forall in Hc. rewrite <- (ascii_N_embedding c) in *.
  specialize (Hc (N_of_ascii c)). rewrite Hok in Hc. apply Hc.
  apply in_map_iff. exists (N.to_nat (N_of_ascii c)). rewrite N2Nat.id. split; [done|].
  apply in_seq. pose proof (N_ascii_bounded c). lia.
Qed.

Lemma apikey_safe k : apikey_typed k = true -> attr_safe k = true.
Proof.
  unfold apikey_typed. intros Hk. apply andb_true_iff in Hk as [Hk Hd].
  apply andb_true_iff in Hk as [Ht _]. apply bool_decide_eq_true_1 in Ht.
  rewrite <- (take_drop 5 k). unfold attr_safe. rewrite forallb_app, Ht. cbn [forallb char_safe].
  apply forallb_forall. intros c Hc. rewrite forallb_forall in Hd.
  specialize (Hd c Hc). apply bool_decide_eq_true_1, list_elem_of_In in Hd.
  pose proof chars_safe as Hs. rewrite forallb_forall in Hs. exact (Hs c Hd).
Qed.

Lemma uuid_safe u : uuid_typed u = true -> attr_safe u = true.
Proof.
  unfold uuid_typed. intros Hu. apply bool_decide_eq_true_1 in Hu.
  unfold attr_safe. apply forallb_forall. intros c Hc. apply list_elem_of_In in Hc.
  destruct (list_elem_of_lookup_1 _ _ Hc) as [i Hi].
  destruct (Forall2_lookup_r _ _ _ _ _ Hu Hi) as (t & Ht & Hok).
  exact (uuid_char_ok_safe t c (list_elem_of_lookup_2 _ _ _ Ht) Hok).
Qed.

(** The rows of typed keys quote only safe text. *)
Lemma render_rows_safe ks :
  keys_typed ks ->
  Forall (fun r => exists k id, attr_safe k = true /\ attr_safe id = true /\
            r.(copy_onclick) = Abi.lit "copyApiKey('" ++ k ++ Abi.lit "')" /\
            r.(delete_onclick) = Abi.lit "confirmDeleteApiKey('" ++ id ++ Abi.lit "')")
    (render_row <$> ks).
Proof.
  intros Hks. apply Forall_fmap. eapply Forall_impl; [exact Hks|].
  intros kd Hkd. apply andb_true_iff in Hkd as [Hk Hi].
  eexists _, _. split; [exact (apikey_safe _ Hk)|]. split; [exact (uuid_safe _ Hi)|]. done.
Qed.

(** ** Theorems *)

(** (C31) The key store is well typed on every reachable state of the
    gateway, whatever [Math.random] draws in [[0, 1)] and whatever the
    poller answers: every entry of [appState.apiKeys] and of its
    [localStorage] copy has a [key] of the form ["qbhk_"] and 32
    characters of [chars] and an [id] that fills the UUID template.  So
    every row [renderApiKeys] writes passes the key and the id to its
    [onclick] handlers inside ['...'] with no character that could end
    the string or the attribute. *)
Theorem reachable_keys_typed `{MathLibLaws G} (poll : Polling.poller) (st : gateway G) :
  reachable poll st ->
  store_typed st /\
  forall rows, renderApiKeys st.(apiKeys) = Some rows ->
    Forall (fun r => exists k id, attr_safe k = true /\ attr_safe id = true /\
              r.(copy_onclick) = Abi.lit "copyApiKey('" ++ k ++ Abi.lit "')" /\
              r.(delete_onclick) = Abi.lit "confirmDeleteApiKey('" ++ id ++ Abi.lit "')") rows.
Proof.
  intros Hr. pose proof (reachable_store_typed poll st Hr) as Ht. split; [exact Ht|].
  intros rows. unfold renderApiKeys. case_bool_decide; [discriminate|].
  intros [= <-]. apply render_rows_safe, Ht.
Qed.

(** A key copied from the list is accepted however it is pasted:
    on every reachable gateway state with no call in flight, typing a
    stored key into [#test-api-key] with any white space before and
    after it makes [handleTestAPI] start [callHelloAPI] with exactly
    that key ([trim] strips the white space and no character of a
    generated key is white space), and the page takes that step. *)
Theorem pasted_key_starts_call `{MathLibLaws G} (poll : Polling.poller) (st : gateway G)
    (kd : keyData) (pre post : Abi.str) :
  reachable poll st -> kd ∈ st.(apiKeys) -> st.(calling) = None ->
  Forall (fun c => js_space c = true) pre -> Forall (fun c => js_space c = true) post ->
  exists st', handleTestAPI_start
                (Some (string_of_list_ascii (pre ++ list_ascii_of_string kd.(key) ++ post))) st = inr st' /\
    st'.(calling) = Some kd.(key) /\ st'.(apiKeys) = st.(apiKeys) /\ step poll st st'.
Proof.
  intros Hr Hin Hc Hpre Hpost.
  destruct (reachable_store_typed poll st Hr) as [Hks _].
  unfold keys_typed in Hks. rewrite Forall_forall in Hks.
  pose proof (Hks kd Hin) as Hkd. apply andb_true_iff in Hkd as [Hk _].
  assert (Hstart : exists st', handleTestAPI_start
                (Some (string_of_list_ascii (pre ++ list_ascii_of_string kd.(key) ++ post))) st = inr st' /\
                st'.(calling) = Some kd.(key) /\ st'.(apiKeys) = st.(apiKeys)).
  { unfold handleTestAPI_start, test_key. cbn [fmap option_fmap option_map default compose].
    rewrite list_ascii_of_string_of_list_ascii, trim_apikey by assumption.
    rewrite string_of_list_ascii_of_string. unfold id.
    destruct (String.eqb_spec kd.(key) "") as [Ee|_].
    { exfalso. destruct (apikey_no_space _ Hk) as [_ Hne]. apply Hne. by rewrite Ee. }
    unfold callHelloAPI_start, validateApiKey.
    destruct (list_find_elem_of (fun kd' => kd'.(key) = kd.(key)) _ kd Hin eq_refl) as [[i y] ->].
    eexists; repeat split; reflexivity. }
  destruct Hstart as (st' & E & Hcall & Hkeys). exists st'. repeat split; try assumption.
  exact (st_call poll st _ st' Hc E).
Qed.

(** ** Witnesses *)

Lemma reachable_keys_typed_witness :
  @reachable Z Annealer.park_miller Polling.gateway_poller gw_created /\ store_typed gw_created.
Proof.
  split; [exact gw_created_reachable|].
  exact (proj1 (@reachable_keys_typed Z Annealer.park_miller Annealer.park_miller_laws
                  Polling.gateway_poller gw_created gw_created_reachable)).
Defined.

Definition gw_kd : keyData := default (mkKey "" "" "" 0 0) (head gw_created.(apiKeys)).

Lemma pasted_key_starts_call_witness :
  @reachable Z Annealer.park_miller Polling.gateway_poller gw_created /\
  exists st', @handleTestAPI_start Z
    (Some (string_of_list_ascii ([" "%char] ++ list_ascii_of_string gw_kd.(key) ++ [ascii_of_nat 10])))
    gw_created = inr st' /\ st'.(calling) = Some gw_kd.(key).
Proof.
  assert (Hin : gw_kd ∈ gw_created.(apiKeys)).
  { apply list_elem_of_In. vm_compute. left. reflexivity. }
  destruct (@pasted_key_starts_call Z Annealer.park_miller Annealer.park_miller_laws
              Polling.gateway_poller gw_created gw_kd [" "%char] [ascii_of_nat 10]
              gw_created_reachable Hin eq_refl
              ltac:(repeat constructor) ltac:(repeat constructor))
    as (st' & E & Hc & _ & _).
  split; [exact gw_created_reachable|]. exists st'. split; assumption.
Defined.

End GatewayUI.
