(* ===== verification/GatewayPage.v ===== *)
(** * The gateway page as a user drives it

    src/app.js as one page: the parts of the DOM the handlers write
    ([#alert-container], the Test API and Refresh Balance buttons,
    [#api-result], [#invoice-display], the key list and the
    statistics) beside [appState], and every handler split at its
    [await]s: [handleGenerateApiKey] (lines 481-485) with the alert of
    [createNewApiKey] (line 242), [confirmDeleteApiKey] (lines 466-472)
    with the alert of [deleteApiKey] (line 255), [copyApiKey] and
    [copyInvoice] (lines 441-459), [handleRefreshBalance] (lines
    490-506) with the alert of [getWalletBalance] (line 158),
    [handleTestAPI] (lines 511-561) around [callHelloAPI] (lines
    291-329), and [initializeApp] (lines 571-590).  The pending
    [getWalletBalance] calls are a list of their waiters, so two
    refreshes in flight settle in any order.

    [page_step] interleaves the handlers; a disabled button takes no
    click.  Every page step is a [Gateway.step] of the page's
    [appState] or leaves it alone, so the theorems on the gateway's
    reachable states hold of the page (refinement).  The Test API
    button is disabled exactly while its call is pending, through the
    [finally] of every path. *)

From Stdlib Require Import QArith String Ascii.
From stdpp Require Import base list strings.
From S2P Require Import Prelude Abi Annealer Polling Http Gateway GatewayUI.

Module GatewayPage.
Import Polling Gateway GatewayUI.

(** ** The DOM *)

(** What [#api-result] shows: the response of lines 531-540 or the
    error of lines 549-553. *)
Inductive result_box := BoxSuccess (r : hello_response) | BoxError (message : string).

(** Who awaits a [getWalletBalance()]: [initializeApp] (line 583), a
    click on Refresh Balance (line 497), or a paid test call, through
    its [await handleRefreshBalance()] (line 545). *)
Inductive balance_waiter := ForInit | ForRefresh | ForTest.

#[global] Instance balance_waiter_eq_dec : EqDecision balance_waiter.
Proof. solve_decision. Defined.

Record dom := mkDom {
  alerts : list alert;                      (** [#alert-container], oldest first *)
  test_busy : bool;                         (** [#test-api-btn].disabled *)
  test_label : string;                      (** its [innerHTML] *)
  refresh_busy : bool;                      (** [#refresh-balance-btn].disabled *)
  refresh_label : string;                   (** its [innerHTML] *)
  api_result : option result_box;           (** [#api-result]; [None]: as loaded *)
  invoice_shown : option invoice_view;      (** [#invoice-display]; [None]: as loaded *)
  keys_shown : option (option (list key_row)); (** [#api-keys-list]; [None]: as loaded *)
  stats_shown : option stats                (** the statistics; [None]: as loaded *)
}.

Definition add_alert (a : alert) (d : dom) : dom :=
  mkDom (d.(alerts) ++ [a]) d.(test_busy) d.(test_label) d.(refresh_busy) d.(refresh_label)
    d.(api_result) d.(invoice_shown) d.(keys_shown) d.(stats_shown).

Definition set_test (busy : bool) (label : string) (d : dom) : dom :=
  mkDom d.(alerts) busy label d.(refresh_busy) d.(refresh_label)
    d.(api_result) d.(invoice_shown) d.(keys_shown) d.(stats_shown).

Definition set_refresh (busy : bool) (label : string) (d : dom) : dom :=
  mkDom d.(alerts) d.(test_busy) d.(test_label) busy label
    d.(api_result) d.(invoice_shown) d.(keys_shown) d.(stats_shown).

Definition set_result (r : result_box) (d : dom) : dom :=
  mkDom d.(alerts) d.(test_busy) d.(test_label) d.(refresh_busy) d.(refresh_label)
    (Some r) d.(invoice_shown) d.(keys_shown) d.(stats_shown).

Definition set_invoice (v : invoice_view) (d : dom) : dom :=
  mkDom d.(alerts) d.(test_busy) d.(test_label) d.(refresh_busy) d.(refresh_label)
    d.(api_result) (Some v) d.(keys_shown) d.(stats_shown).

(** [updateStats()]. *)
Definition set_stats {G} (st : gateway G) (d : dom) : dom :=
  mkDom d.(alerts) d.(test_busy) d.(test_label) d.(refresh_busy) d.(refresh_label)
    d.(api_result) d.(invoice_shown) d.(keys_shown) (Some (updateStats st)).

(** [renderApiKeys(); updateStats();]. *)
Definition rerender {G} (st : gateway G) (d : dom) : dom :=
  mkDom d.(alerts) d.(test_busy) d.(test_label) d.(refresh_busy) d.(refresh_label)
    d.(api_result) d.(invoice_shown) (Some (renderApiKeys st.(apiKeys))) (Some (updateStats st)).

(** The buttons' idle [innerHTML]s, lines 502 and 559 (the two icons
    are the bytes of the source file); the busy ones, lines 494 and
    526, are [spinner]s. *)

Definition test_idle_label : string := "‚ö° Test API Call".

Definition refresh_idle_label : string := "üîÑ Refresh Balance".

(** The page as loaded, before [initializeApp] writes to it: the
    buttons enabled with the labels the handlers restore (the markup is
    not under src/), and the warning of lines 575-577 for the
    configured invoice key. *)
Definition loaded_dom (invoiceKey : string) : dom :=
  mkDom (match initializeApp_warning invoiceKey with
         | Some w => [showAlert w "warning"] | None => [] end)
    false test_idle_label false refresh_idle_label None None None None.

(** ** The handlers *)

Section Page.
Context {G : Type} `{MathLib G}.
Variable poll : poller.
(** [CONFIG.LNBITS_INVOICE_KEY]. *)
Variable invoiceKey : string.

Record page := mkPage {
  gw : gateway G;                           (** [appState] and [localStorage] *)
  ui : dom;
  call_key : option keyData;                (** [callHelloAPI]'s [keyData] *)
  waiters : list balance_waiter             (** pending [getWalletBalance()]s *)
}.

Definition with_ui (st : gateway G) (d : dom) (p : page) : page :=
  mkPage st d p.(call_key) p.(waiters).

(** [handleGenerateApiKey()], lines 481-485. *)
Definition handleGenerateApiKey (created : string) (p : page) : page :=
  let st' := createNewApiKey created p.(gw) in
  with_ui st' (rerender st' (add_alert (showAlert "New API Key generated successfully!" "success") p.(ui))) p.

(** [confirmDeleteApiKey(keyId)], lines 466-472: [deleteApiKey] alerts
    when [findIndex] finds the key. *)
Definition confirmDeleteApiKey (keyId : string) (confirmed : bool) (p : page) : page :=
  if confirmed then
    let st' := deleteApiKey keyId p.(gw) in
    let d := if bool_decide (is_Some (list_find (fun kd => kd.(kid) = keyId) p.(gw).(apiKeys)))
             then add_alert (showAlert "API Key deleted successfully" "success") p.(ui) else p.(ui) in
    with_ui st' (rerender st' d) p
  else p.

(** [copyApiKey(apiKey)], lines 441-447, once [writeText] settles. *)
Definition copyApiKey (ok : bool) (p : page) : page :=
  with_ui p.(gw) (add_alert (if ok then showAlert "API Key copied to clipboard" "success"
                             else showAlert "Failed to copy" "error") p.(ui)) p.

(** [copyInvoice(invoice)], lines 453-459, once [writeText] settles. *)
Definition copyInvoice (ok : bool) (p : page) : page :=
  with_ui p.(gw) (add_alert (if ok then showAlert "Invoice copied to clipboard" "success"
                             else showAlert "Failed to copy" "error") p.(ui)) p.

(** [handleRefreshBalance()] up to [await getWalletBalance()], lines
    490-496. *)
Definition refresh_start (w : balance_waiter) (p : page) : page :=
  mkPage p.(gw) (set_refresh true (spinner "Refreshing...") p.(ui)) p.(call_key) (p.(waiters) ++ [w]).

(** [handleTestAPI]'s [catch] and [finally], lines 547-560. *)
Definition test_fail (message : string) (d : dom) : dom :=
  set_result (BoxError message) (add_alert (showAlert ("API error: " +:+ message) "error") d).

Definition test_finally (d : dom) : dom := set_test false test_idle_label d.

(** The [i]-th pending [getWalletBalance()] settles, from [answer]
    ([None]: the request threw, line 158): the rest of [initializeApp]
    (lines 586-587), or of [handleRefreshBalance] (lines 498-505) and,
    for a paid test call, its [finally]. *)
Definition balance_done (i : nat) (w : balance_waiter) (answer : option Q) (p : page) : page :=
  let st' := with_balance (getWalletBalance answer) p.(gw) in
  let d1 := if answer is None then add_alert (showAlert "Failed to fetch wallet balance" "error") p.(ui)
            else p.(ui) in
  let refreshed := add_alert (showAlert "Wallet balance updated" "success")
                     (set_refresh false refresh_idle_label (set_stats st' d1)) in
  let d2 := match w with
            | ForInit => rerender st' d1
            | ForRefresh => refreshed
            | ForTest => test_finally refreshed
            end in
  mkPage st' d2 p.(call_key) (delete i p.(waiters)).

(** [handleTestAPI()] up to [callHelloAPI]'s [await createInvoice],
    lines 511-529 and 291-300: an empty key is refused before the
    button changes; an unknown one makes [callHelloAPI] throw at once. *)
Definition handleTestAPI_click (input : option string) (p : page) : page :=
  let apiKey := test_key input in
  if String.eqb apiKey "" then with_ui p.(gw) (add_alert (showAlert "Please enter an API Key" "warning") p.(ui)) p
  else
    let d1 := set_test true (spinner "Processing...") p.(ui) in
    match validateApiKey apiKey p.(gw), callHelloAPI_start apiKey p.(gw) with
    | Some kd, Some st1 =>
        mkPage st1 (add_alert (showAlert "Creating Lightning Invoice..." "info") d1) (Some kd) p.(waiters)
    | _, _ => with_ui p.(gw) (test_finally (test_fail "Invalid API Key" d1)) p
    end.

(** [createInvoice] settles (line 300): the invoice is stored, shown
    and announced (lines 302-307), or the error reaches [handleTestAPI]. *)
Definition handleTestAPI_invoice (f : Http.fetched) (p : page) : page :=
  match Http.lnbitsRequest_response f with
  | Http.Ok data =>
      let st2 := callHelloAPI_invoice (Http.js_text (Http.get "payment_hash" data)) p.(gw) in
      let view := displayInvoice (Abi.lit (Http.js_text (Http.get "payment_request" data))) in
      with_ui st2 (add_alert (showAlert "Please complete payment via Lightning Invoice" "warning")
                     (set_invoice view p.(ui))) p
  | Http.Err m => with_ui (callHelloAPI_invoice_failed p.(gw)) (test_finally (test_fail m p.(ui))) p
  end.

(** [waitForPayment] settles with [paid] after [n] requests: lines
    312-328 of [callHelloAPI], then [handleTestAPI]: the response, the
    re-render and [handleRefreshBalance()] (lines 531-545), or the
    timeout error (lines 547-560). *)
Definition handleTestAPI_paid (ans : nat -> check) (paid : bool) (n : nat) (p : page) : page :=
  let st3 := callHelloAPI_done paid (count_paid ans n p.(gw)) in
  match p.(call_key) with
  | Some kd =>
      match callHelloAPI_outcome kd paid with
      | Http.Ok resp =>
          let d := set_result (BoxSuccess resp)
                     (add_alert (showAlert "Payment confirmed!" "success") p.(ui)) in
          refresh_start ForTest (mkPage st3 (rerender st3 d) None p.(waiters))
      | Http.Err m => mkPage st3 (test_finally (test_fail m p.(ui))) None p.(waiters)
      end
  | None => p
  end.

(** A page load: a fresh page and [initializeApp()] up to its [await
    getWalletBalance()], lines 571-583. *)
Definition page_load (p : page) : page :=
  mkPage (reload p.(gw)) (loaded_dom invoiceKey) None [ForInit].

Inductive page_step : page -> page -> Prop :=
  | ps_generate p created : page_step p (handleGenerateApiKey created p)
  | ps_delete p keyId confirmed : page_step p (confirmDeleteApiKey keyId confirmed p)
  | ps_copy_key p ok : page_step p (copyApiKey ok p)
  | ps_copy_invoice p ok : page_step p (copyInvoice ok p)
  | ps_refresh p : p.(ui).(refresh_busy) = false -> page_step p (refresh_start ForRefresh p)
  | ps_test p input : p.(ui).(test_busy) = false -> page_step p (handleTestAPI_click input p)
  | ps_invoice p f :
      is_Some p.(gw).(calling) -> p.(gw).(waiting) = None -> page_step p (handleTestAPI_invoice f p)
  | ps_paid p hash ans paid n :
      p.(gw).(waiting) = Some hash -> poll.(run) 60 ans = Some (paid, n) ->
      page_step p (handleTestAPI_paid ans paid n p)
  | ps_balance p i w answer : p.(waiters) !! i = Some w -> page_step p (balance_done i w answer p)
  | ps_reload p : page_step p (page_load p).

(** The first visit: the page loads on a fresh [localStorage]. *)
Definition first_load (g : G) : page := page_load (mkPage (first_visit g) (loaded_dom invoiceKey) None []).

Inductive page_reachable : page -> Prop :=
  | pr_init g : page_reachable (first_load g)
  | pr_step p p' : page_reachable p -> page_step p p' -> page_reachable p'.

End Page.

(** ** The pending test call *)

Definition count_test (ws : list balance_waiter) : nat := length (filter (fun w => w = ForTest) ws).

Definition test_pending {G} (p : page (G:=G)) : nat :=
  (match p.(gw).(calling) with Some _ => 1 | None => 0 end) + count_test p.(waiters).

(** The button is disabled, with the spinner, exactly while the one
    test call is pending; a payment awaited is a call's; a call holds
    its [keyData]. *)
Definition page_inv {G} (p : page (G:=G)) : Prop :=
  test_pending p <= 1 /\
  (p.(ui).(test_busy) = true <-> test_pending p = 1) /\
  p.(ui).(test_label) = (if p.(ui).(test_busy) then spinner "Processing..." else test_idle_label) /\
  (is_Some p.(gw).(waiting) -> is_Some p.(gw).(calling)) /\
  (is_Some p.(gw).(calling) -> is_Some p.(call_key)).

(** ** Lemmas *)

Lemma count_test_app ws1 ws2 : count_test (ws1 ++ ws2) = count_test ws1 + count_test ws2.
Proof. unfold count_test. by rewrite filter_app, length_app. Qed.

Lemma count_test_delete ws i w :
  ws !! i = Some w -> count_test ws = count_test (delete i ws) + (if w is ForTest then 1 else 0).
Proof.
  intros Hi. rewrite delete_take_drop, <- (take_drop_middle ws i w Hi) at 1.
  rewrite !count_test_app. unfold count_test. rewrite filter_cons.
  destruct w; case_decide; cbn [length]; first [lia | congruence].
Qed.

Lemma count_test_pos ws : 0 < count_test ws <-> ForTest ∈ ws.
Proof.
  unfold count_test. split.
  - intros Hc. destruct (filter _ ws) as [|w r] eqn:E; [cbn in Hc; lia|].
    assert (Hw : w ∈ filter (fun w => w = ForTest) ws) by (rewrite E; left).
    apply list_elem_of_filter in Hw as [-> ?]. done.
  - intros Hin. assert (ForTest ∈ filter (fun w => w = ForTest) ws) as Hf
      by (by apply list_elem_of_filter).
    destruct (filter _ ws); [by apply not_elem_of_nil in Hf|cbn; lia].
Qed.

Section Lemmas.
Context {G : Type} `{MathLib G}.

(** The store operations leave the call in flight alone. *)
Definition same_call (st st' : gateway G) : Prop :=
  st'.(calling) = st.(calling) /\ st'.(waiting) = st.(waiting).

Lemma createNewApiKey_same_call c st : same_call st (createNewApiKey c st).
Proof.
  unfold createNewApiKey. destruct (generateApiKey _) as [k g1].
  destruct (generateUUID g1) as [id g2]. split; reflexivity.
Qed.

Lemma deleteApiKey_same_call k st : same_call st (deleteApiKey k st).
Proof. unfold deleteApiKey. destruct (list_find _ _) as [[i kd]|]; split; reflexivity. Qed.

Lemma updateApiKeyUsage_same_call k c st : same_call st (updateApiKeyUsage k c st).
Proof. unfold updateApiKeyUsage. destruct (list_find _ _) as [[i kd]|]; split; reflexivity. Qed.

Lemma count_paid_same_call ans n st : same_call st (count_paid ans n st).
Proof. unfold count_paid. destruct (existsb _ _); split; reflexivity. Qed.

Lemma callHelloAPI_done_ends paid (st : gateway G) : (callHelloAPI_done paid st).(calling) = None /\
  (callHelloAPI_done paid st).(waiting) = None.
Proof.
  unfold callHelloAPI_done. destruct (calling st); [destruct paid|]; try (split; reflexivity).
  apply updateApiKeyUsage_same_call.
Qed.

Lemma reload_ends (st : gateway G) : (reload st).(calling) = None /\ (reload st).(waiting) = None.
Proof. unfold reload, loadApiKeys. cbn. destruct (storage st); split; reflexivity. Qed.

Lemma page_inv_frame (p p' : page (G:=G)) :
  page_inv p -> p'.(gw).(calling) = p.(gw).(calling) ->
  p'.(gw).(waiting) = p.(gw).(waiting) \/ is_Some p.(gw).(calling) ->
  p'.(call_key) = p.(call_key) -> count_test p'.(waiters) = count_test p.(waiters) ->
  p'.(ui).(test_busy) = p.(ui).(test_busy) -> p'.(ui).(test_label) = p.(ui).(test_label) ->
  page_inv p'.
Proof.
  unfold page_inv, test_pending. intros (H1 & H2 & H3 & H4 & H5) Hc Hw Hk Hn Hb Hl.
  rewrite Hc, Hk, Hn, Hb, Hl. split_and!; try assumption.
  intros Hs. destruct Hw as [Hw|Hw]; [apply H4; by rewrite <- Hw|exact Hw].
Qed.

Lemma page_inv_idle (p : page (G:=G)) :
  p.(gw).(calling) = None -> p.(gw).(waiting) = None -> count_test p.(waiters) = 0 ->
  p.(ui).(test_busy) = false -> p.(ui).(test_label) = test_idle_label -> page_inv p.
Proof.
  unfold page_inv, test_pending. intros -> -> -> -> ->.
  split_and!; [cbn; lia|split; [discriminate|cbn; lia]|done|by intros []|by intros []].
Qed.

(** With the button enabled no call is pending. *)
Lemma page_inv_enabled (p : page (G:=G)) :
  page_inv p -> p.(ui).(test_busy) = false ->
  p.(gw).(calling) = None /\ p.(gw).(waiting) = None /\ count_test p.(waiters) = 0.
Proof.
  unfold page_inv, test_pending. intros (H1 & H2 & _ & H4 & _) Hb. rewrite Hb in H2.
  destruct (calling (gw p)); [exfalso; destruct H2 as [_ H2]; discriminate H2; lia|].
  split; [done|]. split; [|destruct H2 as [_ H2]; cbn in *; lia].
  destruct (waiting (gw p)); [by destruct H4|done].
Qed.

Section Steps.
Variable poll : poller.
Variable invoiceKey : string.

Lemma page_load_inv (p : page (G:=G)) : page_inv (page_load invoiceKey p).
Proof. destruct (reload_ends p.(gw)) as [Hc Hw]. by apply page_inv_idle. Qed.

Lemma page_step_inv (p p' : page (G:=G)) :
  page_inv p -> page_step poll invoiceKey p p' -> page_inv p'.
Proof.
  intros Hi Hs. destruct Hs as [p c|p k [|]|p ok|p ok|p Hb|p input Hb|p f Hc Hw|p hash ans paid n Hw Hrun
                              |p i w answer Hiw|p].
  - destruct (createNewApiKey_same_call c p.(gw)) as [E1 E2].
    apply (page_inv_frame p); auto.
  - destruct (deleteApiKey_same_call k p.(gw)) as [E1 E2].
    apply (page_inv_frame p); auto; cbn; by case_bool_decide.
  - exact Hi.
  - by apply (page_inv_frame p); auto.
  - by apply (page_inv_frame p); auto.
  - apply (page_inv_frame p); auto. unfold refresh_start. cbn [waiters]. rewrite count_test_app.
    replace (count_test [ForRefresh]) with 0 by reflexivity. lia.
  - destruct (page_inv_enabled p Hi Hb) as (Hc & Hw & Hn). unfold handleTestAPI_click.
    destruct (String.eqb _ _); [by apply (page_inv_frame p); auto|].
    destruct (validateApiKey _ _) as [kd|] eqn:Ev; [|by apply page_inv_idle].
    unfold callHelloAPI_start. rewrite Ev.
    unfold page_inv, test_pending. cbn -[count_test spinner]. rewrite Hn, Hw.
    split_and!; [lia|done|done|by eexists|by eexists].
  - destruct Hi as (H1 & H2 & H3 & H4 & H5). unfold handleTestAPI_invoice.
    destruct (Http.lnbitsRequest_response f) as [data|m].
    + apply (page_inv_frame p); auto. split_and!; assumption.
    + unfold test_pending in H1. destruct Hc as [k Hc]. rewrite Hc in H1.
      apply page_inv_idle; cbn -[count_test]; try done; lia.
  - destruct Hi as (H1 & H2 & H3 & H4 & H5). unfold test_pending in H1, H2.
    destruct H4 as [k Hk]; [by eexists|]. rewrite Hk in H1, H2. destruct H5 as [kd Hkd]; [by eexists|].
    destruct (callHelloAPI_done_ends paid (count_paid ans n p.(gw))) as [Ec Ew].
    unfold handleTestAPI_paid. rewrite Hkd. destruct paid; cbn -[count_test spinner].
    + unfold page_inv, test_pending. cbn -[count_test spinner]. rewrite Ec, Ew, count_test_app, H3.
      replace (count_test (waiters p)) with 0 by lia. cbn.
      destruct (test_busy (ui p)); split_and!; try done; try lia; by intros [].
    + apply page_inv_idle; cbn -[count_test]; try done; lia.
  - destruct Hi as (H1 & H2 & H3 & H4 & H5). pose proof (count_test_delete _ _ _ Hiw) as Hn.
    unfold balance_done. destruct w.
    + apply (page_inv_frame p); cbn -[count_test]; auto; [|lia|by destruct answer..].
      by split_and!.
    + apply (page_inv_frame p); cbn -[count_test]; auto; [|lia|by destruct answer..].
      by split_and!.
    + unfold test_pending in H1. destruct (calling (gw p)) eqn:Ec; [lia|].
      destruct (waiting (gw p)) eqn:Ew; [by destruct H4|].
      apply page_inv_idle; cbn -[count_test]; try done; lia.
  - apply page_load_inv.
Qed.

Lemma page_reachable_inv (p : page (G:=G)) : page_reachable poll invoiceKey p -> page_inv p.
Proof. induction 1; [apply page_load_inv|by eapply page_step_inv]. Qed.

(** A page step is a gateway step or leaves [appState] alone. *)
Lemma page_step_refines (p p' : page (G:=G)) :
  page_inv p -> page_step poll invoiceKey p p' -> step poll p.(gw) p'.(gw) \/ p'.(gw) = p.(gw).
Proof.
  intros Hi Hs. destruct Hs as [p c|p k [|]|p ok|p ok|p Hb|p input Hb|p f Hc Hw|p hash ans paid n Hw Hrun
                              |p i w answer Hiw|p]; try (right; reflexivity).
  - left. apply st_create.
  - left. apply st_delete.
  - destruct (page_inv_enabled p Hi Hb) as (Hc & _ & _).
    unfold handleTestAPI_click. cbv zeta.
    destruct (String.eqb (test_key input) "") eqn:E; [right; reflexivity|].
    destruct (validateApiKey (test_key input) (gw p)) eqn:Ev; [|right; reflexivity].
    unfold callHelloAPI_start at 1. rewrite Ev. left. eapply st_call; [exact Hc|].
    unfold handleTestAPI_start, callHelloAPI_start. cbv zeta. by rewrite E, Ev.
  - unfold handleTestAPI_invoice. left.
    destruct (Http.lnbitsRequest_response f); [by apply st_invoice|by apply st_invoice_failed].
  - unfold handleTestAPI_paid. destruct (call_key p) as [kd|]; [|right; reflexivity].
    left. destruct (callHelloAPI_outcome kd paid); eapply st_paid; eassumption.
  - left. apply st_balance.
  - left. apply st_reload.
Qed.

(** (C33) The page refines the gateway model: on every page a user can
    reach by any interleaving of the handlers (key generation and
    deletion, copying, balance refreshes, test calls split at their
    awaits, page loads), [appState] and [localStorage] form a reachable
    state of [Gateway.step], so every theorem on those holds of the
    page. *)
Theorem page_refines (p : page (G:=G)) :
  page_reachable poll invoiceKey p -> reachable poll p.(gw).
Proof.
  induction 1 as [g|p p' Hr IH Hs].
  - apply (reach_step _ (first_visit g)); [apply reach_init|apply st_reload].
  - destruct (page_step_refines p p' (page_reachable_inv p Hr) Hs) as [Hg| ->]; [|exact IH].
    exact (reach_step _ _ _ IH Hg).
Qed.

(** (C34) On every reachable page the Test API button is disabled, with
    the spinner, exactly while a test call is pending (its invoice or
    payment awaited, or the balance refresh it ends with), and at most
    one call is pending: every path of [handleTestAPI], the thrown
    errors included, re-enables the button in its [finally]. *)
Theorem test_button_tracks_call (p : page (G:=G)) :
  page_reachable poll invoiceKey p ->
  (p.(ui).(test_busy) = true <-> is_Some p.(gw).(calling) \/ ForTest ∈ p.(waiters)) /\
  test_pending p <= 1 /\
  p.(ui).(test_label) = (if p.(ui).(test_busy) then spinner "Processing..." else test_idle_label).
Proof.
  intros Hr. destruct (page_reachable_inv p Hr) as (H1 & H2 & H3 & _).
  split_and!; [|exact H1|exact H3]. rewrite H2, <- count_test_pos. unfold test_pending in *.
  destruct (calling (gw p)); split; [by left; eexists|lia|intros; right; lia|].
  intros [[? ?]|?]; [discriminate|lia].
Qed.

End Steps.

End Lemmas.

(** ** A failed balance request *)

(** [getWalletBalance] answers a failed request with [0] (line 159), so
    [handleRefreshBalance] shows a balance of zero and reports, after
    the error, that the balance was updated. *)
Lemma refresh_failure_zeroes_balance {G} `{MathLib G} i (p : page (G:=G)) :
  let p' := balance_done i ForRefresh None p in
  p'.(gw).(walletBalance) = 0%Q /\ p'.(ui).(stats_shown) = Some (updateStats p'.(gw)) /\
  p'.(ui).(alerts) = p.(ui).(alerts) ++ [showAlert "Failed to fetch wallet balance" "error";
                                         showAlert "Wallet balance updated" "success"].
Proof. cbn. split_and!; [reflexivity|reflexivity|by rewrite <- app_assoc]. Qed.

(** ** Witnesses *)

(** The shipped configuration: a first visit, a key generated, and the
    Test API button clicked with it. *)
Definition pg_loaded : page (G:=Z) := first_load Http.LNBITS_INVOICE_KEY 1%Z.
Definition pg_generated : page (G:=Z) :=
  @handleGenerateApiKey Z Annealer.park_miller "2026-01-01T00:00:00.000Z" pg_loaded.
Definition pg_key : string := default "" (key <$> head pg_generated.(gw).(apiKeys)).
Definition pg_called : page (G:=Z) := handleTestAPI_click (Some pg_key) pg_generated.

Lemma pg_called_reachable :
  @page_reachable Z Annealer.park_miller gateway_poller Http.LNBITS_INVOICE_KEY pg_called.
Proof.
  eapply (pr_step _ _ pg_generated); [|apply ps_test; vm_compute; reflexivity].
  eapply (pr_step _ _ pg_loaded); [apply pr_init|apply ps_generate].
Qed.

Lemma page_refines_witness :
  @page_reachable Z Annealer.park_miller gateway_poller Http.LNBITS_INVOICE_KEY pg_called /\
  @reachable Z Annealer.park_miller gateway_poller pg_called.(gw).
Proof. split; [exact pg_called_reachable|exact (page_refines _ _ _ pg_called_reachable)]. Defined.

Lemma test_button_tracks_call_witness :
  @page_reachable Z Annealer.park_miller gateway_poller Http.LNBITS_INVOICE_KEY pg_called /\
  is_Some pg_called.(gw).(calling) /\ pg_called.(ui).(test_busy) = true.
Proof.
  split; [exact pg_called_reachable|]. split; [vm_compute; by eexists|].
  apply (proj1 (test_button_tracks_call _ _ _ pg_called_reachable)). left. vm_compute. by eexists.
Defined.

End GatewayPage.
